(** * Chat adapters: a shallow embedding of the five provider classes

    The repository holds five stand-alone Python classes, one per provider:
    [PerplexityChat], [OpenAIChat], [GroqChat], [AnthropicChat] and
    [GeminiChat].  Each owns a conversation history (a list of dicts), a
    configuration (a dict from parameter name to value), builds a wire
    request from both and appends to the history around one exchange.

    The embedding follows the Python text:
    - Python values are the type [PyVal]; a [float] is an IEEE binary64
      number ([PrimFloat.float]), a [str] is the string of the bytes of its
      UTF-8 form, a JSON object is an association list in insertion order;
    - [current_config] is a finite map from key to value ([gmap]);
    - a method of a class is a function in the monad [Py]: it threads the
      instance ([session]) and either returns a value or raises; state
      changes made before an exception stay, as in Python;
    - what the outside world answers (the HTTP transport, the provider SDK,
      the image library, the process environment) is an argument of the
      method that asks for it;
    - the interpreter's own conversions ([float(x)], [int(x)], [str(x)],
      [repr(x)], [s.lower()]) are the interface [PyBuiltins]: every general
      theorem holds for all implementations of it, and [Interp.python] is
      one, for running the model.
    Console output ([print]) is left out throughout: a [print] is taken to
    return, whatever it is given.

    The chat loops read the console pass by pass ([pass]); the string
    methods they call that depend on the character tables of Unicode are
    the interface [PyText], with [Console.python_text] to run them. The
    file that [save_conversation] writes is a function of the instance,
    the clock and the file system ([desk]); a write to it fails where the
    encoder of the file does ([utf8_error]). *)

From Stdlib Require Import PrimFloat ZArith SpecFloat FloatOps Ascii.
From stdpp Require Import base option list strings gmap pretty.

Set Warnings "-inexact-float,-register-all".

(** ** Python values *)

Inductive PyVal : Type :=
| VNone
| VBool (b : bool)
| VInt (z : Z)
| VFloat (f : float)
| VStr (s : string)
| VList (items : list PyVal)
| VDict (entries : list (string * PyVal)).

(** [bool(v)]: what [if v:] tests. *)
Definition truthy (v : PyVal) : bool :=
  match v with
  | VNone => false
  | VBool b => b
  | VInt z => negb (z =? 0)%Z
  | VFloat f => negb (PrimFloat.eqb f 0%float)
  | VStr s => negb (String.eqb s EmptyString)
  | VList items => match items with [] => false | _ => true end
  | VDict entries => match entries with [] => false | _ => true end
  end.

(** ** Exceptions and results *)

(** A response object of the [requests] library, as far as the classes look
    at it. [json_body = None] stands for a body that is no JSON document. *)
Record Response := {
  status_code : Z;
  reason : string;
  response_url : string;
  text : string;
  json_body : option PyVal
}.

(** The exception classes the handlers tell apart. [RequestException]
    stands for [requests.exceptions.RequestException] and its subclasses,
    [Exception] for any other subclass of [Exception]. *)
Inductive exn_class :=
| RequestException
| KeyError
| IndexError
| TypeError
| ValueError
| AttributeError
| UnboundLocalError
| Exception.

(** What an exception was built with: a message, as in [ValueError("...")]
    and in the exceptions of the libraries, or the key of a [KeyError]. *)
Inductive exn_args :=
| Message (text : string)
| Key (key : PyVal).

(** An exception: its class, its arguments and [e.response]. *)
Record exn := Exn {
  exn_class_of : exn_class;
  exn_args_of : exn_args;
  exn_response : option Response
}.

(** An exception with a message. *)
Definition mk_exn (class : exn_class) (msg : string) (response : option Response) : exn :=
  Exn class (Message msg) response.

Definition is_RequestException (e : exn) : bool :=
  match exn_class_of e with RequestException => true | _ => false end.

Inductive result (A : Type) : Type :=
| Ok (a : A)
| Raise (e : exn).
Arguments Ok {A} a.
Arguments Raise {A} e.

Global Instance result_ret : MRet result := λ A a, Ok a.
Global Instance result_bind : MBind result := λ A B k r,
  match r with Ok a => k a | Raise e => Raise e end.
Global Instance result_fmap : FMap result := λ A B f r,
  match r with Ok a => Ok (f a) | Raise e => Raise e end.

Definition key_error {A} (k : string) : result A :=
  Raise (Exn KeyError (Key (VStr k)) None).
Definition index_error {A} (what : string) : result A :=
  Raise (mk_exn IndexError (what +:+ " index out of range") None).
Definition type_error {A} (msg : string) : result A :=
  Raise (mk_exn TypeError msg None).
Definition attribute_error {A} (msg : string) : result A :=
  Raise (mk_exn AttributeError msg None).
Definition value_error {A} (msg : string) : result A :=
  Raise (mk_exn ValueError msg None).

(** [type(v).__name__], as the messages of the interpreter name a type. *)
Definition type_name (v : PyVal) : string :=
  match v with
  | VNone => "NoneType"
  | VBool _ => "bool"
  | VInt _ => "int"
  | VFloat _ => "float"
  | VStr _ => "str"
  | VList _ => "list"
  | VDict _ => "dict"
  end.

(** ** Dicts, subscripts and membership *)

(** [d.get(k)] on the entries of a dict; keys are pairwise distinct in a
    Python dict, the first entry answers here. *)
Fixpoint dict_get (k : string) (entries : list (string * PyVal)) : option PyVal :=
  match entries with
  | [] => None
  | (k', v) :: rest => if String.eqb k' k then Some v else dict_get k rest
  end.

(** [d[k] = v]: in place when the key exists, at the end otherwise. *)
Fixpoint dict_set (k : string) (v : PyVal) (entries : list (string * PyVal))
  : list (string * PyVal) :=
  match entries with
  | [] => [(k, v)]
  | (k', v') :: rest =>
      if String.eqb k' k then (k', v) :: rest else (k', v') :: dict_set k v rest
  end.

(** [k in d] for a dict. *)
Definition dict_has (k : string) (entries : list (string * PyVal)) : bool :=
  match dict_get k entries with Some _ => true | None => false end.

(** [needle in haystack] for two strings. *)
Definition str_contains (needle haystack : string) : bool :=
  match String.index 0 needle haystack with Some _ => true | None => false end.

(** [v[k]] with a string subscript. *)
Definition py_getitem (v : PyVal) (k : string) : result PyVal :=
  match v with
  | VDict entries =>
      match dict_get k entries with Some x => Ok x | None => key_error k end
  | VList _ => type_error "list indices must be integers or slices, not str"
  | VStr _ => type_error "string indices must be integers, not 'str'"
  | _ => type_error ("'" +:+ type_name v +:+ "' object is not subscriptable")
  end.

(** [v[0]]. A dict read from JSON has string keys only, so [d[0]] finds
    nothing. *)
Definition py_getitem0 (v : PyVal) : result PyVal :=
  match v with
  | VList items =>
      match items with x :: _ => Ok x | [] => index_error "list" end
  | VStr s =>
      match s with
      | String c _ => Ok (VStr (String c EmptyString))
      | EmptyString => index_error "string"
      end
  | VDict _ => Raise (Exn KeyError (Key (VInt 0)) None)
  | _ => type_error ("'" +:+ type_name v +:+ "' object is not subscriptable")
  end.

(** [k in v] with a string on the left. *)
Definition py_contains (k : string) (v : PyVal) : result bool :=
  match v with
  | VDict entries => Ok (dict_has k entries)
  | VList items =>
      Ok (existsb (λ x, match x with VStr s => String.eqb s k | _ => false end) items)
  | VStr s => Ok (str_contains k s)
  | _ => type_error ("argument of type '" +:+ type_name v +:+ "' is not iterable")
  end.

(** [v.get(k, fallback)]: a method of dicts only. *)
Definition py_get (v : PyVal) (k : string) (fallback : PyVal) : result PyVal :=
  match v with
  | VDict entries => Ok (default fallback (dict_get k entries))
  | _ => attribute_error ("'" +:+ type_name v +:+ "' object has no attribute 'get'")
  end.

(** [value in models] for a list of strings: only an equal string is in. *)
Definition in_models (value : PyVal) (models : list string) : bool :=
  match value with
  | VStr s => bool_decide (s ∈ models)
  | _ => false
  end.

(** ** The interpreter's conversions *)

Class PyBuiltins := {
  (** [float(x)]: [ValueError] on a malformed string, [TypeError] on [None]. *)
  py_float : PyVal → result float;
  (** [int(x)] *)
  py_int : PyVal → result Z;
  (** [str(x)], also what an f-string writes for [{x}] *)
  py_str : PyVal → string;
  (** [repr(x)] *)
  py_repr : PyVal → string;
  (** [s.lower()] *)
  str_lower : string → string
}.

(** [str(e)]: the message, or the [repr] of the key of a [KeyError]. *)
Definition exn_str `{PyBuiltins} (e : exn) : string :=
  match exn_args_of e with
  | Message text => text
  | Key key => py_repr key
  end.

(** The [ValueError] of the three [update_config] methods for a model that
    is not in the list. *)
Definition model_unavailable `{PyBuiltins} {A} (value : PyVal) (models : list string)
  : result A :=
  value_error ("Modelo '" +:+ py_str value +:+ "' não disponível. Escolha entre: "
                 +:+ String.concat ", " models).

(** [0 <= f <= 1] *)
Definition between_0_and_1 (f : float) : bool :=
  PrimFloat.leb 0%float f && PrimFloat.leb f 1%float.

(** ** The instance and the monad of its methods *)

(** The attributes of a chat object that its methods read or write.  The
    model list and the system messages are set once in [__init__] and are
    constants of each class below. *)
Record session := Session {
  api_key : string;
  conversation_history : list PyVal;
  current_config : gmap string PyVal
}.

Definition Py (A : Type) : Type := session → session * result A.

Global Instance Py_ret : MRet Py := λ A a s, (s, Ok a).
Global Instance Py_bind : MBind Py := λ A B k m s,
  match m s with
  | (s', Ok a) => k a s'
  | (s', Raise e) => (s', Raise e)
  end.

Global Instance Py_fmap : FMap Py := λ A B f m s,
  match m s with
  | (s', Ok a) => (s', Ok (f a))
  | (s', Raise e) => (s', Raise e)
  end.

Definition lift {A} (r : result A) : Py A := λ s, (s, r).

(** [try: body except C1 as e: h1 except C2 as e: h2 ...]: the first clause
    that matches handles the exception, in the state the body left behind;
    an exception no clause matches, or one a handler raises, goes on. *)
Fixpoint handle {A} (clauses : list ((exn → bool) * (exn → Py A))) (e : exn) : Py A :=
  match clauses with
  | [] => λ s, (s, Raise e)
  | (matches, handler) :: rest => if matches e then handler e else handle rest e
  end.

Definition try_except {A} (body : Py A) (clauses : list ((exn → bool) * (exn → Py A)))
  : Py A := λ s,
  match body s with
  | (s', Ok a) => (s', Ok a)
  | (s', Raise e) => handle clauses e s'
  end.

Definition any_Exception (e : exn) : bool := true.

Definition get_api_key : Py string := λ s, (s, Ok (api_key s)).
Definition get_history : Py (list PyVal) := λ s, (s, Ok (conversation_history s)).
Definition get_config_dict : Py (gmap string PyVal) := λ s, (s, Ok (current_config s)).

(** [self.conversation_history.append(m)] *)
Definition history_append (m : PyVal) : Py unit := λ s,
  (Session (api_key s) (conversation_history s ++ [m]) (current_config s), Ok tt).

(** [d[k]] on a config dict *)
Definition config_lookup (cfg : gmap string PyVal) (k : string) : result PyVal :=
  match cfg !! k with Some v => Ok v | None => key_error k end.

(** [self.current_config[k]] *)
Definition config_get (k : string) : Py PyVal := λ s,
  (s, config_lookup (current_config s) k).

(** [self.current_config[k] = v] *)
Definition config_set (k : string) (v : PyVal) : Py unit := λ s,
  (Session (api_key s) (conversation_history s) (<[k := v]> (current_config s)), Ok tt).

(** [for x in items: body(x)] *)
Fixpoint py_for {A} (items : list A) (body : A → Py unit) : Py unit :=
  match items with
  | [] => mret tt
  | x :: rest => body x ;; py_for rest body
  end.

(** [chat.update_config] called with the entries of [config_dict] as its
    keyword arguments: a keyword named [self] collides with the receiver
    of the method, the call raises [TypeError] and the method does not
    run. *)
Definition call_update_config (class_name : string)
  (update_config : list (string * PyVal) → Py unit) (config_dict : list (string * string))
  : Py unit :=
  if bool_decide ("self" ∈ config_dict.*1) then
    lift (type_error (class_name +:+ ".update_config() got multiple values for argument 'self'"))
  else update_config (map (λ '(key, value), (key, VStr value)) config_dict).

(** The two messages a class builds itself. *)
Definition mk_user_message (message : string) : PyVal :=
  VDict [("role", VStr "user"); ("content", VStr message)].
Definition mk_assistant_message (content : PyVal) : PyVal :=
  VDict [("role", VStr "assistant"); ("content", content)].
Definition mk_system_message (content : string) : PyVal :=
  VDict [("role", VStr "system"); ("content", VStr content)].

(** [v is None] *)
Definition is_None (v : PyVal) : bool :=
  match v with VNone => true | _ => false end.

(** [key in self.current_config] *)
Definition config_has (cfg : gmap string PyVal) (key : string) : bool :=
  bool_decide (is_Some (cfg !! key)).

(** The two system messages that four of the five classes share. *)
Definition helpful_system_messages : gmap string string :=
  list_to_map
    [("pt-br", "Você é um assistente prestativo. Responda sempre em português do Brasil de forma clara e natural.");
     ("en", "You are a helpful assistant. Always respond in English in a clear and natural way.")].

(** [self.system_messages[language]]: a dict keyed by the language tag. A
    list or dict cannot be a key at all, and no other value equals one of
    the tags. *)
Definition system_message_for (system_messages : gmap string string) (language : PyVal)
  : result string :=
  match language with
  | VStr tag =>
      match system_messages !! tag with
      | Some m => Ok m
      | None => key_error tag
      end
  | VList _ | VDict _ =>
      type_error ("unhashable type: '" +:+ type_name language +:+ "'")
  | _ => Raise (Exn KeyError (Key language) None)
  end.

(** ** The process environment *)

(** [os.getenv(name)] after [load_dotenv()]: the variables of the process
    together with those of the [.env] file. *)
Definition getenv (env : gmap string string) (name : string) : option string :=
  env !! name.

(** [not self.api_key]: the variable is missing or empty. *)
Definition credential_absent (key : option string) : bool :=
  match key with
  | None => true
  | Some k => negb (truthy (VStr k))
  end.

(** ** The HTTP transport ([requests]) *)

(** [requests.post(url, headers=..., json=... / data=json.dumps(...))]:
    the answer of the network to one request. *)
Definition http_post : Type := string → PyVal → PyVal → result Response.

(** [response.raise_for_status()]: an [HTTPError] for a 4xx or 5xx status,
    carrying the response. *)
Definition raise_for_status (r : Response) : result unit :=
  if (400 <=? status_code r)%Z && (status_code r <? 500)%Z then
    Raise (mk_exn RequestException
             (pretty (status_code r) +:+ " Client Error: " +:+ reason r
                +:+ " for url: " +:+ response_url r) (Some r))
  else if (500 <=? status_code r)%Z && (status_code r <? 600)%Z then
    Raise (mk_exn RequestException
             (pretty (status_code r) +:+ " Server Error: " +:+ reason r
                +:+ " for url: " +:+ response_url r) (Some r))
  else Ok tt.

(** [response.json()]: [requests.exceptions.JSONDecodeError], a
    [RequestException], when the body is no JSON. *)
Definition response_json (r : Response) : result PyVal :=
  match json_body r with
  | Some v => Ok v
  | None => Raise (mk_exn RequestException "Expecting value: line 1 column 1 (char 0)" (Some r))
  end.

(** ** The provider SDK ([openai], [groq]) *)

(** One choice of a streamed chunk: [delta.content] and [finish_reason]. *)
Record chunk_choice := {
  delta_content : option string;
  finish_reason : option string
}.

Record ChatCompletionChunk := { chunk_choices : list chunk_choice }.

(** What the iteration over a stream does next: hand out a chunk, or raise
    (a dropped connection, a malformed event). The list ends where the
    iterator stops. *)
Inductive stream_item :=
| Yield (c : ChatCompletionChunk)
| StreamRaises (e : exn).

(** [choices[i].message.content] of a completion that is not streamed. *)
Record ChatCompletion := { completion_choices : list PyVal }.

Inductive sdk_object :=
| SdkStream (items : list stream_item)
| SdkCompletion (c : ChatCompletion).

(** [client.chat.completions.create] on the keyword arguments [params] *)
Definition sdk_create : Type := PyVal → result sdk_object.

(** [for chunk in stream: if chunk.choices[0].delta.content is not None:
    response_content += content], from the text gathered so far. *)
Fixpoint consume_stream (items : list stream_item) (response_content : string)
  : result string :=
  match items with
  | [] => Ok response_content
  | StreamRaises e :: _ => Raise e
  | Yield chunk :: rest =>
      match chunk_choices chunk with
      | [] => index_error "list"
      | choice :: _ =>
          match delta_content choice with
          | Some content => consume_stream rest (response_content +:+ content)
          | None => consume_stream rest response_content
          end
      end
  end.

(** [for chunk in stream: ...] on the object [create] returned. Iterating
    a completion object yields (field, value) pairs, which have no
    [choices]. *)
Definition drain_stream (stream : sdk_object) : result string :=
  match stream with
  | SdkStream items => consume_stream items EmptyString
  | SdkCompletion _ => attribute_error "'tuple' object has no attribute 'choices'"
  end.

(** [stream.choices[0].message.content]; a stream object has no [choices]. *)
Definition first_message_content (stream : sdk_object) : result PyVal :=
  match stream with
  | SdkCompletion c =>
      match completion_choices c with
      | content :: _ => Ok content
      | [] => index_error "list"
      end
  | SdkStream _ => attribute_error "'Stream' object has no attribute 'choices'"
  end.

(** A line feed, the [\n] of the Python strings. *)
Definition LF : string := String (Ascii.ascii_of_nat 10) EmptyString.

(** ** PerplexityChat (src/perplexity_request.py) *)

Module Perplexity.

Definition env_var : string := "PERPLEXITY_API_KEY".
Definition url : string := "https://api.perplexity.ai/chat/completions".

Definition available_models : list string :=
  ["llama-3.1-sonar-small-128k-chat";
   "llama-3.1-sonar-large-128k-chat";
   "llama-3.1-sonar-small-128k-online";
   "llama-3.1-sonar-large-128k-online";
   "llama-3.1-sonar-huge-128k-online"].

Definition default_config : gmap string PyVal :=
  list_to_map
    [("model", VStr "llama-3.1-sonar-small-128k-online");
     ("temperature", VFloat 0.2);
     ("top_p", VFloat 0.9);
     ("top_k", VInt 0);
     ("max_tokens", VNone);
     ("presence_penalty", VInt 0);
     ("frequency_penalty", VInt 1);
     ("return_citations", VBool true);
     ("return_related_questions", VBool false);
     ("search_recency_filter", VNone);
     ("language", VStr "pt-br")].

Definition system_messages : gmap string string := helpful_system_messages.

(** [__init__] *)
Definition init (env : gmap string string) : result session :=
  match getenv env env_var with
  | Some key =>
      if truthy (VStr key) then Ok (Session key [] default_config)
      else value_error "PERPLEXITY_API_KEY não encontrada no arquivo .env"
  | None => value_error "PERPLEXITY_API_KEY não encontrada no arquivo .env"
  end.

Definition create_headers (key : string) : PyVal :=
  VDict [("Authorization", VStr ("Bearer " +:+ key));
         ("Content-Type", VStr "application/json")].

(** [create_request_body(self, messages)], reading [self.current_config]. *)
Definition create_request_body (cfg : gmap string PyVal) (messages : list PyVal)
  : result PyVal :=
  language ← config_lookup cfg "language";
  content ← system_message_for system_messages language;
  let system_message := mk_system_message content in
  let full_messages := [system_message] ++ messages in
  model ← config_lookup cfg "model";
  temperature ← config_lookup cfg "temperature";
  top_p ← config_lookup cfg "top_p";
  top_k ← config_lookup cfg "top_k";
  presence_penalty ← config_lookup cfg "presence_penalty";
  frequency_penalty ← config_lookup cfg "frequency_penalty";
  return_citations ← config_lookup cfg "return_citations";
  return_related_questions ← config_lookup cfg "return_related_questions";
  let body :=
    [("model", model);
     ("messages", VList full_messages);
     ("temperature", temperature);
     ("top_p", top_p);
     ("top_k", top_k);
     ("presence_penalty", presence_penalty);
     ("frequency_penalty", frequency_penalty);
     ("return_citations", return_citations);
     ("return_related_questions", return_related_questions)] in
  max_tokens ← config_lookup cfg "max_tokens";
  let body :=
    if negb (is_None max_tokens) then dict_set "max_tokens" max_tokens body else body in
  search_recency_filter ← config_lookup cfg "search_recency_filter";
  let body :=
    if truthy search_recency_filter
    then dict_set "search_recency_filter" search_recency_filter body else body in
  mret (VDict body).

(** [send_message(self, message)]; [post] is [requests.post]. Only a
    [RequestException] is handled here, any other exception leaves the
    method. *)
Definition send_message `{PyBuiltins} (post : http_post) (message : string) : Py PyVal :=
  history_append (mk_user_message message) ;;
  try_except
    (key ← get_api_key;
     history ← get_history;
     cfg ← get_config_dict;
     body ← lift (create_request_body cfg history);
     response ← lift (post url (create_headers key) body);
     lift (raise_for_status response) ;;
     result ← lift (response_json response);
     choices ← lift (py_getitem result "choices");
     choice ← lift (py_getitem0 choices);
     assistant_message ← lift (py_getitem choice "message");
     history_append assistant_message ;;
     content ← lift (py_getitem assistant_message "content");
     citations ← lift (py_get assistant_message "citations" (VList []));
     mret (VDict [("content", content); ("citations", citations)]))
    [(is_RequestException, λ e, mret (VDict [("error", VStr (exn_str e))]))].

(** The conversion of one raw value in the [config key=value] command of
    [main]. *)
Definition convert_value `{PyBuiltins} (key value : string) : result PyVal :=
  if bool_decide (key ∈ ["temperature"; "top_p"; "presence_penalty"; "frequency_penalty"])
  then VFloat <$> py_float (VStr value)
  else if bool_decide (key ∈ ["max_tokens"; "top_k"])
  then
    if negb (String.eqb (str_lower value) "none")
    then VInt <$> py_int (VStr value) else mret VNone
  else if bool_decide (key ∈ ["return_citations"; "return_related_questions"])
  then mret (VBool (String.eqb (str_lower value) "true"))
  else mret (VStr value).

(** The loop of the [config key=value ...] command of [main] over
    [config_dict.items()]. An exception leaves the loop; [main] reports it. *)
Definition config_command `{PyBuiltins} (config_dict : list (string * string)) : Py unit :=
  py_for config_dict (λ '(key, value),
    cfg ← get_config_dict;
    if config_has cfg key then
      value ← lift (convert_value key value);
      config_set key value
    else mret tt).

End Perplexity.

(** ** OpenAIChat (src/simple_request/openai_request.py) *)

Module OpenAI.

Definition env_var : string := "OPENAI_API_KEY".

Definition available_models : list string :=
  ["gpt-4o"; "gpt-4o-mini"; "gpt-4"; "gpt-4-turbo"; "gpt-3.5-turbo"; "o1-preview"; "o1-mini"].

Definition default_config : gmap string PyVal :=
  list_to_map
    [("model", VStr "gpt-3.5-turbo");
     ("temperature", VFloat 0.7);
     ("top_p", VFloat 1.0);
     ("max_tokens", VNone);
     ("presence_penalty", VInt 0);
     ("frequency_penalty", VInt 0);
     ("stream", VBool true);
     ("language", VStr "pt-br")].

Definition system_messages : gmap string string := helpful_system_messages.

(** [__init__]; [new_client] is the constructor [OpenAI(api_key=...)],
    whose exception, if any, is raised again. *)
Definition init (new_client : string → result unit) (env : gmap string string)
  : result session :=
  match getenv env env_var with
  | Some key =>
      if truthy (VStr key) then
        new_client key ;; mret (Session key [] default_config)
      else value_error "OPENAI_API_KEY não encontrada"
  | None => value_error "OPENAI_API_KEY não encontrada"
  end.

(** [create_chat_params(self, messages)] *)
Definition create_chat_params (cfg : gmap string PyVal) (messages : list PyVal)
  : result PyVal :=
  language ← config_lookup cfg "language";
  content ← system_message_for system_messages language;
  let system_message := mk_system_message content in
  let full_messages := [system_message] ++ messages in
  model ← config_lookup cfg "model";
  temperature ← config_lookup cfg "temperature";
  top_p ← config_lookup cfg "top_p";
  presence_penalty ← config_lookup cfg "presence_penalty";
  frequency_penalty ← config_lookup cfg "frequency_penalty";
  stream ← config_lookup cfg "stream";
  let params :=
    [("model", model);
     ("messages", VList full_messages);
     ("temperature", temperature);
     ("top_p", top_p);
     ("presence_penalty", presence_penalty);
     ("frequency_penalty", frequency_penalty);
     ("stream", stream)] in
  max_tokens ← config_lookup cfg "max_tokens";
  let params :=
    if negb (is_None max_tokens) then dict_set "max_tokens" max_tokens params else params in
  mret (VDict params).

(** [send_message(self, message)]; [create] is
    [self.client.chat.completions.create]. The handler reads
    [self.current_config['language']] to pick the printed prefix. *)
Definition send_message `{PyBuiltins} (create : sdk_create) (message : string) : Py PyVal :=
  try_except
    (history_append (mk_user_message message) ;;
     history ← get_history;
     cfg ← get_config_dict;
     params ← lift (create_chat_params cfg history);
     stream ← lift (create params);
     stream_flag ← config_get "stream";
     response_content ←
       (if truthy stream_flag then lift (VStr <$> drain_stream stream)
        else lift (first_message_content stream));
     history_append (mk_assistant_message response_content) ;;
     mret (VDict [("content", response_content); ("citations", VList [])]))
    [(any_Exception, λ e,
        config_get "language" ;;
        mret (VDict [("error", VStr (exn_str e))]))].

(** The conversion of one raw value in the [config key=value] command of
    [run_chat]. *)
Definition convert_value `{PyBuiltins} (key value : string) : result PyVal :=
  if bool_decide (key ∈ ["temperature"; "top_p"; "presence_penalty"; "frequency_penalty"])
  then VFloat <$> py_float (VStr value)
  else if String.eqb key "max_tokens"
  then
    if negb (String.eqb (str_lower value) "none")
    then VInt <$> py_int (VStr value) else mret VNone
  else if String.eqb key "stream"
  then mret (VBool (String.eqb (str_lower value) "true"))
  else mret (VStr value).

(** The loop of the [config key=value ...] command of [run_chat]. *)
Definition config_command `{PyBuiltins} (config_dict : list (string * string)) : Py unit :=
  py_for config_dict (λ '(key, value),
    cfg ← get_config_dict;
    if config_has cfg key then
      value ← lift (convert_value key value);
      config_set key value
    else mret tt).

End OpenAI.

(** ** GroqChat (src/simple_request/groq_requests.py) *)

Module Groq.

Definition env_var : string := "GROQ_API_KEY".

Definition model_categories : list (string * list string) :=
  [("Gemma", ["gemma2-9b-it"; "gemma-7b-it"]);
   ("LLaMA Tool Use",
     ["llama3-groq-70b-8192-tool-use-preview"; "llama3-groq-8b-8192-tool-use-preview"]);
   ("LLaMA 3.1",
     ["llama-3.1-70b-versatile"; "llama-3.1-70b-specdec"; "llama-3.1-8b-instant"]);
   ("LLaMA 3.2 Preview", ["llama-3.2-1b-preview"; "llama-3.2-3b-preview"]);
   ("Mixtral", ["mixtral-8x7b-32768"])].

Definition available_models : list string :=
  concat (map snd model_categories).

Definition default_config : gmap string PyVal :=
  list_to_map
    [("model", VStr "mixtral-8x7b-32768");
     ("temperature", VFloat 0.7);
     ("top_p", VFloat 1.0);
     ("max_tokens", VNone);
     ("stream", VBool true);
     ("language", VStr "pt-br")].

Definition system_messages : gmap string string := helpful_system_messages.

(** [__init__]; [new_client] is the constructor [Groq(api_key=...)]. *)
Definition init (new_client : string → result unit) (env : gmap string string)
  : result session :=
  match getenv env env_var with
  | Some key =>
      if truthy (VStr key) then
        new_client key ;; mret (Session key [] default_config)
      else value_error "GROQ_API_KEY não encontrada"
  | None => value_error "GROQ_API_KEY não encontrada"
  end.

(** [update_config(self, **kwargs)]. [valid_keys] is the live key view of
    [self.current_config], so each test reads the dict as it is then. *)
Definition update_config `{PyBuiltins} (kwargs : list (string * PyVal)) : Py unit :=
  py_for kwargs (λ '(key, value),
    valid_keys ← get_config_dict;
    if config_has valid_keys key then
      (if String.eqb key "model" && negb (in_models value available_models)
       then lift (model_unavailable value available_models)
       else mret tt) ;;
      config_set key value
    else mret tt).

(** The [config key=value ...] command of [run_chat]: the raw strings go to
    [update_config] as they are, each under its key as the keyword. *)
Definition config_command `{PyBuiltins} (config_dict : list (string * string)) : Py unit :=
  call_update_config "GroqChat" update_config config_dict.

(** [create_chat_params(self, messages)] *)
Definition create_chat_params (cfg : gmap string PyVal) (messages : list PyVal)
  : result PyVal :=
  language ← config_lookup cfg "language";
  content ← system_message_for system_messages language;
  let system_message := mk_system_message content in
  let full_messages := [system_message] ++ messages in
  model ← config_lookup cfg "model";
  temperature ← config_lookup cfg "temperature";
  top_p ← config_lookup cfg "top_p";
  stream ← config_lookup cfg "stream";
  let params :=
    [("model", model);
     ("messages", VList full_messages);
     ("temperature", temperature);
     ("top_p", top_p);
     ("stream", stream)] in
  max_tokens ← config_lookup cfg "max_tokens";
  let params :=
    if negb (is_None max_tokens) then dict_set "max_tokens" max_tokens params else params in
  mret (VDict params).

(** The handler of the inner [try] around [create]. *)
Definition api_error_message `{PyBuiltins} (api_error : exn) : Py string :=
  if str_contains "model_not_found" (exn_str api_error) then
    model ← config_get "model";
    mret (LF +:+ "Erro: Modelo '" +:+ py_str model +:+ "' não encontrado ou sem acesso." +:+ LF
            +:+ "Modelos disponíveis: " +:+ String.concat ", " available_models +:+ LF
            +:+ "Use o comando 'config model=nome-do-modelo' para alterar o modelo.")
  else mret (LF +:+ "Erro na API Groq: " +:+ exn_str api_error +:+ LF).

(** [send_message(self, message)]. A [return] inside a nested [try] is the
    left summand [inl], the value that goes on is [inr]. The dict returned
    holds the history list itself; its entries at the time of the return
    stand for it here. *)
Definition send_message `{PyBuiltins} (create : sdk_create) (message : string) : Py PyVal :=
  try_except
    (history_append (mk_user_message message) ;;
     created ← try_except
       (history ← get_history;
        cfg ← get_config_dict;
        params ← lift (create_chat_params cfg history);
        stream ← lift (create params);
        mret (inr stream : PyVal + sdk_object))
       [(any_Exception, λ api_error,
          error_msg ← api_error_message api_error;
          mret (inl (VDict [("error", VStr error_msg)])))];
     match created with
     | inl returned => mret returned
     | inr stream =>
         stream_flag ← config_get "stream";
         read ←
           (if truthy stream_flag then
              try_except
                (response_content ← lift (drain_stream stream);
                 mret (inr (VStr response_content) : PyVal + PyVal))
                [(any_Exception, λ stream_error,
                   let error_msg :=
                     LF +:+ "Erro ao processar stream: " +:+ exn_str stream_error +:+ LF in
                   mret (inl (VDict [("error", VStr error_msg)])))]
            else
              response_content ← lift (first_message_content stream);
              mret (inr response_content));
         match read with
         | inl returned => mret returned
         | inr response_content =>
             history_append (mk_assistant_message response_content) ;;
             history ← get_history;
             mret (VDict [("response", response_content);
                          ("conversation_history", VList history)])
         end
     end)
    [(any_Exception, λ e,
       mret (VDict [("error", VStr (LF +:+ "Erro inesperado: " +:+ exn_str e +:+ LF))]))].

End Groq.

(** ** AnthropicChat (src/simple_request/anthropic_request.py) *)

Module Anthropic.

Definition env_var : string := "ANTHROPIC_API_KEY".
Definition api_url : string := "https://api.anthropic.com/v1/messages".

Definition model_categories : list (string * list string) :=
  [("Claude 3.5 Sonnet", ["claude-3-sonnet-20240229"; "claude-3-sonnet"]);
   ("Claude 3.5 Haiku", ["claude-3-haiku-20240307"; "claude-3-haiku"])].

Definition available_models : list string :=
  concat (map snd model_categories).

Definition default_config : gmap string PyVal :=
  list_to_map
    [("model", VStr "claude-3-sonnet");
     ("temperature", VFloat 0.7);
     ("max_tokens", VInt 1000);
     ("system", VStr "Você é um prestativo assistente. Assuma o papel de especialista na pergunta realizada e responda.");
     ("language", VStr "pt-br")].

(** Set in [__init__] and read by no method of the class. *)
Definition system_messages : gmap string string :=
  list_to_map
    [("pt-br", "Você é um prestativo assistente. Assuma o papel de especialista na pergunta realizada e responda.");
     ("en", "You are a helpful assistant. Take on the role of an expert in the question asked and respond.")].

(** [__init__] *)
Definition init (env : gmap string string) : result session :=
  match getenv env env_var with
  | Some key =>
      if truthy (VStr key) then Ok (Session key [] default_config)
      else value_error "ANTHROPIC_API_KEY não encontrada"
  | None => value_error "ANTHROPIC_API_KEY não encontrada"
  end.

(** [update_config(self, **kwargs)] *)
Definition update_config `{PyBuiltins} (kwargs : list (string * PyVal)) : Py unit :=
  py_for kwargs (λ '(key, value),
    valid_keys ← get_config_dict;
    if config_has valid_keys key then
      (if String.eqb key "model" && negb (in_models value available_models)
       then lift (model_unavailable value available_models)
       else mret tt) ;;
      (if String.eqb key "temperature" then
         f ← lift (py_float value);
         if negb (between_0_and_1 f)
         then lift (value_error "Temperature deve estar entre 0 e 1")
         else mret tt
       else mret tt) ;;
      (if String.eqb key "max_tokens" then
         n ← lift (py_int value);
         if (n <=? 0)%Z
         then lift (value_error "Max tokens deve ser maior que 0")
         else mret tt
       else mret tt) ;;
      config_set key value
    else mret tt).

(** The [config key=value ...] command of [run_chat]. *)
Definition config_command `{PyBuiltins} (config_dict : list (string * string)) : Py unit :=
  call_update_config "AnthropicChat" update_config config_dict.

(** [create_chat_params(self, messages)] *)
Definition create_chat_params (cfg : gmap string PyVal) (messages : list PyVal)
  : result PyVal :=
  model ← config_lookup cfg "model";
  temperature ← config_lookup cfg "temperature";
  max_tokens ← config_lookup cfg "max_tokens";
  system ← config_lookup cfg "system";
  mret (VDict [("model", model);
               ("messages", VList messages);
               ("temperature", temperature);
               ("max_tokens", max_tokens);
               ("system", system)]).

Definition headers (key : string) : PyVal :=
  VDict [("Content-Type", VStr "application/json");
         ("X-API-Key", VStr key);
         ("anthropic-version", VStr "2023-06-01")].

(** The handler [except requests.exceptions.RequestException as api_error].
    It reads the local [response], which is bound only when [requests.post]
    has returned. *)
Definition api_error_handler `{PyBuiltins} (response : option Response) (api_error : exn)
  : Py PyVal :=
  let error_msg := LF +:+ "Erro na API Anthropic: " +:+ exn_str api_error +:+ LF in
  match response with
  | None =>
      lift (Raise (mk_exn UnboundLocalError
        "cannot access local variable 'response' where it is not associated with a value"
        None))
  | Some response =>
      error_msg ←
        (if (status_code response =? 404)%Z then
           model ← config_get "model";
           mret (error_msg
                   +:+ "Modelo '" +:+ py_str model +:+ "' não encontrado." +:+ LF
                   +:+ "Modelos disponíveis: " +:+ String.concat ", " available_models +:+ LF
                   +:+ "Use o comando 'config model=nome-do-modelo' para alterar o modelo.")
         else mret error_msg);
      mret (VDict [("error", VStr error_msg)])
  end.

(** [send_message(self, message)]. The inner [try] holds two statements,
    [response = requests.post(...)] and [response.raise_for_status()]; it
    is written as two blocks with the same handler, which differ in whether
    [response] is bound. *)
Definition send_message `{PyBuiltins} (post : http_post) (message : string) : Py PyVal :=
  try_except
    (history_append (mk_user_message message) ;;
     key ← get_api_key;
     posted ← try_except
       (history ← get_history;
        cfg ← get_config_dict;
        params ← lift (create_chat_params cfg history);
        response ← lift (post api_url (headers key) params);
        mret (inr response : PyVal + Response))
       [(is_RequestException, λ api_error, inl <$> api_error_handler None api_error)];
     match posted with
     | inl returned => mret returned
     | inr response =>
         checked ← try_except
           (lift (raise_for_status response) ;; mret (inr tt : PyVal + unit))
           [(is_RequestException, λ api_error,
              inl <$> api_error_handler (Some response) api_error)];
         match checked with
         | inl returned => mret returned
         | inr _ =>
             result ← lift (response_json response);
             content ← lift (py_getitem result "content");
             block ← lift (py_getitem0 content);
             response_content ← lift (py_getitem block "text");
             history_append (mk_assistant_message response_content) ;;
             history ← get_history;
             mret (VDict [("response", response_content);
                          ("conversation_history", VList history)])
         end
     end)
    [(any_Exception, λ e,
       mret (VDict [("error", VStr (LF +:+ "Erro inesperado: " +:+ exn_str e +:+ LF))]))].

End Anthropic.

(** ** GeminiChat (src/simple_request/gemini_req.py) *)

Module Gemini.

Definition env_var : string := "GEMINI_API_KEY".

Definition GEMINI_PRO : string := "gemini-1.5-pro".
Definition GEMINI_FLASH : string := "gemini-1.5-flash".
Definition GEMINI_FLASH_8B : string := "gemini-1.5-flash-8b".

Definition available_models : list string :=
  [GEMINI_PRO; GEMINI_FLASH; GEMINI_FLASH_8B].

Definition default_config : gmap string PyVal :=
  list_to_map
    [("model", VStr GEMINI_PRO);
     ("temperature", VFloat 0.7);
     ("top_k", VInt 40);
     ("top_p", VFloat 0.95);
     ("max_tokens", VInt 2048);
     ("language", VStr "pt-br")].

Definition system_messages : gmap string string := helpful_system_messages.

(** [__init__] *)
Definition init (env : gmap string string) : result session :=
  match getenv env env_var with
  | Some key =>
      if truthy (VStr key) then Ok (Session key [] default_config)
      else value_error "GEMINI_API_KEY não encontrada"
  | None => value_error "GEMINI_API_KEY não encontrada"
  end.

(** [update_config(self, **kwargs)] *)
Definition update_config `{PyBuiltins} (kwargs : list (string * PyVal)) : Py unit :=
  py_for kwargs (λ '(key, value),
    valid_keys ← get_config_dict;
    if config_has valid_keys key then
      (if String.eqb key "model" && negb (in_models value available_models)
       then lift (model_unavailable value available_models)
       else if String.eqb key "temperature" then
         f ← lift (py_float value);
         if negb (between_0_and_1 f)
         then lift (value_error "Temperature deve estar entre 0 e 1")
         else mret tt
       else mret tt) ;;
      config_set key value
    else mret tt).

(** The [config key=value ...] command of [run_chat]. *)
Definition config_command `{PyBuiltins} (config_dict : list (string * string)) : Py unit :=
  call_update_config "GeminiChat" update_config config_dict.

(** What [process_image] hands back for the base64 text of the re-encoded
    picture. The picture handling itself (PIL) is an argument of
    [send_message]. *)
Definition image_dict (data : string) : PyVal :=
  VDict [("mimeType", VStr "image/jpeg"); ("data", VStr data)].

(** [create_request_data(self, content, is_image)] *)
Definition create_request_data `{PyBuiltins}
  (cfg : gmap string PyVal) (content : PyVal) (is_image : bool) : result PyVal :=
  parts ←
    (if is_image then
       prompt ← py_getitem content "prompt";
       image_data ← py_getitem content "image_data";
       mime_type ← py_getitem image_data "mimeType";
       image_data ← py_getitem content "image_data";
       data ← py_getitem image_data "data";
       mret [VDict [("text", prompt)];
             VDict [("inline_data", VDict [("mimeType", mime_type); ("data", data)])]]
     else mret [VDict [("text", VStr (py_str content))]]);
  temperature ← config_lookup cfg "temperature";
  top_k ← config_lookup cfg "top_k";
  top_p ← config_lookup cfg "top_p";
  max_tokens ← config_lookup cfg "max_tokens";
  mret (VDict
    [("contents", VList [VDict [("parts", VList parts)]]);
     ("generationConfig",
       VDict [("temperature", temperature);
              ("topK", top_k);
              ("topP", top_p);
              ("maxOutputTokens", max_tokens)])]).

(** [if image_path:] for an [Optional[str]]. *)
Definition image_given (image_path : option string) : bool :=
  match image_path with
  | Some path => truthy (VStr path)
  | None => truthy VNone
  end.

(** The text of the [except requests.exceptions.RequestException] handler.
    Whatever goes wrong while reading the error body is passed over. *)
Definition request_error_message `{PyBuiltins} (e : exn) : string :=
  let error_msg := "Erro na requisição: " +:+ exn_str e in
  match exn_response e with
  | Some response =>
      let from_body : result string :=
        error_data ← response_json response;
        has_error ← py_contains "error" error_data;
        if (has_error : bool) then
          detail ← py_getitem error_data "error";
          message ← py_get detail "message" (VStr (exn_str e));
          mret ("Erro: " +:+ py_str message)
        else mret error_msg in
      match from_body with
      | Ok msg => msg
      | Raise _ => error_msg
      end
  | None => error_msg
  end.

(** [send_message(self, message, image_path=None)]; [process_image] is the
    method of that name, [post] is [requests.post]. *)
Definition send_message `{PyBuiltins}
  (process_image : string → result string) (post : http_post)
  (message : string) (image_path : option string) : Py PyVal :=
  try_except
    ('(content, is_image) ←
       (if image_given image_path then
          config_set "model" (VStr GEMINI_FLASH_8B) ;;
          data ← lift (process_image (default EmptyString image_path));
          let image_data := image_dict data in
          let prompt :=
            if truthy (VStr message) then message
            else "Descreva esta imagem em detalhes" in
          mret (VDict [("prompt", VStr prompt); ("image_data", image_data)], true)
        else
          language ← config_get "language";
          system_message ← lift (system_message_for system_messages language);
          mret (VStr (system_message +:+ LF +:+ LF +:+ message), false));
     history_append (mk_user_message message) ;;
     model ← config_get "model";
     key ← get_api_key;
     let url :=
       "https://generativelanguage.googleapis.com/v1/models/" +:+ py_str model
         +:+ ":generateContent?key=" +:+ key in
     cfg ← get_config_dict;
     data ← lift (create_request_data cfg content is_image);
     response ← lift (post url VNone data);
     lift (raise_for_status response) ;;
     response_data ← lift (response_json response);
     has_candidates ← lift (py_contains "candidates" response_data);
     candidates_ok ←
       (if (has_candidates : bool)
        then truthy <$> lift (py_getitem response_data "candidates")
        else mret false);
     let no_answer := VDict [("error", VStr "Não foi possível gerar uma resposta.")] in
     if (candidates_ok : bool) then
       candidates ← lift (py_getitem response_data "candidates");
       candidate ← lift (py_getitem0 candidates);
       content ← lift (py_getitem candidate "content");
       has_parts ← lift (py_contains "parts" content);
       parts_ok ←
         (if (has_parts : bool)
          then truthy <$> lift (py_getitem content "parts")
          else mret false);
       if (parts_ok : bool) then
         parts ← lift (py_getitem content "parts");
         part ← lift (py_getitem0 parts);
         response_text ← lift (py_get part "text" (VStr EmptyString));
         history_append (mk_assistant_message response_text) ;;
         history ← get_history;
         mret (VDict [("response", response_text);
                      ("conversation_history", VList history)])
       else mret no_answer
     else mret no_answer)
    [(is_RequestException, λ e, mret (VDict [("error", VStr (request_error_message e))]));
     (any_Exception, λ e,
       mret (VDict [("error", VStr ("Erro inesperado: " +:+ exn_str e))]))].

End Gemini.

(** ** The five classes side by side *)

Inductive provider := perplexity | openai | groq | anthropic | gemini.

(** What the outside world answers during one call of a method. *)
Record world := {
  w_post : http_post;
  w_create : sdk_create;
  w_new_client : string → result unit;
  w_process_image : string → result string
}.

(** The arguments of one [send_message] call; only [GeminiChat] takes an
    [image_path]. *)
Record call := {
  message : string;
  image_path : option string
}.

Definition env_var (p : provider) : string :=
  match p with
  | perplexity => Perplexity.env_var
  | openai => OpenAI.env_var
  | groq => Groq.env_var
  | anthropic => Anthropic.env_var
  | gemini => Gemini.env_var
  end.

Definition default_config (p : provider) : gmap string PyVal :=
  match p with
  | perplexity => Perplexity.default_config
  | openai => OpenAI.default_config
  | groq => Groq.default_config
  | anthropic => Anthropic.default_config
  | gemini => Gemini.default_config
  end.

(** The constructor of the class. *)
Definition chat_init (p : provider) (w : world) (env : gmap string string)
  : result session :=
  match p with
  | perplexity => Perplexity.init env
  | openai => OpenAI.init (w_new_client w) env
  | groq => Groq.init (w_new_client w) env
  | anthropic => Anthropic.init env
  | gemini => Gemini.init env
  end.

(** [chat.send_message(...)] *)
Definition chat_send `{PyBuiltins} (p : provider) (w : world) (c : call) : Py PyVal :=
  match p with
  | perplexity => Perplexity.send_message (w_post w) (message c)
  | openai => OpenAI.send_message (w_create w) (message c)
  | groq => Groq.send_message (w_create w) (message c)
  | anthropic => Anthropic.send_message (w_post w) (message c)
  | gemini =>
      Gemini.send_message (w_process_image w) (w_post w) (message c) (image_path c)
  end.

(** The [config key=value ...] command on the parsed [config_dict]. *)
Definition chat_config `{PyBuiltins} (p : provider) (config_dict : list (string * string))
  : Py unit :=
  match p with
  | perplexity => Perplexity.config_command config_dict
  | openai => OpenAI.config_command config_dict
  | groq => Groq.config_command config_dict
  | anthropic => Anthropic.config_command config_dict
  | gemini => Gemini.config_command config_dict
  end.

(** The name of the class, as the interpreter writes it in a message. *)
Definition class_name (p : provider) : string :=
  match p with
  | perplexity => "PerplexityChat"
  | openai => "OpenAIChat"
  | groq => "GroqChat"
  | anthropic => "AnthropicChat"
  | gemini => "GeminiChat"
  end.

(** A key that the [config] command of the class cannot hand on: GroqChat,
    AnthropicChat and GeminiChat pass the keys to [update_config] as
    keywords, where [self] is taken by the receiver. PerplexityChat and
    OpenAIChat loop over the dict themselves. *)
Definition keyword_taken (p : provider) (key : string) : bool :=
  match p with
  | groq | anthropic | gemini => bool_decide (key = "self")
  | perplexity | openai => false
  end.

(** A run of the chat loop: one [send_message] after the other on the same
    object, each with the answers the world gives during it. An exception
    that leaves [send_message] is caught by the loop, which goes on. *)
Fixpoint chat_run `{PyBuiltins} (p : provider) (calls : list (world * call)) (s : session)
  : session * list (result PyVal) :=
  match calls with
  | [] => (s, [])
  | (w, c) :: rest =>
      let '(s1, r) := chat_send p w c s in
      let '(s2, rs) := chat_run p rest s1 in
      (s2, r :: rs)
  end.

(** ["error" in result], the test of every chat loop. *)
Definition has_error_key (r : PyVal) : bool :=
  match r with
  | VDict entries => dict_has "error" entries
  | _ => false
  end.

(** A call succeeded when it returned a dict without the key ["error"]. *)
Definition succeeded (r : result PyVal) : bool :=
  match r with
  | Ok (VDict entries) => negb (dict_has "error" entries)
  | _ => false
  end.

(** The key under which a class returns the text of the answer. *)
Definition content_key (p : provider) : string :=
  match p with
  | perplexity | openai => "content"
  | groq | anthropic | gemini => "response"
  end.

(** The history entry of an answer with the given content. [PerplexityChat]
    stores the message object of the provider as it came; the other four
    build the entry themselves. *)
Definition is_reply (p : provider) (content entry : PyVal) : Prop :=
  match p with
  | perplexity => py_getitem entry "content" = Ok content
  | _ => entry = mk_assistant_message content
  end.

(** A history made of complete turns only: for each message of the user,
    in order, the user entry and then the entry of the answer. *)
Inductive turns (p : provider) : list string → list PyVal → Prop :=
| turns_nil : turns p [] []
| turns_snoc messages history message content entry :
    turns p messages history →
    is_reply p content entry →
    turns p (messages ++ [message]) (history ++ [mk_user_message message; entry]).

(** [GeminiChat.send_message] prepares the content of the request before
    it appends to the history: it processes the image, or looks up the
    system message of the language. Either can raise. *)
Definition preparation_fails (w : world) (c : call) (s : session) : Prop :=
  match image_path c with
  | Some path =>
      if truthy (VStr path) then ∃ e, w_process_image w path = Raise e
      else ∃ e, (config_lookup (current_config s) "language"
                   ≫= system_message_for Gemini.system_messages) = Raise e
  | None =>
      ∃ e, (config_lookup (current_config s) "language"
              ≫= system_message_for Gemini.system_messages) = Raise e
  end.

(** The role of a history entry is [user] or [assistant]. *)
Definition user_or_assistant (entry : PyVal) : bool :=
  match py_getitem entry "role" with
  | Ok (VStr role) => bool_decide (role ∈ ["user"; "assistant"])
  | _ => false
  end.

(** What one [send_message] call can do to the history, by what it hands
    back: an answer, an error after the user entry was appended, an error
    before it was ([GeminiChat] only, and there exactly when the
    preparation failed), or an exception that leaves the method: before
    the entry of the answer is appended, or after it, when
    [PerplexityChat] cannot read the content of the message object it has
    just appended. *)
Inductive exchange (p : provider) (w : world) (c : call) (s s' : session)
  : result PyVal → Prop :=
| exchange_answered entries content entry :
    conversation_history s' =
      conversation_history s ++ [mk_user_message (message c); entry] →
    is_reply p content entry →
    dict_has "error" entries = false →
    dict_get (content_key p) entries = Some content →
    (p = gemini → ¬ preparation_fails w c s) →
    exchange p w c s s' (Ok (VDict entries))
| exchange_failed msg :
    conversation_history s' = conversation_history s ++ [mk_user_message (message c)] →
    (p = gemini → ¬ preparation_fails w c s) →
    exchange p w c s s' (Ok (VDict [("error", VStr msg)]))
| exchange_not_started msg :
    p = gemini →
    preparation_fails w c s →
    conversation_history s' = conversation_history s →
    exchange p w c s s' (Ok (VDict [("error", VStr msg)]))
| exchange_raised e :
    p = perplexity ∨ (p = openai ∧ current_config s !! "language" = None) →
    is_RequestException e = false →
    conversation_history s' = conversation_history s ++ [mk_user_message (message c)] →
    exchange p w c s s' (Raise e)
| exchange_raised_late e entry :
    p = perplexity →
    is_RequestException e = false →
    conversation_history s' =
      conversation_history s ++ [mk_user_message (message c); entry] →
    py_getitem entry "content" = Raise e →
    exchange p w c s s' (Raise e).

(** The request builders of the three classes that put the system message
    into the message array. *)
Definition build_messages_request (p : provider)
  : option (gmap string PyVal → list PyVal → result PyVal) :=
  match p with
  | perplexity => Some Perplexity.create_request_body
  | openai => Some OpenAI.create_chat_params
  | groq => Some Groq.create_chat_params
  | anthropic | gemini => None
  end.

(** A config that still has every key [__init__] gave it. *)
Definition has_default_keys (p : provider) (cfg : gmap string PyVal) : Prop :=
  ∀ k, is_Some (default_config p !! k) → is_Some (cfg !! k).

(** ** Streams and their last event *)

(** A chunk that closes a streamed answer carries a [finish_reason]; a
    stream that breaks raises. *)
Definition is_terminal (item : stream_item) : bool :=
  match item with
  | StreamRaises _ => true
  | Yield chunk =>
      existsb (λ choice, match finish_reason choice with Some _ => true | None => false end)
        (chunk_choices chunk)
  end.

Definition lacks_terminal_event (items : list stream_item) : bool :=
  forallb (λ item, negb (is_terminal item)) items.

(** A chunk the loop can read: it is handed out and has a first choice. *)
Definition readable (item : stream_item) : Prop :=
  match item with
  | Yield chunk => chunk_choices chunk ≠ []
  | StreamRaises _ => False
  end.

(** What the loop raises at an item it cannot read: what the iteration
    raised, or the [IndexError] of [chunk.choices[0]] on a chunk without
    choices. *)
Definition stream_failure (item : stream_item) : option exn :=
  match item with
  | StreamRaises e => Some e
  | Yield chunk =>
      match chunk_choices chunk with
      | [] => Some (mk_exn IndexError "list index out of range" None)
      | _ :: _ => None
      end
  end.

(** The text of the deltas of a stream, in the order of arrival. *)
Fixpoint delta_text (items : list stream_item) : string :=
  match items with
  | [] => EmptyString
  | Yield chunk :: rest =>
      match chunk_choices chunk with
      | choice :: _ =>
          match delta_content choice with
          | Some content => content +:+ delta_text rest
          | None => delta_text rest
          end
      | [] => delta_text rest
      end
  | StreamRaises _ :: rest => delta_text rest
  end.

(** ** A concrete interpreter

    An implementation of [PyBuiltins] to run the model on concrete inputs.
    It reads plain ASCII decimal literals (an optional sign, digits, an
    optional fraction) with correct rounding, lowers ASCII letters and
    writes numbers as Python does; the other spellings Python accepts
    (exponents, [inf], [nan], digit separators, surrounding blanks, digits
    and letters outside ASCII) are outside it and read as malformed. *)

Module Interp.

Definition lower_char (c : Ascii.ascii) : Ascii.ascii :=
  let n := Ascii.nat_of_ascii c in
  if (65 <=? n)%nat && (n <=? 90)%nat then Ascii.ascii_of_nat (n + 32) else c.

Fixpoint lower (s : string) : string :=
  match s with
  | EmptyString => EmptyString
  | String c rest => String (lower_char c) (lower rest)
  end.

Definition digit (c : Ascii.ascii) : option Z :=
  let n := Ascii.nat_of_ascii c in
  if (48 <=? n)%nat && (n <=? 57)%nat then Some (Z.of_nat (n - 48)) else None.

(** The longest run of digits at the head of [s], read on top of [acc]:
    the number, how many digits were read, and the rest. *)
Fixpoint digits (s : string) (acc : Z) (count : nat) : Z * nat * string :=
  match s with
  | String c rest =>
      match digit c with
      | Some d => digits rest (10 * acc + d)%Z (S count)
      | None => (acc, count, s)
      end
  | EmptyString => (acc, count, s)
  end.

Definition sign (s : string) : bool * string :=
  match s with
  | String "-"%char rest => (true, rest)
  | String "+"%char rest => (false, rest)
  | _ => (false, s)
  end.

Definition is_empty (s : string) : bool :=
  match s with EmptyString => true | _ => false end.

Definition parse_int (s : string) : option Z :=
  let '(negative, body) := sign s in
  let '(n, count, rest) := digits body 0%Z 0 in
  if (0 <? count)%nat && is_empty rest then Some (if negative then - n else n)%Z else None.

(** m / 10^scale, rounded to the nearest binary64 number. *)
Definition decimal_to_float (negative : bool) (m : Z) (scale : nat) : float :=
  match m with
  | Zpos mantissa =>
      SF2Prim (SFdiv prec emax (S754_finite negative mantissa 0)
                 (S754_finite false (Z.to_pos (10 ^ Z.of_nat scale)) 0))
  | _ => SF2Prim (S754_zero negative)
  end.

Definition parse_float (s : string) : option float :=
  let '(negative, body) := sign s in
  let '(whole, whole_count, rest) := digits body 0%Z 0 in
  let '(m, scale, rest) :=
    match rest with
    | String "."%char fraction => digits fraction whole 0
    | _ => (whole, 0, rest)
    end in
  if (0 <? whole_count + scale)%nat && is_empty rest
  then Some (decimal_to_float negative m scale) else None.

(** 10^k <= num/den *)
Definition pow10_le (k : Z) (num den : Z) : bool :=
  if (0 <=? k)%Z then (10 ^ k * den <=? num)%Z else (den <=? num * 10 ^ (- k))%Z.

(** floor(log10(num/den)) from an estimate, moved by at most [fuel] steps *)
Fixpoint adjust_exponent (fuel : nat) (k : Z) (num den : Z) : Z :=
  match fuel with
  | O => k
  | S fuel =>
      if negb (pow10_le k num den) then adjust_exponent fuel (k - 1) num den
      else if pow10_le (k + 1) num den then adjust_exponent fuel (k + 1) num den
      else k
  end.

Definition decimal_exponent (num den : Z) : Z :=
  adjust_exponent 8 ((Z.log2 num - Z.log2 den) * 30103 / 100000) num den.

(** round(a/b) to nearest, ties to even *)
Definition div_nearest_even (a b : Z) : Z :=
  let q := (a / b)%Z in
  let r := (a mod b)%Z in
  match (2 * r ?= b)%Z with
  | Lt => q
  | Gt => (q + 1)%Z
  | Eq => if Z.even q then q else (q + 1)%Z
  end.

(** The [n] leading decimal digits of num/den, and the exponent of the last. *)
Definition leading_digits (n : Z) (num den : Z) : Z * Z :=
  let k := decimal_exponent num den in
  let shift := (k - n + 1)%Z in
  let d := if (0 <=? shift)%Z then div_nearest_even num (den * 10 ^ shift)
           else div_nearest_even (num * 10 ^ (- shift)) den in
  if (d =? 10 ^ n)%Z then (10 ^ (n - 1), shift + 1)%Z else (d, shift).

Definition decimal_value (d shift : Z) : float :=
  if (0 <=? shift)%Z then SF2Prim (binary_normalize prec emax (d * 10 ^ shift) 0 false)
  else decimal_to_float false d (Z.to_nat (- shift)).

Fixpoint shortest_digits (fuel : nat) (n : Z) (x : float) (num den : Z) : Z * Z :=
  let '(d, shift) := leading_digits n num den in
  match fuel with
  | O => (d, shift)
  | S fuel =>
      if PrimFloat.eqb (decimal_value d shift) x then (d, shift)
      else shortest_digits fuel (n + 1) x num den
  end.

Fixpoint zeros (n : nat) : string :=
  match n with O => EmptyString | S n => String "0"%char (zeros n) end.

Definition format_digits (d shift : Z) : string :=
  let ds : string := pretty d in
  let nd := Z.of_nat (String.length ds) in
  let decpt := (nd + shift)%Z in
  if (decpt <=? -4)%Z || (16 <? decpt)%Z then
    let e := (decpt - 1)%Z in
    let mant := match ds with
                | String c EmptyString => String c EmptyString
                | String c rest => String c ("." +:+ rest)
                | EmptyString => EmptyString
                end in
    let ea : string := pretty (Z.abs e) in
    mant +:+ "e" +:+ (if (e <? 0)%Z then "-" else "+")
         +:+ (if (Z.abs e <? 10)%Z then "0" else EmptyString) +:+ ea
  else if (decpt <=? 0)%Z then "0." +:+ zeros (Z.to_nat (- decpt)) +:+ ds
  else if (nd <=? decpt)%Z then ds +:+ zeros (Z.to_nat (decpt - nd)) +:+ ".0"
  else String.substring 0 (Z.to_nat decpt) ds +:+ "." +:+
       String.substring (Z.to_nat decpt) (Z.to_nat (nd - decpt)) ds.

Definition float_repr (f : float) : string :=
  match Prim2SF f with
  | S754_zero negative => if negative then "-0.0" else "0.0"
  | S754_infinity negative => if negative then "-inf" else "inf"
  | S754_nan => "nan"
  | S754_finite negative m e =>
      let num := if (0 <=? e)%Z then (Zpos m * 2 ^ e)%Z else Zpos m in
      let den := if (0 <=? e)%Z then 1%Z else (2 ^ (- e))%Z in
      let '(d, shift) := shortest_digits 16 1 (PrimFloat.abs f) num den in
      (if negative then "-" else EmptyString) +:+ format_digits d shift
  end.

(** [repr(s)] for a string: the quote Python picks, with the usual escapes. *)
Definition double_quote : ascii := Ascii.ascii_of_nat 34.
Definition backslash : ascii := Ascii.ascii_of_nat 92.

Fixpoint has_char (c : ascii) (s : string) : bool :=
  match s with
  | EmptyString => false
  | String c' rest => Ascii.eqb c c' || has_char c rest
  end.

Definition hex_digit (n : nat) : ascii :=
  Ascii.ascii_of_nat (if (n <? 10)%nat then 48 + n else 87 + n).

Fixpoint escape (quote : ascii) (s : string) : string :=
  match s with
  | EmptyString => EmptyString
  | String c rest =>
      let n := Ascii.nat_of_ascii c in
      let head :=
        if Ascii.eqb c backslash || Ascii.eqb c quote then String backslash (String c EmptyString)
        else if (n =? 10)%nat then String backslash "n"
        else if (n =? 13)%nat then String backslash "r"
        else if (n =? 9)%nat then String backslash "t"
        else if (n <? 32)%nat || (n =? 127)%nat
        then String backslash
               (String "x" (String (hex_digit (n / 16)) (String (hex_digit (n mod 16)) EmptyString)))
        else String c EmptyString in
      head +:+ escape quote rest
  end.

Definition str_repr (s : string) : string :=
  let quote :=
    if has_char "'" s && negb (has_char double_quote s) then double_quote else "'"%char in
  String quote (escape quote s) +:+ String quote EmptyString.

Fixpoint repr (v : PyVal) : string :=
  match v with
  | VNone => "None"
  | VBool b => if b then "True" else "False"
  | VInt z => pretty z
  | VFloat f => float_repr f
  | VStr s => str_repr s
  | VList items => "[" +:+ String.concat ", " (map repr items) +:+ "]"
  | VDict entries =>
      "{" +:+ String.concat ", "
                (map (λ '(k, x), str_repr k +:+ ": " +:+ repr x) entries) +:+ "}"
  end.

Definition str (v : PyVal) : string :=
  match v with
  | VStr s => s
  | _ => repr v
  end.

(** [float(x)] *)
Definition float_of (v : PyVal) : result float :=
  match v with
  | VStr s =>
      match parse_float s with
      | Some f => Ok f
      | None => value_error ("could not convert string to float: " +:+ str_repr s)
      end
  | VFloat f => Ok f
  | VInt z =>
      let f := SF2Prim (binary_normalize prec emax z 0 false) in
      if PrimFloat.is_infinity f
      then Raise (mk_exn Exception "int too large to convert to float" None)
      else Ok f
  | VBool b => Ok (if b then 1%float else 0%float)
  | _ => type_error "float() argument must be a string or a real number"
  end.

(** [int(x)] *)
Definition int_of (v : PyVal) : result Z :=
  match v with
  | VStr s =>
      match parse_int s with
      | Some n => Ok n
      | None => value_error ("invalid literal for int() with base 10: " +:+ str_repr s)
      end
  | VInt z => Ok z
  | VBool b => Ok (if b then 1 else 0)%Z
  | VFloat f =>
      match Prim2SF f with
      | S754_zero _ => Ok 0%Z
      | S754_infinity _ =>
          Raise (mk_exn Exception "cannot convert float infinity to integer" None)
      | S754_nan => value_error "cannot convert float NaN to integer"
      | S754_finite negative m e =>
          let n := if (0 <=? e)%Z then (Zpos m * 2 ^ e)%Z else (Zpos m / 2 ^ (- e))%Z in
          Ok (if negative then - n else n)%Z
      end
  | _ => type_error "int() argument must be a string, a bytes-like object or a real number"
  end.

Definition python : PyBuiltins := {|
  py_float := float_of;
  py_int := int_of;
  py_str := str;
  py_repr := repr;
  str_lower := lower
|}.

End Interp.

(** ** Concrete sessions and worlds *)

Module Examples.

(** A chat object as [__init__] leaves it. *)
Definition fresh (p : provider) : session :=
  Session "sk-test" [] (default_config p).

Definition hello : call := {| message := "hello"; image_path := None |}.

(** A network that is down and an image file that cannot be read. *)
Definition offline : world := {|
  w_post := λ _ _ _, Raise (mk_exn RequestException "connection refused" None);
  w_create := λ _, Raise (mk_exn Exception "Connection error." None);
  w_new_client := λ _, Ok tt;
  w_process_image := λ _, value_error "Erro ao processar imagem: cannot identify image file"
|}.

(** The JSON body with which each HTTP provider answers "Oi". *)
Definition answer_body (p : provider) : PyVal :=
  match p with
  | anthropic =>
      let block := VDict [("type", VStr "text"); ("text", VStr "Oi")] in
      VDict [("content", VList [block])]
  | gemini =>
      let part := VDict [("text", VStr "Oi")] in
      let content := VDict [("parts", VList [part])] in
      let candidate := VDict [("content", content)] in
      VDict [("candidates", VList [candidate])]
  | _ =>
      let reply := VDict [("role", VStr "assistant"); ("content", VStr "Oi")] in
      let choice := VDict [("message", reply)] in
      VDict [("choices", VList [choice])]
  end.

Definition delta (text : string) : stream_item :=
  Yield {| chunk_choices := [{| delta_content := Some text; finish_reason := None |}] |}.

(** Two deltas and then the end of the iteration: no chunk carries a
    [finish_reason]. *)
Definition cut_stream : list stream_item := [delta "Hi"; delta " there"].

(** A world that answers every request of provider [p]. *)
Definition answering (p : provider) : world := {|
  w_post := λ url _ _,
    Ok {| status_code := 200; reason := "OK"; response_url := url;
          text := EmptyString; json_body := Some (answer_body p) |};
  w_create := λ _, Ok (SdkStream cut_stream);
  w_new_client := λ _, Ok tt;
  w_process_image := λ _, Ok "/9j/4AAQSkZJRg=="
|}.

(** A world whose SDK hands out the given stream. *)
Definition streaming (items : list stream_item) : world := {|
  w_post := w_post offline;
  w_create := λ _, Ok (SdkStream items);
  w_new_client := λ _, Ok tt;
  w_process_image := w_process_image offline
|}.

(** A world whose HTTP transport answers every request with status 200 and
    the given JSON body. *)
Definition replying (body : PyVal) : world := {|
  w_post := λ url _ _,
    Ok {| status_code := 200; reason := "OK"; response_url := url;
          text := EmptyString; json_body := Some body |};
  w_create := w_create offline;
  w_new_client := λ _, Ok tt;
  w_process_image := w_process_image offline
|}.

(** The body of a chat completion with the given message object. *)
Definition completion_body (reply : PyVal) : PyVal :=
  VDict [("choices", VList [VDict [("message", reply)]])].

End Examples.

(** ** The console of the chat loops *)

(** The string methods of the interpreter that the loops and the settings
    dialogue call and that depend on the character tables of Unicode. As
    for [PyBuiltins], every general theorem holds for all implementations. *)
Class PyText := {
  (** [s.strip()] *)
  str_strip : string → string;
  (** [s.split()]: the words between runs of whitespace *)
  str_split : string → list string;
  (** [s.isdigit()] *)
  str_isdigit : string → bool
}.

(** [s[n:]]. The loops take [user_input[7:]] only when the lowered input
    starts with the seven ASCII characters of ['config '] or ['imagem '],
    so the seven characters dropped are seven bytes. *)
Fixpoint slice_from (n : nat) (s : string) : string :=
  match n, s with
  | O, _ => s
  | S n, String _ rest => slice_from n rest
  | S _, EmptyString => EmptyString
  end.

(** [s.split(sep)] for a separator of one character: every occurrence
    splits, so the list has one element more than [s] has separators. *)
Fixpoint split_on (sep : ascii) (s : string) : list string :=
  match s with
  | EmptyString => [EmptyString]
  | String c rest =>
      if Ascii.eqb c sep then EmptyString :: split_on sep rest
      else
        match split_on sep rest with
        | first :: others => String c first :: others
        | [] => [String c EmptyString]
        end
  end.

(** [d[k] = v] on a dict from strings to strings. *)
Fixpoint str_dict_set (k v : string) (entries : list (string * string))
  : list (string * string) :=
  match entries with
  | [] => [(k, v)]
  | (k', v') :: rest =>
      if String.eqb k' k then (k', v) :: rest else (k', v') :: str_dict_set k v rest
  end.

Fixpoint str_dict_get (k : string) (entries : list (string * string)) : option string :=
  match entries with
  | [] => None
  | (k', v) :: rest => if String.eqb k' k then Some v else str_dict_get k rest
  end.

(** [dict(elements)] for an iterable of lists, from element number [index]
    on: an element that has not exactly two items is a [ValueError]. *)
Fixpoint dict_of_items (index : nat) (elements : list (list string))
  (entries : list (string * string)) : result (list (string * string)) :=
  match elements with
  | [] => Ok entries
  | element :: rest =>
      match element with
      | [k; v] => dict_of_items (S index) rest (str_dict_set k v entries)
      | _ =>
          value_error ("dictionary update sequence element #" +:+ pretty index
                         +:+ " has length " +:+ pretty (length element)
                         +:+ "; 2 is required")
      end
  end.

(** [dict(item.split('=') for item in config_str.split())] *)
Definition parse_config `{PyText} (config_str : string) : result (list (string * string)) :=
  dict_of_items 0 (map (split_on "=") (str_split config_str)) [].

(** [items[i]] for a list: a negative index counts from the end. *)
Definition list_getitem {A} (items : list A) (i : Z) : result A :=
  let j := if (i <? 0)%Z then (Z.of_nat (length items) + i)%Z else i in
  if (j <? 0)%Z then index_error "list"
  else
    match items !! Z.to_nat j with
    | Some x => Ok x
    | None => index_error "list"
    end.

(** [self.conversation_history = []] *)
Definition reset_history : Py unit := λ s,
  (Session (api_key s) [] (current_config s), Ok tt).

(** What the user and the world do during one pass of a chat loop: the line
    typed at the prompt, the answers of the network to the request of that
    pass and, for the [imagem] command of GeminiChat, whether the file is
    there and the line typed as the question about the picture. A console
    that is closed or interrupted is left out. *)
Record pass := {
  typed : string;
  answers : world;
  path_exists : string → bool;
  typed_question : string
}.

Inductive loop_next := Continue | Break.

(** The methods of the classes besides [send_message] and [update_config],
    and the loops that drive them. Printing and the file that
    [save_conversation] writes leave the instance as it is; the [salvar]
    command is therefore a pass that changes nothing. *)

Module PerplexityChat.

(** [clear_conversation(self)]; the message printed depends on the
    language, which is read after the history is gone. *)
Definition clear_conversation : Py unit :=
  reset_history ;; config_get "language" ;; mret tt.

(** [show_current_config(self)] *)
Definition show_current_config : Py unit :=
  config_get "language" ;; mret tt.

(** What the user types at the prompts of [configure_settings], in the
    order of the prompts. *)
Record typed_settings := {
  lang_choice : string;
  model_choice : string;
  temp : string;
  top_p : string;
  max_tokens : string;
  recency : string;
  citations : string
}.

Definition recency_options : gmap string PyVal :=
  list_to_map
    [("1", VStr "month"); ("2", VStr "week"); ("3", VStr "day"); ("4", VStr "hour");
     ("5", VNone)].

(** [configure_settings(self)]. Each prompt shows the current value of the
    key it asks for, which is a read of the config. Nothing catches what
    [float] and [int] raise. *)
Definition configure_settings `{PyBuiltins} `{PyText} (a : typed_settings) : Py unit :=
  config_get "language" ;;
  (if String.eqb (lang_choice a) "1" then config_set "language" (VStr "pt-br")
   else if String.eqb (lang_choice a) "2" then config_set "language" (VStr "en")
   else mret tt) ;;
  config_get "language" ;;
  config_get "model" ;;
  (if str_isdigit (model_choice a) then
     n ← lift (py_int (VStr (model_choice a)));
     if (1 <=? n)%Z && (n <=? Z.of_nat (length Perplexity.available_models))%Z then
       index ← lift (py_int (VStr (model_choice a)));
       model ← lift (list_getitem Perplexity.available_models (index - 1));
       config_set "model" (VStr model)
     else mret tt
   else mret tt) ;;
  config_get "temperature" ;;
  (if truthy (VStr (temp a)) then
     value ← lift (py_float (VStr (temp a)));
     config_set "temperature" (VFloat value)
   else mret tt) ;;
  config_get "top_p" ;;
  (if truthy (VStr (top_p a)) then
     value ← lift (py_float (VStr (top_p a)));
     config_set "top_p" (VFloat value)
   else mret tt) ;;
  config_get "max_tokens" ;;
  (if truthy (VStr (max_tokens a)) then
     value ←
       (if negb (String.eqb (str_lower (max_tokens a)) "none")
        then lift (VInt <$> py_int (VStr (max_tokens a)))
        else mret VNone);
     config_set "max_tokens" value
   else mret tt) ;;
  config_get "search_recency_filter" ;;
  (if truthy (VStr (recency a)) then
     config_set "search_recency_filter" (default VNone (recency_options !! recency a))
   else mret tt) ;;
  config_get "return_citations" ;;
  (if bool_decide (str_lower (citations a) ∈ ["true"; "false"]) then
     config_set "return_citations" (VBool (String.eqb (str_lower (citations a)) "true"))
   else mret tt) ;;
  show_current_config.

(** The [config key=value ...] branch of the loop of [main], on the
    stripped line. *)
Definition config_line `{PyBuiltins} `{PyText} (user_input : string) : Py unit :=
  try_except
    (let config_str := slice_from 7 user_input in
     if negb (truthy (VStr config_str)) then mret tt
     else
       config_dict ← lift (parse_config config_str);
       Perplexity.config_command config_dict)
    [(any_Exception, λ _, mret tt)].

(** One pass of [while True:] in [main]. After the call the loop prints
    the citations of the result; an exception there is caught like any
    other of the pass, and the loop goes on. *)
Definition main_pass `{PyBuiltins} `{PyText} (t : pass) : Py loop_next :=
  try_except
    (let user_input := str_strip (typed t) in
     if negb (truthy (VStr user_input)) then mret Continue
     else if bool_decide (str_lower user_input ∈ ["sair"; "q"]) then mret Break
     else if bool_decide (str_lower user_input ∈ ["limpar"; "cls"]) then
       reset_history ;; mret Continue
     else if bool_decide (str_lower user_input ∈ ["ajuda"; "?"]) then mret Continue
     else if String.eqb (str_lower user_input) "config" then mret Continue
     else if String.prefix "config " (str_lower user_input) then
       config_line user_input ;; mret Continue
     else if bool_decide (str_lower user_input ∈ ["salvar"; "s"]) then mret Continue
     else
       result ← Perplexity.send_message (w_post (answers t)) user_input;
       lift (py_contains "error" result) ;;
       mret Continue)
    [(any_Exception, λ _, mret Continue)].

End PerplexityChat.

Module OpenAIChat.

(** [clear_conversation(self)] *)
Definition clear_conversation : Py unit :=
  reset_history ;; config_get "language" ;; mret tt.

(** [show_current_config(self)] *)
Definition show_current_config : Py unit :=
  config_get "language" ;; mret tt.

(** What the user types at the prompts of [configure_settings]. *)
Record typed_settings := {
  lang_choice : string;
  model_choice : string;
  temp : string;
  top_p : string;
  max_tokens : string;
  stream : string
}.

(** [configure_settings(self)]. The body is a [try] whose handler reads the
    local [is_ptbr]: that name is bound by the first statement, so an
    exception of that statement makes the handler raise in turn, and any
    later exception is reported and the method returns. *)
Definition configure_settings `{PyBuiltins} `{PyText} (a : typed_settings) : Py unit :=
  try_except (config_get "language" ;; mret tt)
    [(any_Exception, λ _,
       lift (Raise (mk_exn UnboundLocalError
         "cannot access local variable 'is_ptbr' where it is not associated with a value"
         None)))] ;;
  try_except
    ((if String.eqb (lang_choice a) "1" then config_set "language" (VStr "pt-br")
      else if String.eqb (lang_choice a) "2" then config_set "language" (VStr "en")
      else mret tt) ;;
     config_get "language" ;;
     config_get "model" ;;
     (if str_isdigit (model_choice a) then
        n ← lift (py_int (VStr (model_choice a)));
        if (1 <=? n)%Z && (n <=? Z.of_nat (length OpenAI.available_models))%Z then
          index ← lift (py_int (VStr (model_choice a)));
          model ← lift (list_getitem OpenAI.available_models (index - 1));
          config_set "model" (VStr model)
        else mret tt
      else mret tt) ;;
     config_get "temperature" ;;
     (if truthy (VStr (temp a)) then
        value ← lift (py_float (VStr (temp a)));
        config_set "temperature" (VFloat value)
      else mret tt) ;;
     config_get "top_p" ;;
     (if truthy (VStr (top_p a)) then
        value ← lift (py_float (VStr (top_p a)));
        config_set "top_p" (VFloat value)
      else mret tt) ;;
     config_get "max_tokens" ;;
     (if truthy (VStr (max_tokens a)) then
        value ←
          (if negb (String.eqb (str_lower (max_tokens a)) "none")
           then lift (VInt <$> py_int (VStr (max_tokens a)))
           else mret VNone);
        config_set "max_tokens" value
      else mret tt) ;;
     config_get "stream" ;;
     (if bool_decide (str_lower (stream a) ∈ ["true"; "false"]) then
        config_set "stream" (VBool (String.eqb (str_lower (stream a)) "true"))
      else mret tt) ;;
     show_current_config)
    [(any_Exception, λ _, mret tt)].

(** The [config key=value ...] branch of the loop of [run_chat]. *)
Definition config_line `{PyBuiltins} `{PyText} (user_input : string) : Py unit :=
  try_except
    (let config_str := slice_from 7 user_input in
     if negb (truthy (VStr config_str)) then mret tt
     else
       config_dict ← lift (parse_config config_str);
       OpenAI.config_command config_dict)
    [(any_Exception, λ _, mret tt)].

(** One pass of [while True:] in [run_chat]. The loop reads the stream
    flag before and after the call to lay out what it prints. *)
Definition run_chat_pass `{PyBuiltins} `{PyText} (t : pass) : Py loop_next :=
  try_except
    (let user_input := str_strip (typed t) in
     if negb (truthy (VStr user_input)) then mret Continue
     else if bool_decide (str_lower user_input ∈ ["sair"; "q"]) then mret Break
     else if bool_decide (str_lower user_input ∈ ["limpar"; "cls"]) then
       reset_history ;; mret Continue
     else if bool_decide (str_lower user_input ∈ ["ajuda"; "?"]) then mret Continue
     else if String.eqb (str_lower user_input) "config" then mret Continue
     else if String.prefix "config " (str_lower user_input) then
       config_line user_input ;; mret Continue
     else if bool_decide (str_lower user_input ∈ ["salvar"; "s"]) then mret Continue
     else
       config_get "stream" ;;
       result ← OpenAI.send_message (w_create (answers t)) user_input;
       has_error ← lift (py_contains "error" result);
       (if (has_error : bool) then mret tt
        else
          stream ← config_get "stream";
          if negb (truthy stream) then lift (py_getitem result "content") ;; mret tt
          else mret tt) ;;
       mret Continue)
    [(any_Exception, λ _, mret Continue)].

End OpenAIChat.

Module GroqChat.

(** [clear_history(self)] *)
Definition clear_history : Py unit := reset_history.

(** The [config key=value ...] branch of the loop of [run_chat]. *)
Definition config_line `{PyBuiltins} `{PyText} (user_input : string) : Py unit :=
  try_except
    (let config_str := slice_from 7 user_input in
     if negb (truthy (VStr config_str)) then mret tt
     else
       config_dict ← lift (parse_config config_str);
       Groq.config_command config_dict)
    [(any_Exception, λ _, mret tt)].

(** One pass of [while True:] in [run_chat]. *)
Definition run_chat_pass `{PyBuiltins} `{PyText} (t : pass) : Py loop_next :=
  try_except
    (let user_input := str_strip (typed t) in
     if negb (truthy (VStr user_input)) then mret Continue
     else if bool_decide (str_lower user_input ∈ ["sair"; "q"]) then mret Break
     else if bool_decide (str_lower user_input ∈ ["limpar"; "cls"]) then
       clear_history ;; mret Continue
     else if bool_decide (str_lower user_input ∈ ["ajuda"; "?"]) then mret Continue
     else if String.eqb (str_lower user_input) "config" then mret Continue
     else if String.prefix "config " (str_lower user_input) then
       config_line user_input ;; mret Continue
     else if bool_decide (str_lower user_input ∈ ["salvar"; "s"]) then mret Continue
     else
       result ← Groq.send_message (w_create (answers t)) user_input;
       lift (py_contains "error" result) ;;
       mret Continue)
    [(any_Exception, λ _, mret Continue)].

End GroqChat.

Module AnthropicChat.

(** [clear_history(self)] *)
Definition clear_history : Py unit := reset_history.

(** The [config key=value ...] branch of the loop of [run_chat]. *)
Definition config_line `{PyBuiltins} `{PyText} (user_input : string) : Py unit :=
  try_except
    (let config_str := slice_from 7 user_input in
     if negb (truthy (VStr config_str)) then mret tt
     else
       config_dict ← lift (parse_config config_str);
       Anthropic.config_command config_dict)
    [(any_Exception, λ _, mret tt)].

(** One pass of [while True:] in [run_chat]. *)
Definition run_chat_pass `{PyBuiltins} `{PyText} (t : pass) : Py loop_next :=
  try_except
    (let user_input := str_strip (typed t) in
     if negb (truthy (VStr user_input)) then mret Continue
     else if bool_decide (str_lower user_input ∈ ["sair"; "q"]) then mret Break
     else if bool_decide (str_lower user_input ∈ ["limpar"; "cls"]) then
       clear_history ;; mret Continue
     else if bool_decide (str_lower user_input ∈ ["ajuda"; "?"]) then mret Continue
     else if String.eqb (str_lower user_input) "config" then mret Continue
     else if String.prefix "config " (str_lower user_input) then
       config_line user_input ;; mret Continue
     else if bool_decide (str_lower user_input ∈ ["salvar"; "s"]) then mret Continue
     else
       result ← Anthropic.send_message (w_post (answers t)) user_input;
       lift (py_contains "error" result) ;;
       mret Continue)
    [(any_Exception, λ _, mret Continue)].

End AnthropicChat.

Module GeminiChat.

(** [clear_history(self)] *)
Definition clear_history : Py unit := reset_history.

(** The [config key=value ...] branch of the loop of [run_chat]; this loop
    has no test for an empty rest of the line. *)
Definition config_line `{PyBuiltins} `{PyText} (user_input : string) : Py unit :=
  try_except
    (let config_str := slice_from 7 user_input in
     config_dict ← lift (parse_config config_str);
     Gemini.config_command config_dict)
    [(any_Exception, λ _, mret tt)].

(** One pass of [while True:] in [run_chat]. The loop has no [ajuda] and
    no bare [config] command, and does not look at what [send_message]
    returns. *)
Definition run_chat_pass `{PyBuiltins} `{PyText} (t : pass) : Py loop_next :=
  try_except
    (let user_input := str_strip (typed t) in
     if negb (truthy (VStr user_input)) then mret Continue
     else if bool_decide (str_lower user_input ∈ ["sair"; "q"]) then mret Break
     else if bool_decide (str_lower user_input ∈ ["limpar"; "cls"]) then
       clear_history ;; mret Continue
     else if bool_decide (str_lower user_input ∈ ["salvar"; "s"]) then mret Continue
     else if String.prefix "config " (str_lower user_input) then
       config_line user_input ;; mret Continue
     else if String.prefix "imagem " (str_lower user_input) then
       let image_path := str_strip (slice_from 7 user_input) in
       if negb (path_exists t image_path) then mret Continue
       else
         Gemini.send_message (w_process_image (answers t)) (w_post (answers t))
           (typed_question t) (Some image_path) ;;
         mret Continue
     else
       Gemini.send_message (w_process_image (answers t)) (w_post (answers t))
         user_input None ;;
       mret Continue)
    [(any_Exception, λ _, mret Continue)].

End GeminiChat.

(** One pass of the loop of a class. *)
Definition chat_pass `{PyBuiltins} `{PyText} (p : provider) (t : pass) : Py loop_next :=
  match p with
  | perplexity => PerplexityChat.main_pass t
  | openai => OpenAIChat.run_chat_pass t
  | groq => GroqChat.run_chat_pass t
  | anthropic => AnthropicChat.run_chat_pass t
  | gemini => GeminiChat.run_chat_pass t
  end.

(** [while True:] over the passes; [break] ends it. *)
Fixpoint chat_loop `{PyBuiltins} `{PyText} (p : provider) (passes : list pass) (s : session)
  : session :=
  match passes with
  | [] => s
  | t :: rest =>
      match chat_pass p t s with
      | (s1, Ok Break) => s1
      | (s1, _) => chat_loop p rest s1
      end
  end.

(** The [config ...] branch of the loop of a class. *)
Definition chat_config_line `{PyBuiltins} `{PyText} (p : provider) (user_input : string)
  : Py unit :=
  match p with
  | perplexity => PerplexityChat.config_line user_input
  | openai => OpenAIChat.config_line user_input
  | groq => GroqChat.config_line user_input
  | anthropic => AnthropicChat.config_line user_input
  | gemini => GeminiChat.config_line user_input
  end.

(** ** The model lists and the [update_config] methods side by side *)

Global Instance provider_eq_dec : EqDecision provider := ltac:(solve_decision).

Definition available_models (p : provider) : list string :=
  match p with
  | perplexity => Perplexity.available_models
  | openai => OpenAI.available_models
  | groq => Groq.available_models
  | anthropic => Anthropic.available_models
  | gemini => Gemini.available_models
  end.

(** [chat.update_config(...)]; PerplexityChat and OpenAIChat have no such
    method. *)
Definition chat_update_config `{PyBuiltins} (p : provider)
  : option (list (string * PyVal) → Py unit) :=
  match p with
  | groq => Some Groq.update_config
  | anthropic => Some Anthropic.update_config
  | gemini => Some Gemini.update_config
  | perplexity | openai => None
  end.

(** The config names one of the models of the class. *)
Definition model_listed (p : provider) (cfg : gmap string PyVal) : Prop :=
  ∃ model, cfg !! "model" = Some model ∧ in_models model (available_models p) = true.

(** [0 <= float(v) <= 1] holds. *)
Definition temperature_in_range `{PyBuiltins} (v : PyVal) : Prop :=
  ∃ f, py_float v = Ok f ∧ between_0_and_1 f = true.

(** [int(v) <= 0] does not hold. *)
Definition positive_limit `{PyBuiltins} (v : PyVal) : Prop :=
  ∃ n, py_int v = Ok n ∧ (0 < n)%Z.

(** ** A concrete console

    An implementation of [PyText] on ASCII text, to run the loops on
    concrete lines: the whitespace of [strip] and [split] is the ASCII
    whitespace of Python (tab to carriage return, the four separators
    0x1c to 0x1f and the space), the digits are 0 to 9. *)

Module Console.

Definition is_space (c : ascii) : bool :=
  let n := Ascii.nat_of_ascii c in
  ((9 <=? n)%nat && (n <=? 13)%nat) || ((28 <=? n)%nat && (n <=? 32)%nat).

Fixpoint lstrip (s : string) : string :=
  match s with
  | String c rest => if is_space c then lstrip rest else s
  | EmptyString => EmptyString
  end.

(** [s] without its trailing whitespace. *)
Fixpoint rstrip (s : string) : string :=
  match s with
  | String c rest =>
      match rstrip rest with
      | EmptyString => if is_space c then EmptyString else String c EmptyString
      | kept => String c kept
      end
  | EmptyString => EmptyString
  end.

Definition strip (s : string) : string := rstrip (lstrip s).

(** The words of [s]; [word] holds, in reverse, the characters of the word
    being read. *)
Fixpoint words (s : string) (word : list ascii) : list string :=
  let flush rest :=
    match word with
    | [] => rest
    | _ => String.string_of_list_ascii (rev word) :: rest
    end in
  match s with
  | EmptyString => flush []
  | String c rest => if is_space c then flush (words rest []) else words rest (c :: word)
  end.

Definition split (s : string) : list string := words s [].

Fixpoint all_digits (s : string) : bool :=
  match s with
  | EmptyString => true
  | String c rest => bool_decide (is_Some (Interp.digit c)) && all_digits rest
  end.

Definition isdigit (s : string) : bool :=
  negb (Interp.is_empty s) && all_digits s.

Definition python_text : PyText := {|
  str_strip := strip;
  str_split := split;
  str_isdigit := isdigit
|}.

End Console.

(** How often the character [c] occurs in [s]. *)
Fixpoint occurrences (c : ascii) (s : string) : nat :=
  match s with
  | EmptyString => 0
  | String c' rest => (if Ascii.eqb c' c then 1 else 0) + occurrences c rest
  end.

(** The word [key=value] of a [config] line. *)
Definition assignment (pair : string * string) : string :=
  pair.1 +:+ "=" +:+ pair.2.
(** The dict after the assignments [pairs], made in order on [entries]. *)
Definition assign_all (pairs entries : list (string * string)) : list (string * string) :=
  foldl (λ d pair, str_dict_set pair.1 pair.2 d) entries pairs.

(** What no method run from a chat loop changes about an instance: the
    key, which keys the config has and, in the classes that check the
    model, that the model is one of the list. *)
Definition kept `{PyBuiltins} (p : provider) (s s' : session) : Prop :=
  api_key s' = api_key s
  ∧ (∀ k, config_has (current_config s') k = config_has (current_config s) k)
  ∧ (chat_update_config p ≠ None →
     model_listed p (current_config s) → model_listed p (current_config s')).

(** ** The request of one call *)

(** What a class hands to its transport: a [requests.post], or a call of
    [client.chat.completions.create]. *)
Inductive request :=
| HttpPost (url : string) (headers body : PyVal)
| SdkCreate (params : PyVal).

(** What the world answers to a request. *)
Definition answer (w : world) (r : request) : result Response + result sdk_object :=
  match r with
  | HttpPost url headers body => inl (w_post w url headers body)
  | SdkCreate params => inr (w_create w params)
  end.

(** The request that a call of [send_message] makes, read off the
    arguments of [requests.post] and [create] in the five methods: the
    history with the new message of the user goes into the builder of the
    class, the key into the headers or the URL. GeminiChat builds from the
    content of the call alone, after the image, if any, was processed and
    the model was set for it. The call raises before it makes a request
    when this does. *)
Definition wire_request `{PyBuiltins} (p : provider) (w : world) (c : call) (s : session)
  : result request :=
  let history := conversation_history s ++ [mk_user_message (message c)] in
  match p with
  | perplexity =>
      body ← Perplexity.create_request_body (current_config s) history;
      mret (HttpPost Perplexity.url (Perplexity.create_headers (api_key s)) body)
  | openai => SdkCreate <$> OpenAI.create_chat_params (current_config s) history
  | groq => SdkCreate <$> Groq.create_chat_params (current_config s) history
  | anthropic =>
      params ← Anthropic.create_chat_params (current_config s) history;
      mret (HttpPost Anthropic.api_url (Anthropic.headers (api_key s)) params)
  | gemini =>
      '(cfg, content, is_image) ←
        (if Gemini.image_given (image_path c) then
           data ← w_process_image w (default EmptyString (image_path c));
           let prompt :=
             if truthy (VStr (message c)) then message c
             else "Descreva esta imagem em detalhes" in
           mret (<["model" := VStr Gemini.GEMINI_FLASH_8B]> (current_config s),
                 VDict [("prompt", VStr prompt); ("image_data", Gemini.image_dict data)],
                 true)
         else
           language ← config_lookup (current_config s) "language";
           system_message ← system_message_for Gemini.system_messages language;
           mret (current_config s, VStr (system_message +:+ LF +:+ LF +:+ message c), false));
      model ← config_lookup cfg "model";
      data ← Gemini.create_request_data cfg content is_image;
      mret (HttpPost
              ("https://generativelanguage.googleapis.com/v1/models/" +:+ py_str model
                 +:+ ":generateContent?key=" +:+ api_key s)
              VNone data)
  end.

(** What a returned dict says besides its copy of the history: the text
    of the answer and the error. *)
Definition said (r : result PyVal) : result (option PyVal * option PyVal) :=
  returned ← r;
  match returned with
  | VDict entries => mret (dict_get "response" entries, dict_get "error" entries)
  | _ => mret (None, None)
  end.

(** The temperature that a request carries: the field [temperature] of
    the payload, inside [generationConfig] for GeminiChat. *)
Definition wire_temperature (p : provider) (r : request) : result PyVal :=
  let payload :=
    match r with
    | HttpPost _ _ body => body
    | SdkCreate params => params
    end in
  match p with
  | gemini => py_getitem payload "generationConfig" ≫= λ g, py_getitem g "temperature"
  | _ => py_getitem payload "temperature"
  end.

(** By how many entries a call grows the history when it gives [r]: two
    for an answer, one otherwise. *)
Definition entries_added (r : result PyVal) : nat :=
  if succeeded r then 2 else 1.

Definition returned (r : result PyVal) : bool :=
  match r with Ok _ => true | Raise _ => false end.

(** What OpenAIChat and GroqChat return for an answer with the given
    content, once it is in the history. *)
Definition sdk_answer (p : provider) (content : PyVal) (history : list PyVal) : PyVal :=
  match p with
  | openai => VDict [("content", content); ("citations", VList [])]
  | _ => VDict [("response", content); ("conversation_history", VList history)]
  end.

(** ** Invariants of methods *)

(** The method [m] keeps [I]: what holds of the instance before a run of
    [m] holds after it, whether [m] returns or raises. *)
Definition keeps {A} (I : session → Prop) (m : Py A) : Prop :=
  ∀ s s' r, m s = (s', r) → I s → I s'.

(** What the settings dialogue leaves of the instance [s0]: the key, the
    history, which keys the config has and, if the model was one of the
    list, that it is. *)
Definition settled (p : provider) (s0 s : session) : Prop :=
  api_key s = api_key s0
  ∧ conversation_history s = conversation_history s0
  ∧ (∀ k, config_has (current_config s) k = config_has (current_config s0) k)
  ∧ (model_listed p (current_config s0) → model_listed p (current_config s)).

(** ** The saved conversation *)

(** The file system and the clock, as [save_conversation] meets them: the
    test for the folder [historico] and its creation, the two readings of
    the clock in the formats of the file name and of the title, and the
    opening of the file. Writing to the open file fails in the encoder
    only. *)
Record desk := {
  make_folder : result unit;
  stamp : string;
  open_file : string → result unit;
  date : string
}.

(** The keys of the config in the order in which [__init__] writes them,
    which is the order in which a dict hands out its items as long as no
    key is added or removed. *)
Definition config_keys (p : provider) : list string :=
  match p with
  | perplexity =>
      ["model"; "temperature"; "top_p"; "top_k"; "max_tokens"; "presence_penalty";
       "frequency_penalty"; "return_citations"; "return_related_questions";
       "search_recency_filter"; "language"]
  | openai =>
      ["model"; "temperature"; "top_p"; "max_tokens"; "presence_penalty";
       "frequency_penalty"; "stream"; "language"]
  | groq => ["model"; "temperature"; "top_p"; "max_tokens"; "stream"; "language"]
  | anthropic => ["model"; "temperature"; "max_tokens"; "system"; "language"]
  | gemini => ["model"; "temperature"; "top_k"; "top_p"; "max_tokens"; "language"]
  end.

(** [self.current_config.items()] *)
Definition config_items (p : provider) (cfg : gmap string PyVal) : list (string * PyVal) :=
  omap (λ key, (key,.) <$> cfg !! key) (config_keys p).

(** The name of the class in the title and in the file name. *)
Definition title_name (p : provider) : string :=
  match p with
  | perplexity => "Perplexity"
  | openai => "OpenAI"
  | groq => "Groq"
  | anthropic => "Anthropic"
  | gemini => "Gemini"
  end.

Definition file_tag (p : provider) : string :=
  match p with
  | perplexity => "perplexity"
  | openai => "openai"
  | groq => "groq"
  | anthropic => "anthropic"
  | gemini => "gemini"
  end.

(** A byte that continues a character of more than one byte in UTF-8. *)
Definition is_continuation (c : ascii) : bool :=
  let n := Ascii.nat_of_ascii c in (128 <=? n)%nat && (n <? 192)%nat.

(** The characters of a string, each with all its bytes. *)
Fixpoint code_points (s : string) : list string :=
  match s with
  | EmptyString => []
  | String c rest =>
      match rest with
      | String next _ =>
          if is_continuation next then
            match code_points rest with
            | first :: others => String c first :: others
            | [] => [String c EmptyString]
            end
          else String c EmptyString :: code_points rest
      | EmptyString => [String c EmptyString]
      end
  end.

(** [for x in v]: the items of a list, the characters of a string, the
    keys of a dict. *)
Definition py_iter (v : PyVal) : result (list PyVal) :=
  match v with
  | VList items => Ok items
  | VStr s => Ok (VStr <$> code_points s)
  | VDict entries => Ok (VStr <$> entries.*1)
  | _ => type_error ("'" +:+ type_name v +:+ "' object is not iterable")
  end.

(** *** The encoder of the file

    A Python [str] is kept as the bytes of its UTF-8 form. A [str] can also
    hold a lone surrogate (U+D800 to U+DFFF): [input] gives one for a byte
    that it cannot decode, [json] for an escape such as [\ud83d]. UTF-8
    has no form for it; such a character is kept as the three bytes that
    the scheme of UTF-8 would give it, 0xED, a byte from 0xA0 to 0xBF and
    a byte from 0x80 to 0xBF. *)
Definition is_surrogate (ch : string) : bool :=
  match ch with
  | String b0 (String b1 (String b2 EmptyString)) =>
      (Ascii.N_of_ascii b0 =? 237)%N && (160 <=? Ascii.N_of_ascii b1)%N
  | _ => false
  end.

(** The number of a character of three bytes. *)
Definition code_point3 (ch : string) : N :=
  match ch with
  | String b0 (String b1 (String b2 _)) =>
      (4096 * (Ascii.N_of_ascii b0 mod 16) + 64 * (Ascii.N_of_ascii b1 mod 64)
       + Ascii.N_of_ascii b2 mod 64)%N
  | _ => 0%N
  end.

Definition lower_hex (n : N) : ascii :=
  nth (N.to_nat n) (String.list_ascii_of_string "0123456789abcdef") "0"%char.

(** [%04x] *)
Definition hex4 (n : N) : string :=
  String (lower_hex (n / 4096 mod 16))
    (String (lower_hex (n / 256 mod 16))
       (String (lower_hex (n / 16 mod 16)) (String (lower_hex (n mod 16)) EmptyString))).

(** How many surrogates the characters start with. *)
Fixpoint surrogate_run (chars : list string) : nat :=
  match chars with
  | ch :: rest => if is_surrogate ch then S (surrogate_run rest) else 0
  | [] => 0
  end.

(** The first surrogate among the characters, counted from [index]: its
    position, the character, and the length of the run that it starts. *)
Fixpoint first_surrogate (index : nat) (chars : list string) : option (nat * string * nat) :=
  match chars with
  | [] => None
  | ch :: rest =>
      if is_surrogate ch then Some (index, ch, S (surrogate_run rest))
      else first_surrogate (S index) rest
  end.

(** What the encoder of a file opened with [encoding='utf-8'] raises on a
    text: nothing, or the [UnicodeEncodeError] (a [ValueError]) for the
    first run of surrogates. *)
Definition utf8_error (text : string) : option exn :=
  match first_surrogate 0 (code_points text) with
  | None => None
  | Some (start, ch, run) =>
      Some (mk_exn ValueError
              (if (run =? 1)%nat then
                 "'utf-8' codec can't encode character '\u" +:+ hex4 (code_point3 ch)
                   +:+ "' in position " +:+ pretty start +:+ ": surrogates not allowed"
               else
                 "'utf-8' codec can't encode characters in position " +:+ pretty start
                   +:+ "-" +:+ pretty (start + run - 1) +:+ ": surrogates not allowed")
              None)
  end.

(** *** Writing

    A piece of the method that writes: the text that reached the file in
    it, and how it ended. An exception ends the writing; what was written
    before it stays in the file. *)

(** [f.write(text)]: the text is encoded as a whole, so it is written as a
    whole or not at all. *)
Definition file_write (text : string) : string * result unit :=
  match utf8_error text with
  | None => (text, Ok tt)
  | Some e => (EmptyString, Raise e)
  end.

(** One piece after the other. *)
Definition and_then (first next : string * result unit) : string * result unit :=
  match first with
  | (written, Ok _) => let '(more, r) := next in (written +:+ more, r)
  | (written, Raise e) => (written, Raise e)
  end.

(** [for text in texts: f.write(text)] *)
Fixpoint write_lines (texts : list string) : string * result unit :=
  match texts with
  | [] => (EmptyString, Ok tt)
  | text :: rest => and_then (file_write text) (write_lines rest)
  end.

(** The line of one config entry. *)
Definition config_entry_line `{PyBuiltins} (key : string) (value : PyVal) : string :=
  "- **" +:+ key +:+ "**: `" +:+ py_str value +:+ "`" +:+ LF.

(** The section of a history entry: the heading of the role, where
    everything that is not the user is the assistant, and the content. *)
Definition section_text `{PyBuiltins} (role content : PyVal) : string :=
  let heading :=
    match role with
    | VStr "user" => "🧑 Usuário"
    | _ => "🤖 Assistente"
    end in
  "### " +:+ heading +:+ LF +:+ py_str content +:+ LF +:+ LF.

(** What the body of the loop over the history does for one entry: it
    writes the section of the entry and, in PerplexityChat, the citations
    after it, if the entry has any. *)
Definition write_message `{PyBuiltins} (p : provider) (msg : PyVal) : string * result unit :=
  match py_getitem msg "role" with
  | Raise e => (EmptyString, Raise e)
  | Ok role =>
      match py_getitem msg "content" with
      | Raise e => (EmptyString, Raise e)
      | Ok content =>
          and_then (file_write (section_text role content))
            match p with
            | perplexity =>
                match py_get msg "citations" VNone with
                | Raise e => (EmptyString, Raise e)
                | Ok found =>
                    if truthy found then
                      and_then (file_write ("#### 📚 Citações" +:+ LF))
                        match py_getitem msg "citations" ≫= py_iter with
                        | Raise e => (EmptyString, Raise e)
                        | Ok citations =>
                            and_then
                              (write_lines
                                 (map (λ citation, "- " +:+ py_str citation +:+ LF) citations))
                              (file_write LF)
                        end
                    else (EmptyString, Ok tt)
                end
            | _ => (EmptyString, Ok tt)
            end
      end
  end.

(** [for msg in self.conversation_history: ...] *)
Fixpoint write_messages `{PyBuiltins} (p : provider) (history : list PyVal)
  : string * result unit :=
  match history with
  | [] => (EmptyString, Ok tt)
  | msg :: rest =>
      match write_message p msg with
      | (written, Ok _) =>
          let '(more, r) := write_messages p rest in (written +:+ more, r)
      | (written, Raise e) => (written, Raise e)
      end
  end.

(** The name of the file. *)
Definition file_name (p : provider) (d : desk) : string :=
  "historico/" +:+ file_tag p +:+ "_chat_" +:+ stamp d +:+ ".md".

(** The first line of the file. *)
Definition title_line (p : provider) (d : desk) : string :=
  "# Conversa " +:+ title_name p +:+ " - " +:+ date d +:+ LF +:+ LF.

(** The body of [with open(...) as f:]. *)
Definition write_conversation `{PyBuiltins} (p : provider) (d : desk) (s : session)
  : string * result unit :=
  and_then (file_write (title_line p d))
    (and_then (file_write ("## Configurações" +:+ LF))
       (and_then
          (write_lines
             (map (λ '(key, value), config_entry_line key value)
                (config_items p (current_config s))))
          (and_then (file_write LF)
             (and_then (file_write ("## Conversa" +:+ LF +:+ LF))
                (write_messages p (conversation_history s)))))).

(** [save_conversation(self)]: the name of the file and what is in it when
    the method returns, if the file was opened at all, and how the body of
    [try] ended. The method itself returns [None]: it reports an exception
    on the console only. *)
Definition save_conversation `{PyBuiltins} (p : provider) (d : desk) (s : session)
  : option (string * string) * result unit :=
  match make_folder d with
  | Raise e => (None, Raise e)
  | Ok _ =>
      match open_file d (file_name p d) with
      | Raise e => (None, Raise e)
      | Ok _ =>
          let '(written, r) := write_conversation p d s in
          (Some (file_name p d, written), r)
      end
  end.

(** The section in the file of an entry of a role and a content. *)
Definition has_section `{PyBuiltins} (msg : PyVal) (section : string) : Prop :=
  ∃ role content,
    msg = VDict [("role", VStr role); ("content", content)]
    ∧ section = section_text (VStr role) content.

(** An entry as the classes build it: a dict of a role and a content. *)
Definition message_entry (v : PyVal) : Prop :=
  ∃ role content, v = VDict [("role", VStr role); ("content", content)].

(** The method of a class that clears the history. *)
Definition chat_clear (p : provider) : Py unit :=
  match p with
  | perplexity => PerplexityChat.clear_conversation
  | openai => OpenAIChat.clear_conversation
  | groq => GroqChat.clear_history
  | anthropic => AnthropicChat.clear_history
  | gemini => GeminiChat.clear_history
  end.

(** The message array of a request. *)
Definition wire_messages (r : request) : result PyVal :=
  match r with
  | HttpPost _ _ body => py_getitem body "messages"
  | SdkCreate params => py_getitem params "messages"
  end.

(** * Properties *)

(** ** Proof tools *)

(** Unfold the monad of methods down to pairs and matches. *)
Ltac unfold_py :=
  unfold try_except, history_append, get_api_key, get_history, get_config_dict,
    config_get, config_set, lift, mbind, Py_bind, mret, Py_ret, fmap, Py_fmap, handle,
    any_Exception in *.

(** Split the innermost match of hypothesis [H] and drop impossible cases. *)
Ltac step H :=
  match type of H with
  | context [match ?x with _ => _ end] =>
      lazymatch x with
      | context [match _ with _ => _ end] => fail
      | _ => let E := fresh "E" in destruct x eqn:E; cbn beta iota zeta in H; try discriminate
      end
  end.

Lemma py_getitem_raises v k e : py_getitem v k = Raise e → is_RequestException e = false.
Proof.
  unfold py_getitem, key_error, type_error.
  intros; repeat case_match; simplify_eq; done.
Qed.

Lemma py_getitem0_raises v e : py_getitem0 v = Raise e → is_RequestException e = false.
Proof.
  unfold py_getitem0, index_error, type_error.
  intros; repeat case_match; simplify_eq; done.
Qed.

Lemma py_get_raises v k d e : py_get v k d = Raise e → is_RequestException e = false.
Proof. unfold py_get, attribute_error. intros; repeat case_match; simplify_eq; done. Qed.

(** A value with a string subscript is a dict, and has [get]. *)
Lemma py_get_of_subscripted v k x k' d e :
  py_getitem v k = Ok x → py_get v k' d = Raise e → False.
Proof. by destruct v. Qed.

Lemma config_lookup_raises cfg k e : config_lookup cfg k = Raise e → cfg !! k = None.
Proof. unfold config_lookup. by case_match. Qed.

Lemma config_lookup_raises_class cfg k e :
  config_lookup cfg k = Raise e → is_RequestException e = false.
Proof. unfold config_lookup, key_error. intros; case_match; by simplify_eq. Qed.

Lemma config_lookup_Some cfg k v : cfg !! k = Some v → config_lookup cfg k = Ok v.
Proof. unfold config_lookup. by intros ->. Qed.

(** ** One call of [send_message] *)

Ltac not_request :=
  match goal with
  | H1 : py_getitem _ _ = Raise ?e, H2 : is_RequestException ?e = true |- _ =>
      apply py_getitem_raises in H1; congruence
  | H1 : py_getitem0 _ = Raise ?e, H2 : is_RequestException ?e = true |- _ =>
      apply py_getitem0_raises in H1; congruence
  | H1 : py_get _ _ _ = Raise ?e, H2 : is_RequestException ?e = true |- _ =>
      apply py_get_raises in H1; congruence
  end.

Ltac history_eq :=
  cbn [conversation_history fst snd]; rewrite <- ?app_assoc; reflexivity.

Ltac preparation :=
  unfold preparation_fails, Gemini.image_given, mbind, result_bind in *;
  repeat case_match; simplify_eq; eauto.

(** GeminiChat is past the preparation once the image was processed, or
    the system message of the language was found. *)
Lemma prepared_image w c s data :
  Gemini.image_given (image_path c) = true →
  w_process_image w (default EmptyString (image_path c)) = Ok data →
  ¬ preparation_fails w c s.
Proof.
  unfold preparation_fails, Gemini.image_given.
  destruct (image_path c) as [path |]; cbn -[truthy]; [| done].
  intros -> Hdata [e He]. congruence.
Qed.

Lemma prepared_text w c s language system_message :
  Gemini.image_given (image_path c) = false →
  config_lookup (current_config s) "language" = Ok language →
  system_message_for Gemini.system_messages language = Ok system_message →
  ¬ preparation_fails w c s.
Proof.
  unfold preparation_fails, Gemini.image_given.
  intros Himage Hlanguage Hmessage.
  assert (¬ ∃ e, (config_lookup (current_config s) "language"
                    ≫= system_message_for Gemini.system_messages) = Raise e) as Hfound.
  { rewrite Hlanguage. unfold mbind, result_bind. rewrite Hmessage. by intros [e He]. }
  destruct (image_path c) as [path |]; cbn -[truthy] in Himage; [| done].
  by rewrite Himage.
Qed.

Ltac prepared :=
  let Hp := fresh "Hp" in
  intros Hp;
  first
    [ discriminate Hp
    | eapply prepared_image; eassumption
    | eapply prepared_text; eassumption ].

Ltac not_caught :=
  first
    [ assumption
    | eapply py_getitem_raises; eassumption
    | eapply py_getitem0_raises; eassumption
    | eapply py_get_raises; eassumption
    | eapply config_lookup_raises_class; eassumption ].

Ltac solve_exchange :=
  first
    [ not_request
    | by match goal with
         | H1 : py_getitem ?v _ = Ok _, H2 : py_get ?v _ _ = Raise _ |- _ =>
             destruct (py_get_of_subscripted _ _ _ _ _ _ H1 H2)
         end
    | eapply exchange_answered;
      [ history_eq | unfold is_reply; first [eassumption | reflexivity]
      | reflexivity | reflexivity | prepared ]
    | eapply exchange_failed; [ history_eq | prepared ]
    | eapply exchange_not_started; [ reflexivity | preparation | history_eq ]
    | eapply exchange_raised;
      [ first [ by left | right; split; [ reflexivity | eauto using config_lookup_raises ] ]
      | not_caught | history_eq ]
    | eapply exchange_raised_late; [ reflexivity | not_caught | history_eq | eassumption ] ].

Section exchanges.
Context `{PyBuiltins}.

Lemma perplexity_exchange w c s s' r :
  chat_send perplexity w c s = (s', r) → exchange perplexity w c s s' r.
Proof.
  unfold chat_send, Perplexity.send_message. unfold_py.
  cbn -[Perplexity.create_request_body raise_for_status py_getitem py_get py_getitem0].
  intros Hs. repeat step Hs. all: simplify_eq; solve_exchange.
Qed.

Lemma openai_exchange w c s s' r :
  chat_send openai w c s = (s', r) → exchange openai w c s s' r.
Proof.
  unfold chat_send, OpenAI.send_message. unfold_py.
  cbn -[OpenAI.create_chat_params drain_stream first_message_content truthy].
  intros Hs. repeat step Hs. all: simplify_eq; solve_exchange.
Qed.

Lemma groq_exchange w c s s' r :
  chat_send groq w c s = (s', r) → exchange groq w c s s' r.
Proof.
  unfold chat_send, Groq.send_message, Groq.api_error_message. unfold_py.
  cbn -[Groq.create_chat_params drain_stream first_message_content truthy str_contains
        String.append String.concat].
  intros Hs. repeat step Hs. all: simplify_eq; solve_exchange.
Qed.

Lemma anthropic_exchange w c s s' r :
  chat_send anthropic w c s = (s', r) → exchange anthropic w c s s' r.
Proof.
  unfold chat_send, Anthropic.send_message, Anthropic.api_error_handler. unfold_py.
  cbn -[Anthropic.create_chat_params raise_for_status py_getitem py_get py_getitem0 Z.eqb
        String.append String.concat].
  intros Hs. repeat step Hs. all: simplify_eq; solve_exchange.
Qed.

Lemma gemini_exchange w c s s' r :
  chat_send gemini w c s = (s', r) → exchange gemini w c s s' r.
Proof.
  unfold chat_send, Gemini.send_message. unfold_py.
  cbn -[Gemini.create_request_data raise_for_status py_getitem py_get py_getitem0 py_contains
        truthy Gemini.request_error_message system_message_for Gemini.image_given
        String.append String.concat].
  intros Hs. repeat step Hs. all: simplify_eq; solve_exchange.
Qed.

(** Every call of [send_message] is one of the four kinds of exchange. *)
Lemma chat_send_exchange p w c s s' r :
  chat_send p w c s = (s', r) → exchange p w c s s' r.
Proof.
  destruct p;
    eauto using perplexity_exchange, openai_exchange, groq_exchange, anthropic_exchange,
      gemini_exchange.
Qed.

End exchanges.

(** ** The history after a run of calls *)

Section histories.
Context `{PyBuiltins}.

Lemma turns_length p messages history :
  turns p messages history → length history = 2 * length messages.
Proof. induction 1; rewrite ?length_app; cbn; lia. Qed.

(** The entries that the four classes other than PerplexityChat build
    themselves have the role of the user or of the assistant. *)
Lemma turns_roles p messages history :
  p ≠ perplexity → turns p messages history →
  forallb user_or_assistant history = true.
Proof.
  intros Hp. induction 1 as [| messages history message content entry _ IH Hreply]; [done |].
  rewrite forallb_app, IH.
  assert (entry = mk_assistant_message content) as -> by by destruct p.
  cbn [forallb andb]. unfold user_or_assistant, mk_user_message, mk_assistant_message.
  cbn [py_getitem dict_get String.eqb Ascii.eqb Bool.eqb].
  rewrite !bool_decide_eq_true_2; [done | |].
  - apply list_elem_of_further, list_elem_of_here.
  - apply list_elem_of_here.
Qed.

(** A call that succeeded appended the user entry and the entry of the
    answer that it returns. *)
Lemma succeeded_answered p w c s s' r :
  exchange p w c s s' r → succeeded r = true →
  ∃ entries content entry,
    r = Ok (VDict entries)
    ∧ conversation_history s' =
        conversation_history s ++ [mk_user_message (message c); entry]
    ∧ is_reply p content entry
    ∧ dict_get (content_key p) entries = Some content.
Proof.
  destruct 1; cbn; try discriminate; intros _.
  eexists _, _, _; eauto.
Qed.

(** A call that returned an error appended the user entry alone, or
    nothing: nothing exactly when it is a call of GeminiChat whose
    preparation failed. *)
Lemma error_not_answered p w c s s' result :
  exchange p w c s s' (Ok result) → has_error_key result = true →
  (p = gemini ∧ preparation_fails w c s →
     conversation_history s' = conversation_history s)
  ∧ (¬ (p = gemini ∧ preparation_fails w c s) →
       conversation_history s' = conversation_history s ++ [mk_user_message (message c)]).
Proof.
  inversion 1 as [entries content entry Hhist Hreply Herror Hget Hprepared
                 | msg Hhist Hprepared | msg Hp Hprep Hhist | |]; subst; cbn; intros Herr.
  - congruence.
  - split; [| done]. intros [Hp Hprep]. by destruct (Hprepared Hp).
  - split; [done |]. intros Hnot. by destruct Hnot.
Qed.

(** A call that raised appended the user entry, and PerplexityChat
    possibly the message object whose content it could not read. *)
Lemma raised_not_returned p w c s s' e :
  exchange p w c s s' (Raise e) →
  is_RequestException e = false
  ∧ ((p = perplexity ∨ (p = openai ∧ current_config s !! "language" = None))
     ∧ conversation_history s' = conversation_history s ++ [mk_user_message (message c)]
     ∨ ∃ entry,
         p = perplexity
         ∧ py_getitem entry "content" = Raise e
         ∧ conversation_history s' =
             conversation_history s ++ [mk_user_message (message c); entry]).
Proof.
  inversion 1 as [| | | ? Hp Hclass Hhist | ? entry Hp Hclass Hhist Hcontent]; subst.
  - split; [done |]. by left.
  - split; [done |]. right. by exists entry.
Qed.

Lemma chat_run_turns p calls : ∀ s s' results messages,
  turns p messages (conversation_history s) →
  chat_run p calls s = (s', results) →
  forallb succeeded results = true →
  turns p (messages ++ map (λ wc, message wc.2) calls) (conversation_history s').
Proof.
  induction calls as [| [w c] calls IH]; intros s s' results messages Hturns Hrun Hok.
  - cbn in Hrun. simplify_eq. by rewrite app_nil_r.
  - cbn [chat_run] in Hrun.
    destruct (chat_send p w c s) as [s1 r] eqn:Hsend.
    destruct (chat_run p calls s1) as [s2 rs] eqn:Hrest.
    simplify_eq. cbn in Hok. apply andb_prop in Hok as [Hr Hrs].
    apply chat_send_exchange in Hsend.
    destruct (succeeded_answered _ _ _ _ _ _ Hsend Hr)
      as (entries & content & entry & _ & Hhist & Hreply & _).
    cbn [map]. rewrite (cons_middle (message c)), app_assoc.
    eapply IH; [| exact Hrest | exact Hrs].
    rewrite Hhist. by econstructor.
Qed.

(** The second entry that a call of PerplexityChat appends is the message
    object of the first choice of the response to its request, as it
    came. *)
Lemma perplexity_appends_response_message w c s s' r entry :
  chat_send perplexity w c s = (s', r) →
  conversation_history s' =
    conversation_history s ++ [mk_user_message (message c); entry] →
  ∃ body response result choices choice,
    Perplexity.create_request_body (current_config s)
      (conversation_history s ++ [mk_user_message (message c)]) = Ok body
    ∧ w_post w Perplexity.url (Perplexity.create_headers (api_key s)) body = Ok response
    ∧ response_json response = Ok result
    ∧ py_getitem result "choices" = Ok choices
    ∧ py_getitem0 choices = Ok choice
    ∧ py_getitem choice "message" = Ok entry.
Proof.
  unfold chat_send, Perplexity.send_message. unfold_py.
  cbn -[Perplexity.create_request_body raise_for_status py_getitem py_get py_getitem0].
  intros Hs Hhist. repeat step Hs.
  all: simplify_eq; cbn [conversation_history] in Hhist; rewrite <- ?app_assoc in Hhist;
    apply app_inv_head in Hhist; cbn [app] in Hhist; simplify_eq.
  all: by eexists _, _, _, _, _.
Qed.

End histories.

(** C1 (as amended): from an empty conversation, a run of N calls that all
    succeed leaves exactly 2N entries, the user entry and the entry of the
    answer of each call in turn. The four classes other than PerplexityChat
    build the entry of the answer themselves, with the role of the
    assistant, so no system message is in the history; PerplexityChat
    appends the message object of the response as it came, whatever its
    role. A call that returns an error has appended the user entry alone,
    or nothing: nothing exactly when it is a call of GeminiChat and
    preparing the content (the image, or the system message of the
    language) is what failed. A call can also fail by raising, in
    PerplexityChat and, when the config has no language, in OpenAIChat:
    the user entry was appended then, and in PerplexityChat possibly the
    message object as well, when its content cannot be read. *)
Theorem C1_history_invariant `{PyBuiltins} (p : provider) :
  (∀ calls s s' results,
     conversation_history s = [] →
     chat_run p calls s = (s', results) →
     forallb succeeded results = true →
     length (conversation_history s') = 2 * length calls
     ∧ turns p (map (λ wc, message wc.2) calls) (conversation_history s')
     ∧ (p ≠ perplexity → forallb user_or_assistant (conversation_history s') = true))
  ∧ (p = perplexity →
     ∀ w c s s' r entry,
       chat_send p w c s = (s', r) →
       conversation_history s' =
         conversation_history s ++ [mk_user_message (message c); entry] →
       ∃ body response result choices choice,
         Perplexity.create_request_body (current_config s)
           (conversation_history s ++ [mk_user_message (message c)]) = Ok body
         ∧ w_post w Perplexity.url (Perplexity.create_headers (api_key s)) body
             = Ok response
         ∧ response_json response = Ok result
         ∧ py_getitem result "choices" = Ok choices
         ∧ py_getitem0 choices = Ok choice
         ∧ py_getitem choice "message" = Ok entry)
  ∧ (∀ w c s s' result,
       chat_send p w c s = (s', Ok result) →
       has_error_key result = true →
       (p = gemini ∧ preparation_fails w c s →
          conversation_history s' = conversation_history s)
       ∧ (¬ (p = gemini ∧ preparation_fails w c s) →
            conversation_history s' =
              conversation_history s ++ [mk_user_message (message c)]))
  ∧ (∀ w c s s' e,
       chat_send p w c s = (s', Raise e) →
       (p = perplexity ∨ (p = openai ∧ current_config s !! "language" = None))
       ∧ conversation_history s' = conversation_history s ++ [mk_user_message (message c)]
       ∨ ∃ entry,
           p = perplexity
           ∧ py_getitem entry "content" = Raise e
           ∧ conversation_history s' =
               conversation_history s ++ [mk_user_message (message c); entry]).
Proof.
  split; [| split; [| split]].
  - intros calls s s' results Hempty Hrun Hok.
    assert (turns p ([] ++ map (λ wc, message wc.2) calls) (conversation_history s'))
      as Hturns.
    { eapply chat_run_turns; [| exact Hrun | exact Hok]. rewrite Hempty. constructor. }
    cbn in Hturns. split; [| split; [exact Hturns |]].
    + apply turns_length in Hturns. by rewrite length_map in Hturns.
    + intros Hp. by eapply turns_roles.
  - intros -> w c s s' r entry Hsend Hhist.
    by eapply perplexity_appends_response_message.
  - intros w c s s' result Hsend Herr.
    eapply error_not_answered; [| exact Herr]. by apply chat_send_exchange.
  - intros w c s s' e Hsend. apply chat_send_exchange in Hsend.
    by apply raised_not_returned in Hsend as [_ Hsend].
Qed.

(** Two answered calls of PerplexityChat and of AnthropicChat, a GeminiChat
    call whose image cannot be read, and a PerplexityChat call answered by
    a message object without content. *)
Lemma C1_history_invariant_witness :
  (let calls := [(Examples.answering perplexity, Examples.hello);
                 (Examples.answering perplexity, Examples.hello)] in
   let run := @chat_run Interp.python perplexity calls (Examples.fresh perplexity) in
   length (conversation_history run.1) = 2 * length calls
   ∧ turns perplexity (map (λ wc, message wc.2) calls) (conversation_history run.1))
  ∧ (let calls := [(Examples.answering anthropic, Examples.hello);
                   (Examples.answering anthropic, Examples.hello)] in
     let run := @chat_run Interp.python anthropic calls (Examples.fresh anthropic) in
     forallb user_or_assistant (conversation_history run.1) = true)
  ∧ (let c := {| message := "hello"; image_path := Some "cat.png" |} in
     let s := Examples.fresh gemini in
     let sent := @chat_send Interp.python gemini Examples.offline c s in
     conversation_history sent.1 = conversation_history s)
  ∧ (let w := Examples.replying
                (Examples.completion_body (VDict [("role", VStr "assistant")])) in
     let s := Examples.fresh perplexity in
     let sent := @chat_send Interp.python perplexity w Examples.hello s in
     let e := Exn KeyError (Key (VStr "content")) None in
     ∃ entry,
       py_getitem entry "content" = Raise e
       ∧ conversation_history sent.1 =
           conversation_history s ++ [mk_user_message (message Examples.hello); entry]).
Proof.
  split; [| split; [| split]].
  - intros calls run.
    destruct (proj1 (@C1_history_invariant Interp.python perplexity)
                calls (Examples.fresh perplexity) run.1 run.2 eq_refl
                (surjective_pairing _) ltac:(vm_compute; reflexivity))
      as (Hlength & Hturns & _).
    split; [exact Hlength | exact Hturns].
  - intros calls run.
    destruct (proj1 (@C1_history_invariant Interp.python anthropic)
                calls (Examples.fresh anthropic) run.1 run.2 eq_refl
                (surjective_pairing _) ltac:(vm_compute; reflexivity))
      as (_ & _ & Hroles).
    apply Hroles. discriminate.
  - intros c s sent.
    eapply (proj1 (proj2 (proj2 (@C1_history_invariant Interp.python gemini)))
              Examples.offline c s).
    + vm_compute. reflexivity.
    + vm_compute. reflexivity.
    + split; [reflexivity |]. eexists. vm_compute. reflexivity.
  - intros w s sent e.
    destruct (proj2 (proj2 (proj2 (@C1_history_invariant Interp.python perplexity)))
                w Examples.hello s sent.1 e ltac:(vm_compute; reflexivity))
      as [[_ Hhist] | (entry & _ & Hcontent & Hhist)].
    + vm_compute in Hhist. discriminate Hhist.
    + by exists entry.
Defined.

(** C1 (as stated) fails: one successful call on an empty conversation
    leaves 2 entries, not 1 + 2 * 1; a GeminiChat call whose image cannot
    be processed returns an error without growing the history; a
    PerplexityChat call answered by a message object of role [system]
    succeeds and persists that system message; and a PerplexityChat call
    answered by a message object without content fails, by raising, after
    it has grown the history by 2 entries. *)
Lemma C1_counterexample :
  (let run := @chat_run Interp.python perplexity
                [(Examples.answering perplexity, Examples.hello)]
                (Examples.fresh perplexity) in
   forallb succeeded run.2 = true
   ∧ length (conversation_history run.1) = 2
   ∧ length (conversation_history run.1) ≠ 1 + 2 * 1)
  ∧ (let sent := @chat_send Interp.python gemini Examples.offline
                   {| message := "hello"; image_path := Some "cat.png" |}
                   (Examples.fresh gemini) in
     (∃ msg, sent.2 = Ok (VDict [("error", VStr msg)]))
     ∧ length (conversation_history sent.1)
         = length (conversation_history (Examples.fresh gemini)) + 0)
  ∧ (let w := Examples.replying (Examples.completion_body (mk_system_message "Oi")) in
     let sent := @chat_send Interp.python perplexity w Examples.hello
                   (Examples.fresh perplexity) in
     succeeded sent.2 = true
     ∧ conversation_history sent.1 = [mk_user_message "hello"; mk_system_message "Oi"])
  ∧ (let w := Examples.replying
                (Examples.completion_body (VDict [("role", VStr "assistant")])) in
     let sent := @chat_send Interp.python perplexity w Examples.hello
                   (Examples.fresh perplexity) in
     sent.2 = Raise (Exn KeyError (Key (VStr "content")) None)
     ∧ conversation_history sent.1
         = [mk_user_message "hello"; VDict [("role", VStr "assistant")]]).
Proof.
  split; [| split; [| split]].
  - split; [vm_compute; reflexivity |]. split; [vm_compute; reflexivity |].
    vm_compute. intros Hlen. discriminate Hlen.
  - split; [eexists; vm_compute; reflexivity | vm_compute; reflexivity].
  - split; vm_compute; reflexivity.
  - split; vm_compute; reflexivity.
Qed.




(** ** The config across calls of [GeminiChat.send_message] *)

Section gemini_model.
Context `{PyBuiltins}.


Lemma gemini_send_config w c s s' r :
  chat_send gemini w c s = (s', r) →
  api_key s' = api_key s
  ∧ current_config s' =
      if Gemini.image_given (image_path c)
      then <["model" := VStr Gemini.GEMINI_FLASH_8B]> (current_config s)
      else current_config s.
Proof.
  unfold chat_send, Gemini.send_message. unfold_py.
  cbn -[Gemini.create_request_data raise_for_status py_getitem py_get py_getitem0 py_contains
        truthy Gemini.request_error_message system_message_for Gemini.image_given
        String.append String.concat].
  intros Hs. repeat step Hs. all: simplify_eq; split; reflexivity.
Qed.

(** With an image, the model is overwritten before anything reads the
    config: the call behaves as if the model had been set beforehand. *)
Lemma gemini_send_model_first w c s :
  Gemini.image_given (image_path c) = true →
  chat_send gemini w c s =
  chat_send gemini w c
    (Session (api_key s) (conversation_history s)
       (<["model" := VStr Gemini.GEMINI_FLASH_8B]> (current_config s))).
Proof.
  intros Himage. unfold chat_send, Gemini.send_message. unfold_py.
  rewrite Himage. cbn [api_key conversation_history current_config].
  by rewrite insert_insert_eq.
Qed.

Lemma gemini_run_keeps_model calls : ∀ s s' results,
  current_config s !! "model" = Some (VStr Gemini.GEMINI_FLASH_8B) →
  chat_run gemini calls s = (s', results) →
  current_config s' = current_config s.
Proof.
  induction calls as [| [w c] calls IH]; intros s s' results Hmodel Hrun.
  - cbn in Hrun. by simplify_eq.
  - cbn [chat_run] in Hrun.
    destruct (chat_send gemini w c s) as [s1 r] eqn:Hsend.
    destruct (chat_run gemini calls s1) as [s2 rs] eqn:Hrest.
    simplify_eq.
    apply gemini_send_config in Hsend as [_ Hcfg].
    assert (current_config s1 = current_config s) as Hsame.
    { rewrite Hcfg. destruct (Gemini.image_given (image_path c)); [| done].
      by apply insert_id. }
    rewrite <- Hsame. eapply IH; [| exact Hrest]. by rewrite Hsame.
Qed.

End gemini_model.

(** C9 (as amended): a call of GeminiChat.send_message with an image path
    that is given (not None and not empty) sets current_config['model'] to
    'gemini-1.5-flash-8b' before anything else reads the config, and leaves
    every other key as it was; the model stays through every later call. A
    call with no image path, or an empty one, leaves the whole config as it
    was. *)
Theorem C9_image_call_switches_model `{PyBuiltins} (w : world) (c : call)
  (s s' : session) (r : result PyVal) :
  chat_send gemini w c s = (s', r) →
  (Gemini.image_given (image_path c) = true →
     current_config s' = <["model" := VStr Gemini.GEMINI_FLASH_8B]> (current_config s)
     ∧ (∀ k, k ≠ "model" → current_config s' !! k = current_config s !! k)
     ∧ chat_send gemini w c s =
         chat_send gemini w c
           (Session (api_key s) (conversation_history s)
              (<["model" := VStr Gemini.GEMINI_FLASH_8B]> (current_config s)))
     ∧ (∀ calls s'' results,
          chat_run gemini calls s' = (s'', results) →
          current_config s'' = current_config s'))
  ∧ (Gemini.image_given (image_path c) = false → current_config s' = current_config s).
Proof.
  intros Hsend. pose proof (gemini_send_config _ _ _ _ _ Hsend) as [_ Hcfg].
  split; intros Himage; rewrite Himage in Hcfg; [| done].
  split; [done |]. split; [| split].
  - intros k Hk. rewrite Hcfg. by apply lookup_insert_ne.
  - by apply gemini_send_model_first.
  - intros calls s'' results Hrun. eapply gemini_run_keeps_model; [| exact Hrun].
    rewrite Hcfg. apply lookup_insert_eq.
Qed.

(** A call with the image "cat.png" on a new GeminiChat. *)
Lemma C9_image_call_switches_model_witness :
  let c := {| message := "what is this?"; image_path := Some "cat.png" |} in
  let sent := @chat_send Interp.python gemini (Examples.answering gemini) c
                (Examples.fresh gemini) in
  current_config sent.1
    = <["model" := VStr Gemini.GEMINI_FLASH_8B]> (current_config (Examples.fresh gemini))
  ∧ ∀ calls s'' results,
      @chat_run Interp.python gemini calls sent.1 = (s'', results) →
      current_config s'' = current_config sent.1.
Proof.
  intros c sent.
  pose proof (proj1 (@C9_image_call_switches_model Interp.python
                       (Examples.answering gemini) c (Examples.fresh gemini)
                       sent.1 sent.2 (surjective_pairing _)) eq_refl) as (Hcfg & _ & _ & Hlater).
  split; [exact Hcfg | exact Hlater].
Defined.

(** C9 (as stated) fails: an image path that is the empty string is not
    None, and the call leaves the model as it was. *)
Lemma C9_counterexample :
  let c := {| message := "hello"; image_path := Some EmptyString |} in
  let sent := @chat_send Interp.python gemini (Examples.answering gemini) c
                (Examples.fresh gemini) in
  image_path c ≠ None
  ∧ current_config sent.1 !! "model" = Some (VStr "gemini-1.5-pro")
  ∧ current_config sent.1 !! "model" ≠ Some (VStr "gemini-1.5-flash-8b").
Proof.
  split; [discriminate |]. split; [vm_compute; reflexivity |].
  vm_compute. intros Hmodel. discriminate Hmodel.
Qed.

(** ** Config updates, key by key *)

Section batches.
Context `{PyBuiltins}.

Lemma py_for_cons {A} (x : A) (rest : list A) (body : A → Py unit) (s : session) :
  py_for (x :: rest) body s =
  match py_for [x] body s with
  | (s1, Ok _) => py_for rest body s1
  | (s1, Raise e) => (s1, Raise e)
  end.
Proof.
  cbn. unfold mbind, Py_bind, mret, Py_ret.
  by destruct (body x s) as [s1 [[] | e]].
Qed.

(** The call with the dict as keywords runs the method when no key is
    [self], and raises without running it otherwise. *)
Lemma call_update_config_free class update config_dict :
  "self" ∉ config_dict.*1 →
  call_update_config class update config_dict
    = update (map (λ '(key, value), (key, VStr value)) config_dict).
Proof. intros Hfree. unfold call_update_config. by rewrite bool_decide_eq_false_2. Qed.

Lemma call_update_config_taken class update config_dict :
  "self" ∈ config_dict.*1 →
  call_update_config class update config_dict
    = lift (type_error (class +:+ ".update_config() got multiple values for argument 'self'")).
Proof. intros Htaken. unfold call_update_config. by rewrite bool_decide_eq_true_2. Qed.

Lemma call_update_config_cons class body pair rest s :
  "self" ∉ rest.*1 →
  call_update_config class (λ kwargs, py_for kwargs body) (pair :: rest) s =
  match call_update_config class (λ kwargs, py_for kwargs body) [pair] s with
  | (s1, Ok _) => call_update_config class (λ kwargs, py_for kwargs body) rest s1
  | (s1, Raise e) => (s1, Raise e)
  end.
Proof.
  intros Hrest. destruct (decide (pair.1 = "self")) as [Hself | Hself].
  - assert ("self" ∈ (pair :: rest).*1) by (rewrite fmap_cons, Hself; by left).
    assert ("self" ∈ [pair].*1) by (rewrite fmap_cons, Hself; by left).
    rewrite !call_update_config_taken by done. reflexivity.
  - assert ("self" ∉ (pair :: rest).*1)
      by (rewrite fmap_cons; apply not_elem_of_cons; by split).
    assert ("self" ∉ [pair].*1)
      by (rewrite fmap_cons; apply not_elem_of_cons; split; [done | apply not_elem_of_nil]).
    rewrite !call_update_config_free by done. apply py_for_cons.
Qed.

Lemma keyword_taken_self p key :
  keyword_taken p key = true ↔ chat_update_config p ≠ None ∧ key = "self".
Proof.
  destruct p; cbn; rewrite ?bool_decide_eq_true; split; try done; try by intros [? ?].
  all: by intros [_ ?].
Qed.

Lemma keywords_free p (keys : list string) :
  Forall (λ key, keyword_taken p key = false) keys →
  chat_update_config p ≠ None → "self" ∉ keys.
Proof.
  intros Hkeys Hp Hin. rewrite Forall_forall in Hkeys. specialize (Hkeys _ Hin).
  assert (keyword_taken p "self" = true) by by apply keyword_taken_self. congruence.
Qed.

(** A batch is its first pair, then the rest in the state that pair left;
    an exception ends the batch. The rest must hold no key that the call
    cannot take: with one, the batch raises before its first pair. *)
Lemma chat_config_cons p pair rest s :
  Forall (λ key, keyword_taken p key = false) rest.*1 →
  chat_config p (pair :: rest) s =
  match chat_config p [pair] s with
  | (s1, Ok _) => chat_config p rest s1
  | (s1, Raise e) => (s1, Raise e)
  end.
Proof.
  intros Hrest. pose proof (keywords_free p _ Hrest) as Hfree.
  destruct p; cbn [chat_config];
    unfold Perplexity.config_command, OpenAI.config_command, Groq.config_command,
      Anthropic.config_command, Gemini.config_command, Groq.update_config,
      Anthropic.update_config, Gemini.update_config;
    first [ apply py_for_cons | by apply call_update_config_cons, Hfree ].
Qed.

(** Without such a key the command is the method on the raw strings. *)
Lemma chat_config_free p update config_dict :
  chat_update_config p = Some update → "self" ∉ config_dict.*1 →
  chat_config p config_dict
    = update (map (λ '(key, value), (key, VStr value)) config_dict).
Proof.
  intros Hp Hfree. destruct p; cbn in Hp; simplify_eq; by apply call_update_config_free.
Qed.

(** A key that the call cannot take makes the batch raise wherever the key
    stands, with nothing applied. *)
Lemma chat_config_keyword_taken p key config_dict s :
  keyword_taken p key = true → key ∈ config_dict.*1 →
  chat_config p config_dict s
    = (s, type_error (class_name p
                        +:+ ".update_config() got multiple values for argument 'self'")).
Proof.
  intros [Hp ->]%keyword_taken_self Hin.
  destruct p; try done; cbn [chat_config];
    unfold Groq.config_command, Anthropic.config_command, Gemini.config_command;
    by rewrite call_update_config_taken.
Qed.

Lemma config_has_insert (cfg : gmap string PyVal) k v k' :
  config_has cfg k = true → config_has (<[k := v]> cfg) k' = config_has cfg k'.
Proof.
  unfold config_has. intros Hk%bool_decide_eq_true.
  apply bool_decide_ext. destruct (decide (k = k')) as [<- | Hne].
  - rewrite lookup_insert_eq. split; [done | by eexists].
  - by rewrite lookup_insert_ne.
Qed.

Ltac unfold_config :=
  unfold chat_config, Perplexity.config_command, OpenAI.config_command,
    Groq.config_command, Anthropic.config_command, Gemini.config_command,
    call_update_config, Groq.update_config, Anthropic.update_config, Gemini.update_config;
  cbn [map py_for fmap list_fmap fst]; unfold_py;
  cbn -[Perplexity.convert_value OpenAI.convert_value in_models between_0_and_1 String.eqb
        Z.leb config_has model_unavailable value_error].

(** A pair that raises leaves the state as it was, and raises in every
    state whose config has the same keys. *)
Lemma chat_config_rejected p k v s s1 e :
  chat_config p [(k, v)] s = (s1, Raise e) →
  s1 = s
  ∧ ∀ s2, config_has (current_config s2) k = config_has (current_config s) k →
          chat_config p [(k, v)] s2 = (s2, Raise e).
Proof.
  destruct p; unfold_config; intros Hs; repeat step Hs; simplify_eq.
  all: split; [reflexivity |]; intros s2 Hk; rewrite ?Hk.
  all: repeat match goal with E : ?x = _ |- context [?x] => rewrite E end; reflexivity.
Qed.

(** A pair that is accepted changes neither the history nor the set of
    keys of the config. *)
Lemma chat_config_accepted p k v s s1 :
  chat_config p [(k, v)] s = (s1, Ok tt) →
  conversation_history s1 = conversation_history s
  ∧ ∀ k', config_has (current_config s1) k' = config_has (current_config s) k'.
Proof.
  destruct p; unfold_config; intros Hs; repeat step Hs; simplify_eq.
  all: split; [reflexivity |]; intros k'; cbn [current_config];
    first [ reflexivity | by apply config_has_insert ].
Qed.

(** A key the config does not have is passed over. *)
Lemma chat_config_unknown p k v s :
  keyword_taken p k = false →
  config_has (current_config s) k = false → chat_config p [(k, v)] s = (s, Ok tt).
Proof.
  intros Hfree Hunknown.
  destruct (chat_update_config p) as [update |] eqn:Hp.
  - rewrite (chat_config_free _ _ _ Hp)
      by (apply (keywords_free p); [by apply Forall_singleton | by rewrite Hp]).
    destruct p; cbn in Hp; simplify_eq; unfold_config; by rewrite Hunknown.
  - destruct p; cbn in Hp; simplify_eq; unfold_config; by rewrite Hunknown.
Qed.

(** The [update_config] methods store an accepted value as it was passed:
    the [config] command of the three classes that have the method stores
    the raw text. *)
Lemma update_config_stores_raw_text p k v s s1 :
  p = groq ∨ p = anthropic ∨ p = gemini →
  config_has (current_config s) k = true →
  chat_config p [(k, v)] s = (s1, Ok tt) →
  current_config s1 !! k = Some (VStr v).
Proof.
  intros [-> | [-> | ->]] Hk; unfold_config; intros Hs; step Hs; rewrite Hk in Hs;
    repeat step Hs; simplify_eq; cbn [current_config]; apply lookup_insert_eq.
Qed.

(** The [config] commands of PerplexityChat and OpenAIChat store the
    converted value. *)
Lemma config_command_stores_converted p k v s s1 :
  p = perplexity ∨ p = openai →
  config_has (current_config s) k = true →
  chat_config p [(k, v)] s = (s1, Ok tt) →
  ∃ converted,
    match p with
    | perplexity => Perplexity.convert_value k v
    | _ => OpenAI.convert_value k v
    end = Ok converted
    ∧ current_config s1 !! k = Some converted.
Proof.
  intros [-> | ->] Hk; unfold_config; rewrite Hk; intros Hs; repeat step Hs;
    simplify_eq; cbn [current_config]; eexists; (split; [reflexivity |]);
    apply lookup_insert_eq.
Qed.

Lemma temperature_is_no_keyword : bool_decide ("self" ∈ ["temperature"]) = false.
Proof. apply bool_decide_eq_false_2. rewrite list_elem_of_singleton. discriminate. Qed.

(** AnthropicChat and GeminiChat reject a temperature outside 0..1, *)
Lemma temperature_range_checked p v f s :
  p = anthropic ∨ p = gemini →
  config_has (current_config s) "temperature" = true →
  py_float (VStr v) = Ok f →
  between_0_and_1 f = false →
  chat_config p [("temperature", v)] s
    = (s, value_error "Temperature deve estar entre 0 e 1").
Proof.
  intros [-> | ->] Hk Hf Hrange; unfold_config; rewrite temperature_is_no_keyword, Hk;
    cbn -[between_0_and_1];
    rewrite Hf; cbn -[between_0_and_1]; by rewrite Hrange.
Qed.

(** and the other three store whatever [float] reads, or the text itself. *)
Lemma temperature_range_unchecked p v f s :
  p = perplexity ∨ p = openai ∨ p = groq →
  config_has (current_config s) "temperature" = true →
  py_float (VStr v) = Ok f →
  ∃ s1 stored,
    chat_config p [("temperature", v)] s = (s1, Ok tt)
    ∧ current_config s1 !! "temperature" = Some stored
    ∧ (stored = VFloat f ∨ stored = VStr v).
Proof.
  intros [-> | [-> | ->]] Hk Hf; unfold_config; rewrite ?temperature_is_no_keyword, Hk;
    unfold Perplexity.convert_value, OpenAI.convert_value; cbn; rewrite ?Hf; cbn;
    eexists _, _; (split; [reflexivity |]); cbn [current_config];
    rewrite lookup_insert_eq; eauto.
Qed.

End batches.

(** C3 (as amended): a batch is applied pair by pair in the order given and
    stops at the first pair that is rejected. Of one pair that is accepted
    and one that is rejected, the update raises in both orders; the accepted
    pair is applied when it comes first and is not applied when it comes
    second. A key the config does not have is passed over and blocks
    nothing, in either order. One key is neither: [self], in the command of
    GroqChat, AnthropicChat and GeminiChat, which hand the dict to
    [update_config] as keywords. With it the call raises TypeError before
    the method runs, and no pair of the batch is applied, wherever the key
    stands. *)
Theorem C3_batch_stops_at_first_rejected `{PyBuiltins} (p : provider) (s s_ok : session)
  (k_ok v_ok : string) :
  chat_config p [(k_ok, v_ok)] s = (s_ok, Ok tt) →
  (∀ k_bad v_bad s_bad e,
     keyword_taken p k_bad = false →
     chat_config p [(k_bad, v_bad)] s = (s_bad, Raise e) →
     chat_config p [(k_ok, v_ok); (k_bad, v_bad)] s = (s_ok, Raise e)
     ∧ chat_config p [(k_bad, v_bad); (k_ok, v_ok)] s = (s, Raise e))
  ∧ (∀ k_unknown v,
       keyword_taken p k_unknown = false →
       current_config s !! k_unknown = None →
       chat_config p [(k_ok, v_ok); (k_unknown, v)] s = (s_ok, Ok tt)
       ∧ chat_config p [(k_unknown, v); (k_ok, v_ok)] s = (s_ok, Ok tt))
  ∧ (∀ k_taken v,
       keyword_taken p k_taken = true →
       let e := mk_exn TypeError
                  (class_name p +:+ ".update_config() got multiple values for argument 'self'")
                  None in
       chat_config p [(k_ok, v_ok); (k_taken, v)] s = (s, Raise e)
       ∧ chat_config p [(k_taken, v); (k_ok, v_ok)] s = (s, Raise e)
       ∧ ∀ before after,
           chat_config p (before ++ (k_taken, v) :: after) s = (s, Raise e)).
Proof.
  intros Hok. pose proof (chat_config_accepted _ _ _ _ _ Hok) as [_ Hkeys].
  assert (keyword_taken p k_ok = false) as Hfree_ok.
  { destruct (keyword_taken p k_ok) eqn:Htaken; [| done].
    rewrite (chat_config_keyword_taken p k_ok) in Hok; [done | done | by left]. }
  split; [| split].
  - intros k_bad v_bad s_bad e Hfree Hbad.
    apply chat_config_rejected in Hbad as [-> Hbad]. split.
    + rewrite chat_config_cons, Hok by by apply Forall_singleton. by apply Hbad.
    + rewrite chat_config_cons by by apply Forall_singleton. by rewrite (Hbad s).
  - intros k_unknown v Hfree Hnone.
    assert (config_has (current_config s) k_unknown = false) as Hunknown.
    { unfold config_has. apply bool_decide_eq_false. rewrite Hnone. by intros [? ?]. }
    split.
    + rewrite chat_config_cons, Hok by by apply Forall_singleton.
      apply chat_config_unknown; [done |]. by rewrite Hkeys.
    + rewrite chat_config_cons, chat_config_unknown by (done || by apply Forall_singleton).
      exact Hok.
  - intros k_taken v Htaken e.
    assert (∀ before after,
              chat_config p (before ++ (k_taken, v) :: after) s = (s, Raise e)) as Hraise.
    { intros before after. apply (chat_config_keyword_taken p k_taken); [done |].
      rewrite fmap_app, fmap_cons. apply elem_of_app. right. by left. }
    split; [exact (Hraise [(k_ok, v_ok)] []) |]. split; [exact (Hraise [] [(k_ok, v_ok)]) |].
    exact Hraise.
Qed.

(** AnthropicChat, [config max_tokens=500 temperature=3.5] and
    [config max_tokens=500 self=1], each with the same pairs in the other
    order. *)
Lemma C3_batch_stops_at_first_rejected_witness :
  let s := Examples.fresh anthropic in
  let s_ok := (@chat_config Interp.python anthropic [("max_tokens", "500")] s).1 in
  let e := mk_exn ValueError "Temperature deve estar entre 0 e 1" None in
  let e_self := mk_exn TypeError
                  "AnthropicChat.update_config() got multiple values for argument 'self'"
                  None in
  (@chat_config Interp.python anthropic [("max_tokens", "500"); ("temperature", "3.5")] s
     = (s_ok, Raise e)
   ∧ @chat_config Interp.python anthropic [("temperature", "3.5"); ("max_tokens", "500")] s
     = (s, Raise e))
  ∧ @chat_config Interp.python anthropic [("max_tokens", "500"); ("self", "1")] s
      = (s, Raise e_self)
  ∧ @chat_config Interp.python anthropic [("self", "1"); ("max_tokens", "500")] s
      = (s, Raise e_self).
Proof.
  intros s s_ok e e_self.
  pose proof (@C3_batch_stops_at_first_rejected Interp.python anthropic s s_ok
                "max_tokens" "500" ltac:(vm_compute; reflexivity)) as (Hbad & _ & Htaken).
  split.
  - apply (Hbad "temperature" "3.5" s e); vm_compute; reflexivity.
  - destruct (Htaken "self" "1" ltac:(vm_compute; reflexivity)) as (Hfirst & Hsecond & _).
    split; [exact Hfirst | exact Hsecond].
Defined.

(** C3 (as stated) fails: in GroqChat a batch whose first key is rejected
    does not apply the valid key that follows it, although the same two
    pairs in the other order do apply it; and a batch with the key [self],
    which the config does not have, applies the valid key in neither
    order. *)
Lemma C3_counterexample :
  let s := Examples.fresh groq in
  let valid := ("temperature", "0.5") in
  let invalid := ("model", "gpt-4o") in
  let unknown := ("self", "1") in
  (@chat_config Interp.python groq [valid] s).2 = Ok tt
  ∧ (∃ e, (@chat_config Interp.python groq [invalid] s).2 = Raise e)
  ∧ current_config (@chat_config Interp.python groq [invalid; valid] s).1 !! "temperature"
      = Some (VFloat 0.7)
  ∧ current_config (@chat_config Interp.python groq [valid; invalid] s).1 !! "temperature"
      = Some (VStr "0.5")
  ∧ current_config s !! "self" = None
  ∧ current_config (@chat_config Interp.python groq [valid; unknown] s).1 !! "temperature"
      = Some (VFloat 0.7)
  ∧ current_config (@chat_config Interp.python groq [unknown; valid] s).1 !! "temperature"
      = Some (VFloat 0.7).
Proof.
  split; [vm_compute; reflexivity |]. split; [eexists; vm_compute; reflexivity |].
  repeat split; vm_compute; reflexivity.
Qed.

(** C4: the [config] command of PerplexityChat stores a temperature of 3.5,
    outside both ranges that its own texts name (0 to 1 and 0 to 2), and
    reports no error; the same command is rejected by AnthropicChat, which
    leaves the stored value as it was. *)
Theorem C4_perplexity_takes_temperature_out_of_range :
  (let s := Examples.fresh perplexity in
   let updated := @chat_config Interp.python perplexity [("temperature", "3.5")] s in
   updated.2 = Ok tt
   ∧ current_config s !! "temperature" = Some (VFloat 0.2)
   ∧ current_config updated.1 !! "temperature" = Some (VFloat 3.5)
   ∧ PrimFloat.leb 3.5 2 = false)
  ∧ (let s := Examples.fresh anthropic in
     @chat_config Interp.python anthropic [("temperature", "3.5")] s
       = (s, Raise (mk_exn ValueError "Temperature deve estar entre 0 e 1" None))).
Proof.
  split; [| vm_compute; reflexivity].
  repeat split; vm_compute; reflexivity.
Qed.

(** C5: the [config] command of AnthropicChat and GroqChat stores the raw
    text of an accepted value: a temperature reads back as the string
    "0.5" and a stream flag as the string "false" (which is truthy), where
    the same command of PerplexityChat stores the number 0.5. A rejected
    value leaves the entry as it was. *)
Theorem C5_update_config_stores_raw_text :
  (let updated := @chat_config Interp.python anthropic [("temperature", "0.5")]
                    (Examples.fresh anthropic) in
   updated.2 = Ok tt
   ∧ current_config updated.1 !! "temperature" = Some (VStr "0.5"))
  ∧ (let updated := @chat_config Interp.python groq [("stream", "false")]
                      (Examples.fresh groq) in
     updated.2 = Ok tt
     ∧ current_config updated.1 !! "stream" = Some (VStr "false")
     ∧ truthy (VStr "false") = true)
  ∧ (let updated := @chat_config Interp.python perplexity [("temperature", "0.5")]
                      (Examples.fresh perplexity) in
     updated.2 = Ok tt
     ∧ current_config updated.1 !! "temperature" = Some (VFloat 0.5))
  ∧ (let s := Examples.fresh anthropic in
     let updated := @chat_config Interp.python anthropic [("temperature", "hot")] s in
     (∃ e, updated.2 = Raise e)
     ∧ current_config updated.1 !! "temperature" = current_config s !! "temperature").
Proof.
  repeat split; try (vm_compute; reflexivity).
  eexists. vm_compute. reflexivity.
Qed.

(** ** The wire requests *)

(** The entry of a key that [__init__] sets, in a config that kept its keys. *)
Ltac default_key Hkeys k v Hv :=
  destruct (Hkeys k) as [v Hv]; [eexists; vm_compute; reflexivity |].

(** The three builders that prepend the system message: with the keys of
    [__init__] and a language that has a system message they return a
    payload whose message array is the system message and then the
    messages given, and which holds [max_tokens] exactly when it is set. *)
Lemma build_messages_request_ok p build cfg messages tag text :
  build_messages_request p = Some build →
  has_default_keys p cfg →
  cfg !! "language" = Some (VStr tag) →
  helpful_system_messages !! tag = Some text →
  ∃ limit body,
    cfg !! "max_tokens" = Some limit
    ∧ build cfg messages = Ok (VDict body)
    ∧ dict_get "messages" body = Some (VList (mk_system_message text :: messages))
    ∧ dict_get "max_tokens" body = (if is_None limit then None else Some limit).
Proof.
  intros Hbuild Hkeys Hlanguage Htext.
  destruct p; cbn in Hbuild; simplify_eq.
  - default_key Hkeys "model" model Hmodel.
    default_key Hkeys "temperature" temperature Htemperature.
    default_key Hkeys "top_p" top_p Htop_p.
    default_key Hkeys "top_k" top_k Htop_k.
    default_key Hkeys "presence_penalty" presence Hpresence.
    default_key Hkeys "frequency_penalty" frequency Hfrequency.
    default_key Hkeys "return_citations" citations Hcitations.
    default_key Hkeys "return_related_questions" related Hrelated.
    default_key Hkeys "max_tokens" limit Hlimit.
    default_key Hkeys "search_recency_filter" recency Hrecency.
    exists limit. unfold Perplexity.create_request_body, Perplexity.system_messages.
    rewrite !(config_lookup_Some _ _ _ Hlanguage). cbn [mbind result_bind system_message_for].
    rewrite Htext, (config_lookup_Some _ _ _ Hmodel), (config_lookup_Some _ _ _ Htemperature),
      (config_lookup_Some _ _ _ Htop_p), (config_lookup_Some _ _ _ Htop_k),
      (config_lookup_Some _ _ _ Hpresence), (config_lookup_Some _ _ _ Hfrequency),
      (config_lookup_Some _ _ _ Hcitations), (config_lookup_Some _ _ _ Hrelated),
      (config_lookup_Some _ _ _ Hlimit), (config_lookup_Some _ _ _ Hrecency).
    cbn [mbind result_bind mret result_ret].
    eexists. split; [done |]. split; [reflexivity |].
    destruct (is_None limit), (truthy recency); split; reflexivity.
  - default_key Hkeys "model" model Hmodel.
    default_key Hkeys "temperature" temperature Htemperature.
    default_key Hkeys "top_p" top_p Htop_p.
    default_key Hkeys "presence_penalty" presence Hpresence.
    default_key Hkeys "frequency_penalty" frequency Hfrequency.
    default_key Hkeys "stream" stream Hstream.
    default_key Hkeys "max_tokens" limit Hlimit.
    exists limit. unfold OpenAI.create_chat_params, OpenAI.system_messages.
    rewrite !(config_lookup_Some _ _ _ Hlanguage). cbn [mbind result_bind system_message_for].
    rewrite Htext, (config_lookup_Some _ _ _ Hmodel), (config_lookup_Some _ _ _ Htemperature),
      (config_lookup_Some _ _ _ Htop_p),
      (config_lookup_Some _ _ _ Hpresence), (config_lookup_Some _ _ _ Hfrequency),
      (config_lookup_Some _ _ _ Hstream), (config_lookup_Some _ _ _ Hlimit).
    cbn [mbind result_bind mret result_ret].
    eexists. split; [done |]. split; [reflexivity |].
    destruct (is_None limit); split; reflexivity.
  - default_key Hkeys "model" model Hmodel.
    default_key Hkeys "temperature" temperature Htemperature.
    default_key Hkeys "top_p" top_p Htop_p.
    default_key Hkeys "stream" stream Hstream.
    default_key Hkeys "max_tokens" limit Hlimit.
    exists limit. unfold Groq.create_chat_params, Groq.system_messages.
    rewrite !(config_lookup_Some _ _ _ Hlanguage). cbn [mbind result_bind system_message_for].
    rewrite Htext, (config_lookup_Some _ _ _ Hmodel), (config_lookup_Some _ _ _ Htemperature),
      (config_lookup_Some _ _ _ Htop_p),
      (config_lookup_Some _ _ _ Hstream), (config_lookup_Some _ _ _ Hlimit).
    cbn [mbind result_bind mret result_ret].
    eexists. split; [done |]. split; [reflexivity |].
    destruct (is_None limit); split; reflexivity.
Qed.


Lemma anthropic_request_ok cfg messages :
  has_default_keys anthropic cfg →
  ∃ limit system body,
    cfg !! "max_tokens" = Some limit
    ∧ cfg !! "system" = Some system
    ∧ Anthropic.create_chat_params cfg messages = Ok (VDict body)
    ∧ dict_get "messages" body = Some (VList messages)
    ∧ dict_get "system" body = Some system
    ∧ dict_get "max_tokens" body = Some limit.
Proof.
  intros Hkeys.
  default_key Hkeys "model" model Hmodel.
  default_key Hkeys "temperature" temperature Htemperature.
  default_key Hkeys "max_tokens" limit Hlimit.
  default_key Hkeys "system" system Hsystem.
  exists limit, system. unfold Anthropic.create_chat_params.
  rewrite (config_lookup_Some _ _ _ Hmodel), (config_lookup_Some _ _ _ Htemperature),
    (config_lookup_Some _ _ _ Hlimit), (config_lookup_Some _ _ _ Hsystem).
  cbn [mbind result_bind mret result_ret].
  eexists. repeat split; first [assumption | reflexivity].
Qed.

Lemma gemini_text_request_ok `{PyBuiltins} cfg content :
  has_default_keys gemini cfg →
  ∃ limit generation body,
    cfg !! "max_tokens" = Some limit
    ∧ Gemini.create_request_data cfg content false = Ok (VDict body)
    ∧ dict_get "contents" body
        = Some (VList [VDict [("parts", VList [VDict [("text", VStr (py_str content))]])]])
    ∧ dict_get "generationConfig" body = Some (VDict generation)
    ∧ dict_get "maxOutputTokens" generation = Some limit.
Proof.
  intros Hkeys.
  default_key Hkeys "temperature" temperature Htemperature.
  default_key Hkeys "top_k" top_k Htop_k.
  default_key Hkeys "top_p" top_p Htop_p.
  default_key Hkeys "max_tokens" limit Hlimit.
  exists limit. unfold Gemini.create_request_data.
  cbn [mbind result_bind mret result_ret].
  rewrite (config_lookup_Some _ _ _ Htemperature), (config_lookup_Some _ _ _ Htop_k),
    (config_lookup_Some _ _ _ Htop_p), (config_lookup_Some _ _ _ Hlimit).
  cbn [mbind result_bind mret result_ret].
  eexists _, _. repeat split; first [assumption | reflexivity].
Qed.

Lemma gemini_image_request_ok `{PyBuiltins} cfg content prompt image_data mime_type data :
  has_default_keys gemini cfg →
  py_getitem content "prompt" = Ok prompt →
  py_getitem content "image_data" = Ok image_data →
  py_getitem image_data "mimeType" = Ok mime_type →
  py_getitem image_data "data" = Ok data →
  ∃ limit generation body,
    cfg !! "max_tokens" = Some limit
    ∧ Gemini.create_request_data cfg content true = Ok (VDict body)
    ∧ dict_get "contents" body
        = Some (VList [VDict [("parts",
                  VList [VDict [("text", prompt)];
                         VDict [("inline_data",
                                  VDict [("mimeType", mime_type); ("data", data)])]])]])
    ∧ dict_get "generationConfig" body = Some (VDict generation)
    ∧ dict_get "maxOutputTokens" generation = Some limit.
Proof.
  intros Hkeys Hprompt Himage Hmime Hdata.
  default_key Hkeys "temperature" temperature Htemperature.
  default_key Hkeys "top_k" top_k Htop_k.
  default_key Hkeys "top_p" top_p Htop_p.
  default_key Hkeys "max_tokens" limit Hlimit.
  exists limit. unfold Gemini.create_request_data.
  rewrite Hprompt. cbn [mbind result_bind mret result_ret].
  rewrite Himage. cbn [mbind result_bind mret result_ret].
  rewrite Hmime, Hdata. cbn [mbind result_bind mret result_ret].
  rewrite (config_lookup_Some _ _ _ Htemperature), (config_lookup_Some _ _ _ Htop_k),
    (config_lookup_Some _ _ _ Htop_p), (config_lookup_Some _ _ _ Hlimit).
  cbn [mbind result_bind mret result_ret].
  eexists _, _. repeat split; first [assumption | reflexivity].
Qed.

(** Whatever the call is, a request that was built carries the limit of
    the config. *)
Lemma gemini_request_limit `{PyBuiltins} cfg content is_image body :
  Gemini.create_request_data cfg content is_image = Ok body →
  ∃ limit generation,
    cfg !! "max_tokens" = Some limit
    ∧ py_getitem body "generationConfig" = Ok (VDict generation)
    ∧ dict_get "maxOutputTokens" generation = Some limit.
Proof.
  unfold Gemini.create_request_data. intros Hbody.
  destruct (if is_image then _ else _) as [parts | e]; [| done].
  unfold mbind, result_bind, mret, result_ret, config_lookup in Hbody.
  repeat step Hbody. simplify_eq. by eexists _, _.
Qed.


Lemma default_config_has_default_keys p : has_default_keys p (default_config p).
Proof. by intros k Hk. Qed.

Lemma has_default_keys_insert p cfg k v :
  has_default_keys p cfg → has_default_keys p (<[k := v]> cfg).
Proof.
  intros Hkeys k' Hk'. destruct (decide (k = k')) as [<- | Hne].
  - rewrite lookup_insert_eq. by eexists.
  - rewrite lookup_insert_ne by done. by apply Hkeys.
Qed.



(** C6 (as amended): PerplexityChat, OpenAIChat and GroqChat, whose
    configs start with no limit, leave "max_tokens" out of the payload when
    the limit is None and carry the configured value when it is set.
    AnthropicChat and GeminiChat, whose configs start with a limit, always
    write the field ("max_tokens", "maxOutputTokens") with the configured
    value; GeminiChat does so for a text call and for an image call
    alike. *)
Theorem C6_max_tokens_field `{PyBuiltins} (cfg : gmap string PyVal) (messages : list PyVal) :
  (∀ p build tag text,
     build_messages_request p = Some build →
     has_default_keys p cfg →
     cfg !! "language" = Some (VStr tag) →
     helpful_system_messages !! tag = Some text →
     ∃ limit body,
       cfg !! "max_tokens" = Some limit
       ∧ build cfg messages = Ok (VDict body)
       ∧ dict_get "max_tokens" body = (if is_None limit then None else Some limit))
  ∧ (has_default_keys anthropic cfg →
       ∃ limit body,
         cfg !! "max_tokens" = Some limit
         ∧ Anthropic.create_chat_params cfg messages = Ok (VDict body)
         ∧ dict_get "max_tokens" body = Some limit)
  ∧ (has_default_keys gemini cfg →
       (∀ content, ∃ limit generation body,
          cfg !! "max_tokens" = Some limit
          ∧ Gemini.create_request_data cfg content false = Ok (VDict body)
          ∧ dict_get "generationConfig" body = Some (VDict generation)
          ∧ dict_get "maxOutputTokens" generation = Some limit)
       ∧ (∀ content is_image body,
            Gemini.create_request_data cfg content is_image = Ok body →
            ∃ limit generation,
              cfg !! "max_tokens" = Some limit
              ∧ py_getitem body "generationConfig" = Ok (VDict generation)
              ∧ dict_get "maxOutputTokens" generation = Some limit)
       ∧ (∀ content prompt image_data mime_type data,
            py_getitem content "prompt" = Ok prompt →
            py_getitem content "image_data" = Ok image_data →
            py_getitem image_data "mimeType" = Ok mime_type →
            py_getitem image_data "data" = Ok data →
            ∃ limit generation body,
              cfg !! "max_tokens" = Some limit
              ∧ Gemini.create_request_data cfg content true = Ok (VDict body)
              ∧ dict_get "generationConfig" body = Some (VDict generation)
              ∧ dict_get "maxOutputTokens" generation = Some limit)).
Proof.
  split; [| split].
  - intros p build tag text Hbuild Hkeys Hlanguage Htext.
    destruct (build_messages_request_ok p build cfg messages tag text)
      as (limit & body & Hlimit & Hbody & _ & Hfield); by eauto.
  - intros Hkeys.
    destruct (anthropic_request_ok cfg messages Hkeys)
      as (limit & system & body & Hlimit & _ & Hbody & _ & _ & Hfield).
    by eauto.
  - intros Hkeys. split; [| split].
    + intros content.
      destruct (gemini_text_request_ok cfg content Hkeys)
        as (limit & generation & body & Hlimit & Hbody & _ & Hgeneration & Hfield).
      by eauto 7.
    + intros content is_image body Hbody.
      by eapply gemini_request_limit.
    + intros content prompt image_data mime_type data Hprompt Himage Hmime Hdata.
      destruct (gemini_image_request_ok cfg content prompt image_data mime_type data
                  Hkeys Hprompt Himage Hmime Hdata)
        as (limit & generation & body & Hlimit & Hbody & _ & Hgeneration & Hfield).
      by eauto 7.
Qed.

(** GroqChat with no limit, and with a limit of 256; GeminiChat with the
    content of an image call. *)
Lemma C6_max_tokens_field_witness :
  (∃ limit body,
     Groq.default_config !! "max_tokens" = Some limit
     ∧ Groq.create_chat_params Groq.default_config [mk_user_message "hello"] = Ok (VDict body)
     ∧ dict_get "max_tokens" body = (if is_None limit then None else Some limit))
  ∧ (∃ limit body,
       <["max_tokens" := VInt 256]> Groq.default_config !! "max_tokens" = Some limit
       ∧ Groq.create_chat_params (<["max_tokens" := VInt 256]> Groq.default_config)
           [mk_user_message "hello"] = Ok (VDict body)
       ∧ dict_get "max_tokens" body = (if is_None limit then None else Some limit))
  ∧ (let content := VDict [("prompt", VStr "What is this?");
                           ("image_data", Gemini.image_dict "/9j/4AAQSkZJRg==")] in
     ∃ limit generation body,
       Gemini.default_config !! "max_tokens" = Some limit
       ∧ @Gemini.create_request_data Interp.python Gemini.default_config content true
           = Ok (VDict body)
       ∧ dict_get "generationConfig" body = Some (VDict generation)
       ∧ dict_get "maxOutputTokens" generation = Some limit).
Proof.
  split; [| split].
  - exact (proj1 (@C6_max_tokens_field Interp.python Groq.default_config
                    [mk_user_message "hello"])
             groq Groq.create_chat_params "pt-br" _ eq_refl
             (default_config_has_default_keys groq) eq_refl eq_refl).
  - exact (proj1 (@C6_max_tokens_field Interp.python
                    (<["max_tokens" := VInt 256]> Groq.default_config)
                    [mk_user_message "hello"])
             groq Groq.create_chat_params "pt-br" _ eq_refl
             (has_default_keys_insert groq _ _ _ (default_config_has_default_keys groq))
             eq_refl eq_refl).
  - intros content.
    exact (proj2 (proj2 (proj2 (proj2 (@C6_max_tokens_field Interp.python
                                         Gemini.default_config []))
                           (default_config_has_default_keys gemini)))
             content _ _ _ _ eq_refl eq_refl eq_refl eq_refl).
Defined.

(** C6 (as stated) fails: GeminiChat accepts [update_config(max_tokens=None)]
    and then still writes the field, with the value None. *)
Lemma C6_counterexample :
  let updated := @Gemini.update_config Interp.python [("max_tokens", VNone)]
                   (Examples.fresh gemini) in
  updated.2 = Ok tt
  ∧ current_config updated.1 !! "max_tokens" = Some VNone
  ∧ ∃ body generation,
      @Gemini.create_request_data Interp.python (current_config updated.1) (VStr "hello") false
        = Ok (VDict body)
      ∧ dict_get "generationConfig" body = Some (VDict generation)
      ∧ dict_get "maxOutputTokens" generation = Some VNone.
Proof.
  split; [vm_compute; reflexivity |]. split; [vm_compute; reflexivity |].
  eexists _, _. repeat split; vm_compute; reflexivity.
Qed.

(** ** Streams *)

Lemma string_app_assoc (a b c : string) : (a +:+ b) +:+ c = a +:+ (b +:+ c).
Proof.
  induction a as [| x a IH]; [done |].
  change (String x ((a +:+ b) +:+ c) = String x (a +:+ (b +:+ c))). by f_equal.
Qed.

Lemma string_app_nil_r (a : string) : a +:+ EmptyString = a.
Proof.
  induction a as [| x a IH]; [done |].
  change (String x (a +:+ EmptyString) = String x a). by f_equal.
Qed.

(** The loop over a stream of readable chunks ends normally with the text
    of the deltas, whether or not a chunk closes the answer. *)
Lemma consume_stream_readable items : ∀ gathered,
  Forall readable items →
  consume_stream items gathered = Ok (gathered +:+ delta_text items).
Proof.
  induction items as [| item items IH]; intros gathered Hitems.
  - cbn [consume_stream delta_text]. by rewrite string_app_nil_r.
  - apply Forall_cons in Hitems as [Hitem Hitems].
    destruct item as [chunk | e]; [| done].
    cbn [consume_stream delta_text readable] in *.
    destruct (chunk_choices chunk) as [| choice choices]; [done |].
    destruct (delta_content choice) as [content |]; rewrite IH by done;
      [by rewrite string_app_assoc | done].
Qed.

Lemma readable_no_failure item : readable item ↔ stream_failure item = None.
Proof.
  destruct item as [chunk | e]; cbn; [| by split].
  by destruct (chunk_choices chunk).
Qed.

(** The loop stops at the first item it cannot read and raises there. *)
Lemma consume_stream_unreadable before bad e after : ∀ gathered,
  Forall readable before →
  stream_failure bad = Some e →
  consume_stream (before ++ bad :: after) gathered = Raise e.
Proof.
  induction before as [| item before IH]; intros gathered Hbefore Hbad.
  - destruct bad as [chunk | e']; cbn in *; [| congruence].
    destruct (chunk_choices chunk); by simplify_eq.
  - apply Forall_cons in Hbefore as [Hitem Hbefore].
    destruct item as [chunk | e']; [| done].
    cbn [consume_stream app readable] in *.
    destruct (chunk_choices chunk) as [| choice choices]; [done |].
    destruct (delta_content choice); by rewrite IH.
Qed.

(** A stream is readable to its end, or has a first item that is not. *)
Lemma stream_readable_or_not items :
  Forall readable items
  ∨ ∃ before bad e after,
      items = before ++ bad :: after ∧ Forall readable before ∧ stream_failure bad = Some e.
Proof.
  induction items as [| item items IH]; [by left |].
  destruct (stream_failure item) as [e |] eqn:Hitem.
  - right. by exists [], item, e, items.
  - apply readable_no_failure in Hitem. destruct IH as [Hitems | Hbad].
    + left. by constructor.
    + destruct Hbad as (before & bad & e & after & -> & Hbefore & Hbad).
      right. exists (item :: before), bad, e, after. split; [done |]. split; [| done].
      by constructor.
Qed.

(** A builder that returned has found the language in the config. *)
Lemma build_messages_request_language p build cfg messages params :
  build_messages_request p = Some build →
  build cfg messages = Ok params →
  is_Some (cfg !! "language").
Proof.
  intros Hbuild Hparams.
  destruct (cfg !! "language") as [language |] eqn:Hlanguage; [by eexists |].
  destruct p; cbn in Hbuild; simplify_eq;
    unfold Perplexity.create_request_body, OpenAI.create_chat_params, Groq.create_chat_params,
      config_lookup in Hparams;
    rewrite Hlanguage in Hparams; discriminate.
Qed.

(** C7 (as amended): in OpenAIChat and GroqChat a streamed exchange whose
    iteration ends without raising and whose chunks all have a first choice
    succeeds, with or without a closing chunk: the text of the deltas is
    returned and appended as the answer. There is no StreamTruncated error.
    The exchange fails, with the user entry alone in the history, exactly
    when reading the stream raises: at the first item where the iteration
    itself raises or whose chunk has no choice (IndexError). Every stream
    is of one of the two kinds. *)
Theorem C7_stream_end_is_success `{PyBuiltins} (p : provider)
  (build : gmap string PyVal → list PyVal → result PyVal) (w : world) (c : call)
  (s : session) (params flag : PyVal) (items : list stream_item) :
  p = openai ∨ p = groq →
  build_messages_request p = Some build →
  build (current_config s) (conversation_history s ++ [mk_user_message (message c)])
    = Ok params →
  w_create w params = Ok (SdkStream items) →
  current_config s !! "stream" = Some flag →
  truthy flag = true →
  (Forall readable items →
     ∃ s' result,
       chat_send p w c s = (s', Ok result)
       ∧ has_error_key result = false
       ∧ py_getitem result (content_key p) = Ok (VStr (delta_text items))
       ∧ conversation_history s' =
           conversation_history s
             ++ [mk_user_message (message c);
                 mk_assistant_message (VStr (delta_text items))])
  ∧ (∀ before bad e after,
       items = before ++ bad :: after →
       Forall readable before →
       stream_failure bad = Some e →
       ∃ s' result,
         chat_send p w c s = (s', Ok result)
         ∧ has_error_key result = true
         ∧ conversation_history s' =
             conversation_history s ++ [mk_user_message (message c)])
  ∧ (Forall readable items
     ∨ ∃ before bad e after,
         items = before ++ bad :: after
         ∧ Forall readable before ∧ stream_failure bad = Some e).
Proof.
  intros Hp Hbuild Hparams Hcreate Hflag Htruthy.
  pose proof (build_messages_request_language _ _ _ _ _ Hbuild Hparams) as [language Hlanguage].
  apply config_lookup_Some in Hflag, Hlanguage.
  split; [| split; [| apply stream_readable_or_not]].
  - intros Hitems.
    destruct Hp as [-> | ->]; cbn in Hbuild; simplify_eq;
      unfold chat_send, OpenAI.send_message, Groq.send_message; unfold_py;
      cbn -[OpenAI.create_chat_params Groq.create_chat_params drain_stream truthy
            config_lookup];
      rewrite Hparams, Hcreate; cbn -[drain_stream truthy config_lookup];
      rewrite Hflag, Htruthy; unfold drain_stream;
      rewrite (consume_stream_readable _ _ Hitems);
      change (EmptyString +:+ delta_text items) with (delta_text items);
      cbn -[delta_text]; eexists _, _; (split; [reflexivity |]);
      cbn -[delta_text]; rewrite <- ?app_assoc; done.
  - intros before bad e after -> Hbefore Hbad.
    destruct Hp as [-> | ->]; cbn in Hbuild; simplify_eq;
      unfold chat_send, OpenAI.send_message, Groq.send_message; unfold_py;
      cbn -[OpenAI.create_chat_params Groq.create_chat_params drain_stream truthy
            config_lookup];
      rewrite Hparams, Hcreate; cbn -[drain_stream truthy config_lookup];
      rewrite Hflag, Htruthy; unfold drain_stream;
      rewrite (consume_stream_unreadable _ _ _ _ _ Hbefore Hbad);
      cbn -[String.append config_lookup]; rewrite ?Hlanguage;
      eexists _, _; (split; [reflexivity |]); done.
Qed.

(** GroqChat on a stream of two deltas that ends there, and on the same
    stream with a chunk without choices after the first delta. *)
Lemma C7_stream_end_is_success_witness :
  (∃ s' result,
     @chat_send Interp.python groq (Examples.answering groq) Examples.hello
       (Examples.fresh groq) = (s', Ok result)
     ∧ has_error_key result = false
     ∧ py_getitem result (content_key groq) = Ok (VStr (delta_text Examples.cut_stream))
     ∧ conversation_history s' =
         conversation_history (Examples.fresh groq)
           ++ [mk_user_message (message Examples.hello);
               mk_assistant_message (VStr (delta_text Examples.cut_stream))])
  ∧ (let w := Examples.streaming
                [Examples.delta "Hi"; Yield {| chunk_choices := [] |};
                 Examples.delta " there"] in
     ∃ s' result,
       @chat_send Interp.python groq w Examples.hello (Examples.fresh groq) = (s', Ok result)
       ∧ has_error_key result = true
       ∧ conversation_history s' =
           conversation_history (Examples.fresh groq)
             ++ [mk_user_message (message Examples.hello)]).
Proof.
  split.
  - refine (proj1 (@C7_stream_end_is_success Interp.python groq Groq.create_chat_params
                     (Examples.answering groq) Examples.hello (Examples.fresh groq)
                     _ (VBool true) Examples.cut_stream
                     (or_intror eq_refl) eq_refl _ eq_refl _ eq_refl) _).
    + vm_compute. reflexivity.
    + vm_compute. reflexivity.
    + repeat constructor; discriminate.
  - intros w.
    refine (proj1 (proj2 (@C7_stream_end_is_success Interp.python groq Groq.create_chat_params
                     w Examples.hello (Examples.fresh groq)
                     _ (VBool true) _
                     (or_intror eq_refl) eq_refl _ eq_refl _ eq_refl))
              [Examples.delta "Hi"] (Yield {| chunk_choices := [] |})
              (mk_exn IndexError "list index out of range" None) [Examples.delta " there"]
              eq_refl _ eq_refl).
    + vm_compute. reflexivity.
    + vm_compute. reflexivity.
    + repeat constructor; discriminate.
Defined.

(** C7 (as stated) fails: OpenAIChat takes a stream that ends after two
    deltas, none of them closing the answer, as a complete answer. *)
Lemma C7_counterexample :
  let sent := @chat_send Interp.python openai (Examples.answering openai) Examples.hello
                (Examples.fresh openai) in
  lacks_terminal_event Examples.cut_stream = true
  ∧ sent.2 = Ok (VDict [("content", VStr "Hi there"); ("citations", VList [])])
  ∧ succeeded sent.2 = true
  ∧ conversation_history sent.1
      = [mk_user_message "hello"; mk_assistant_message (VStr "Hi there")].
Proof. repeat split; vm_compute; reflexivity. Qed.

(** ** Construction *)

(** C8: in each of the five classes, when the variable of the API key is
    missing from the environment or empty, the constructor raises
    ValueError and there is no chat object; every chat object that was
    constructed holds the non-empty key of the environment. *)
Theorem C8_credential_checked_at_construction (p : provider) (w : world)
  (env : gmap string string) :
  (credential_absent (getenv env (env_var p)) = true →
     ∃ msg, chat_init p w env = Raise (mk_exn ValueError msg None))
  ∧ (∀ s, chat_init p w env = Ok s →
       getenv env (env_var p) = Some (api_key s)
       ∧ credential_absent (Some (api_key s)) = false).
Proof.
  unfold credential_absent. split.
  - intros Habsent.
    destruct p; cbn [chat_init env_var] in *;
      unfold Perplexity.init, OpenAI.init, Groq.init, Anthropic.init, Gemini.init, value_error;
      destruct (getenv env _) as [key |]; try (by eexists);
      apply negb_true_iff in Habsent; rewrite Habsent; by eexists.
  - intros s Hs.
    destruct p; cbn [chat_init env_var] in *;
      unfold Perplexity.init, OpenAI.init, Groq.init, Anthropic.init, Gemini.init, value_error,
        mbind, result_bind, mret, result_ret in Hs;
      destruct (getenv env _) as [key |]; try discriminate;
      destruct (truthy (VStr key)) eqn:Hkey; try discriminate;
      repeat case_match; simplify_eq; cbn [api_key]; by rewrite Hkey.
Qed.

(** OpenAIChat in an empty environment. *)
Lemma C8_credential_checked_at_construction_witness :
  ∃ msg, chat_init openai Examples.offline ∅ = Raise (mk_exn ValueError msg None).
Proof.
  apply (proj1 (C8_credential_checked_at_construction openai Examples.offline ∅)).
  reflexivity.
Defined.

(** ** The interpreter on the literals of the examples *)

Example float_of_literal : Interp.float_of (VStr "3.5") = Ok 3.5%float.
Proof. vm_compute. reflexivity. Qed.

Example float_of_word :
  Interp.float_of (VStr "hot")
    = value_error "could not convert string to float: 'hot'".
Proof. vm_compute. reflexivity. Qed.

Example int_of_literal : Interp.int_of (VStr "-42") = Ok (-42)%Z.
Proof. vm_compute. reflexivity. Qed.

Example str_of_floats :
  map Interp.float_repr [0.7; 0.95; 1; 2048; 1e16; 1e-5]%float
    = ["0.7"; "0.95"; "1.0"; "2048.0"; "1e+16"; "1e-05"].
Proof. vm_compute. reflexivity. Qed.

Example lower_of_none : Interp.lower "None" = "none".
Proof. vm_compute. reflexivity. Qed.

(** * The methods around the exchange *)

(** ** What [send_message] leaves alone *)

Section frames.
Context `{PyBuiltins}.

(** A call of [send_message] keeps the key, and keeps the config except
    for the model that GeminiChat sets for an image. *)
Lemma chat_send_frame p w c s s' r :
  chat_send p w c s = (s', r) →
  api_key s' = api_key s
  ∧ current_config s' =
      match p with
      | gemini =>
          if Gemini.image_given (image_path c)
          then <["model" := VStr Gemini.GEMINI_FLASH_8B]> (current_config s)
          else current_config s
      | _ => current_config s
      end.
Proof.
  destruct p; [| | | | apply gemini_send_config].
  - unfold chat_send, Perplexity.send_message. unfold_py.
    cbn -[Perplexity.create_request_body raise_for_status py_getitem py_get py_getitem0].
    intros Hs. repeat step Hs. all: simplify_eq; split; reflexivity.
  - unfold chat_send, OpenAI.send_message. unfold_py.
    cbn -[OpenAI.create_chat_params drain_stream first_message_content truthy].
    intros Hs. repeat step Hs. all: simplify_eq; split; reflexivity.
  - unfold chat_send, Groq.send_message, Groq.api_error_message. unfold_py.
    cbn -[Groq.create_chat_params drain_stream first_message_content truthy str_contains
          String.append String.concat].
    intros Hs. repeat step Hs. all: simplify_eq; split; reflexivity.
  - unfold chat_send, Anthropic.send_message, Anthropic.api_error_handler. unfold_py.
    cbn -[Anthropic.create_chat_params raise_for_status py_getitem py_get py_getitem0 Z.eqb
          String.append String.concat].
    intros Hs. repeat step Hs. all: simplify_eq; split; reflexivity.
Qed.

End frames.

(** ** What [update_config] lets into the config *)

Section updates.
Context `{PyBuiltins}.

Ltac unfold_update :=
  unfold chat_update_config, Groq.update_config, Anthropic.update_config,
    Gemini.update_config;
  cbn [py_for]; unfold_py;
  cbn -[in_models between_0_and_1 String.eqb Z.leb config_has model_unavailable value_error
        available_models].

(** The update of one key: it is stored as passed, after the checks of
    the class, or the config stays as it was. *)
Lemma update_config_pair p update k v s s1 r :
  chat_update_config p = Some update →
  update [(k, v)] s = (s1, r) →
  api_key s1 = api_key s
  ∧ conversation_history s1 = conversation_history s
  ∧ (current_config s1 = current_config s
     ∨ (r = Ok tt
        ∧ config_has (current_config s) k = true
        ∧ current_config s1 = <[k := v]> (current_config s)
        ∧ (k = "model" → in_models v (available_models p) = true)
        ∧ (k = "temperature" → p ≠ groq → temperature_in_range v)
        ∧ (k = "max_tokens" → p = anthropic → positive_limit v))).
Proof.
  intros Hp. destruct p; cbn in Hp; simplify_eq.
  all: unfold_update; intros Hs; repeat step Hs; simplify_eq.
  all: split; [reflexivity |]; split; [reflexivity |].
  all: first [ by left | right ].
  all: repeat match goal with
         | E : (_ && _) = false |- _ => apply andb_false_iff in E
         | E : negb _ = false |- _ => apply negb_false_iff in E
         | E : String.eqb _ _ = true |- _ => apply String.eqb_eq in E
         | E : String.eqb _ _ = false |- _ => apply String.eqb_neq in E
         | E : (_ <=? _)%Z = false |- _ => apply Z.leb_gt in E
         end.
  all: repeat split; try done; intros; simplify_eq; try done.
  all: try by (unfold temperature_in_range, positive_limit; eauto).
  all: try by (destruct_or?; simplify_eq).
  all: match goal with E : _ ∨ _ |- _ => destruct E as [E | E%negb_false_iff] end;
    [by cbn in * | done].
Qed.

(** An invariant of every single update is an invariant of a batch,
    whether the batch returns or raises. *)
Lemma update_config_preserves p update (I : session → Prop) :
  chat_update_config p = Some update →
  (∀ k v s s1 r, update [(k, v)] s = (s1, r) → I s → I s1) →
  ∀ kwargs s s' r, update kwargs s = (s', r) → I s → I s'.
Proof.
  intros Hp Hone kwargs.
  assert (∀ pair rest s, update (pair :: rest) s =
            match update [pair] s with
            | (s1, Ok _) => update rest s1
            | (s1, Raise e) => (s1, Raise e)
            end) as Hcons.
  { destruct p; cbn in Hp; simplify_eq; intros; apply py_for_cons. }
  assert (∀ s, update [] s = (s, Ok tt)) as Hnil.
  { destruct p; cbn in Hp; by simplify_eq. }
  induction kwargs as [| [k v] kwargs IH]; intros s s' r Hrun Hs.
  - rewrite Hnil in Hrun. by simplify_eq.
  - rewrite Hcons in Hrun.
    destruct (update [(k, v)] s) as [s1 [[] | e]] eqn:Hpair.
    + eapply IH; [exact Hrun |]. eapply Hone; [exact Hpair | exact Hs].
    + simplify_eq. eapply Hone; [exact Hpair | exact Hs].
Qed.

Lemma model_listed_insert p cfg k v :
  model_listed p cfg →
  (k = "model" → in_models v (available_models p) = true) →
  model_listed p (<[k := v]> cfg).
Proof.
  intros (model & Hmodel & Hin) Hv. destruct (decide (k = "model")) as [-> | Hk].
  - exists v. rewrite lookup_insert_eq. split; [done | by apply Hv].
  - exists model. by rewrite lookup_insert_ne.
Qed.

(** [update_config] keeps the model among the models of the class. *)
Lemma update_config_model_listed p update kwargs s s' r :
  chat_update_config p = Some update →
  update kwargs s = (s', r) →
  model_listed p (current_config s) → model_listed p (current_config s').
Proof.
  intros Hp. revert kwargs s s' r.
  apply (update_config_preserves p update (λ s, model_listed p (current_config s)) Hp).
  intros k v s s1 r Hpair Hs.
  destruct (update_config_pair _ _ _ _ _ _ _ Hp Hpair)
    as (_ & _ & [-> | (_ & _ & -> & Hmodel & _)]); [done |].
  by apply model_listed_insert.
Qed.

(** [update_config] changes neither the key, nor the history, nor the set
    of keys of the config. *)
Lemma update_config_frame p update kwargs s s' r :
  chat_update_config p = Some update →
  update kwargs s = (s', r) →
  api_key s' = api_key s
  ∧ conversation_history s' = conversation_history s
  ∧ ∀ k, config_has (current_config s') k = config_has (current_config s) k.
Proof.
  intros Hp. revert kwargs s' r. revert s.
  intros s0 kwargs s' r Hrun.
  eapply (update_config_preserves p update
            (λ s, api_key s = api_key s0
                  ∧ conversation_history s = conversation_history s0
                  ∧ ∀ k, config_has (current_config s) k = config_has (current_config s0) k)
            Hp); [| exact Hrun | done].
  intros k v s s1 r1 Hpair (Hkey & Hhist & Hkeys).
  destruct (update_config_pair _ _ _ _ _ _ _ Hp Hpair)
    as (-> & -> & [-> | (_ & Hk & -> & _)]); [done |].
  split; [done |]. split; [done |]. intros k'.
  rewrite <- Hkeys. by apply config_has_insert.
Qed.

(** A value that [update_config] has stored under [key] passed the check
    of the class for that key. *)
Lemma update_config_checked p update key (check : PyVal → Prop) kwargs s s' r :
  chat_update_config p = Some update →
  (∀ k v s s1 r, update [(k, v)] s = (s1, r) →
     current_config s1 = current_config s
     ∨ current_config s1 = <[k := v]> (current_config s) ∧ (k = key → check v)) →
  update kwargs s = (s', r) →
  current_config s' !! key = current_config s !! key
  ∨ ∃ v, current_config s' !! key = Some v ∧ check v.
Proof.
  intros Hp Hone Hrun.
  eapply (update_config_preserves p update
            (λ s1, current_config s1 !! key = current_config s !! key
                   ∨ ∃ v, current_config s1 !! key = Some v ∧ check v)
            Hp); [| exact Hrun | by left].
  intros k v s1 s2 r1 Hpair Hs1.
  destruct (Hone _ _ _ _ _ Hpair) as [-> | [-> Hcheck]]; [done |].
  destruct (decide (k = key)) as [-> | Hk].
  - right. exists v. rewrite lookup_insert_eq. auto.
  - by rewrite lookup_insert_ne.
Qed.

End updates.

(** ** The [update_config] methods *)

(** X1: in GroqChat, AnthropicChat and GeminiChat, [update_config] never
    leaves the config with a model outside the list of the class: if the
    model is listed before the call it is listed after it, for every batch
    of keyword arguments, whether the call returns or raises. *)
Theorem update_config_keeps_model_listed `{PyBuiltins} (p : provider)
  (update : list (string * PyVal) → Py unit) (kwargs : list (string * PyVal))
  (s : session) :
  chat_update_config p = Some update →
  model_listed p (current_config s) →
  model_listed p (current_config (update kwargs s).1).
Proof.
  intros Hp Hlisted. eapply update_config_model_listed; [exact Hp | | exact Hlisted].
  apply surjective_pairing.
Qed.

(** GroqChat: a batch that sets a listed model and then one of another
    provider. *)
Lemma update_config_keeps_model_listed_witness :
  model_listed groq
    (current_config
       (@Groq.update_config Interp.python
          [("model", VStr "gemma2-9b-it"); ("model", VStr "gpt-4o")]
          (Examples.fresh groq)).1).
Proof.
  apply (@update_config_keeps_model_listed Interp.python groq _ _ _ eq_refl).
  exists (VStr "mixtral-8x7b-32768"). split; vm_compute; reflexivity.
Defined.

(** X2: a temperature that the [update_config] of AnthropicChat or
    GeminiChat has stored reads as a number between 0 and 1, and a
    [max_tokens] that the one of AnthropicChat has stored reads as a
    positive integer: after any batch the entry is the one from before the
    call or a value that passed the check. *)
Theorem update_config_stores_checked_values `{PyBuiltins} (p : provider)
  (update : list (string * PyVal) → Py unit) (kwargs : list (string * PyVal))
  (s : session) :
  chat_update_config p = Some update →
  p ≠ groq →
  let cfg' := current_config (update kwargs s).1 in
  (cfg' !! "temperature" = current_config s !! "temperature"
   ∨ ∃ v, cfg' !! "temperature" = Some v ∧ temperature_in_range v)
  ∧ (p = anthropic →
     cfg' !! "max_tokens" = current_config s !! "max_tokens"
     ∨ ∃ v, cfg' !! "max_tokens" = Some v ∧ positive_limit v).
Proof.
  intros Hp Hgroq cfg'. subst cfg'. split; [| intros Hanthropic].
  - eapply (update_config_checked p update "temperature" temperature_in_range);
      [exact Hp | | apply surjective_pairing].
    intros k v s0 s1 r Hpair.
    destruct (update_config_pair _ _ _ _ _ _ _ Hp Hpair)
      as (_ & _ & [Hsame | (_ & _ & Hstored & _ & Htemperature & _)]); [by left |].
    right. split; [done |]. intros ->. by apply Htemperature.
  - eapply (update_config_checked p update "max_tokens" positive_limit);
      [exact Hp | | apply surjective_pairing].
    intros k v s0 s1 r Hpair.
    destruct (update_config_pair _ _ _ _ _ _ _ Hp Hpair)
      as (_ & _ & [Hsame | (_ & _ & Hstored & _ & _ & Hlimit)]); [by left |].
    right. split; [done |]. intros ->. by apply Hlimit.
Qed.

(** AnthropicChat: a temperature and a limit that pass, then a temperature
    that does not. *)
Lemma update_config_stores_checked_values_witness :
  let cfg' :=
    current_config
      (@Anthropic.update_config Interp.python
         [("temperature", VStr "0.25"); ("max_tokens", VInt 64); ("temperature", VInt 7)]
         (Examples.fresh anthropic)).1 in
  (cfg' !! "temperature" = current_config (Examples.fresh anthropic) !! "temperature"
   ∨ ∃ v, cfg' !! "temperature" = Some v ∧ @temperature_in_range Interp.python v)
  ∧ (cfg' !! "max_tokens" = current_config (Examples.fresh anthropic) !! "max_tokens"
     ∨ ∃ v, cfg' !! "max_tokens" = Some v ∧ @positive_limit Interp.python v).
Proof.
  pose proof (@update_config_stores_checked_values Interp.python anthropic _
                [("temperature", VStr "0.25"); ("max_tokens", VInt 64);
                 ("temperature", VInt 7)]
                (Examples.fresh anthropic) eq_refl ltac:(discriminate)) as [Htemp Hlimit].
  split; [exact Htemp | exact (Hlimit eq_refl)].
Defined.

(** X3: [update_config] changes values only: the key of the instance, the
    conversation history and the set of keys of the config are after the
    call what they were before it; a keyword that is no key of the config
    adds none. *)
Theorem update_config_changes_values_only `{PyBuiltins} (p : provider)
  (update : list (string * PyVal) → Py unit) (kwargs : list (string * PyVal))
  (s : session) :
  chat_update_config p = Some update →
  let s' := (update kwargs s).1 in
  api_key s' = api_key s
  ∧ conversation_history s' = conversation_history s
  ∧ dom (current_config s') = dom (current_config s).
Proof.
  intros Hp s'.
  destruct (update_config_frame p update kwargs s s' (update kwargs s).2 Hp
              (surjective_pairing _)) as (Hkey & Hhist & Hkeys).
  split; [done |]. split; [done |].
  apply set_eq. intros k. rewrite !elem_of_dom.
  specialize (Hkeys k). unfold config_has in Hkeys.
  by rewrite <- (bool_decide_spec (is_Some (current_config s' !! k))), Hkeys, bool_decide_spec.
Qed.

(** GeminiChat: a key of the config, and a keyword that is none. *)
Lemma update_config_changes_values_only_witness :
  let s := Examples.fresh gemini in
  let s' := (@Gemini.update_config Interp.python
               [("top_k", VInt 10); ("seed", VInt 1)] s).1 in
  api_key s' = api_key s
  ∧ conversation_history s' = conversation_history s
  ∧ dom (current_config s') = dom (current_config s).
Proof.
  exact (@update_config_changes_values_only Interp.python gemini _
           [("top_k", VInt 10); ("seed", VInt 1)] (Examples.fresh gemini) eq_refl).
Defined.

(** ** Reading a [config] line *)

Lemma split_on_length sep s : length (split_on sep s) = S (occurrences sep s).
Proof.
  induction s as [| c rest IH]; [done |]. cbn.
  destruct (Ascii.eqb c sep); cbn; [by rewrite IH |].
  destruct (split_on sep rest); cbn in *; lia.
Qed.

Lemma split_on_whole sep s : occurrences sep s = 0 → split_on sep s = [s].
Proof.
  induction s as [| c rest IH]; [done |]. cbn.
  destruct (Ascii.eqb c sep); [done |]. intros Hrest. by rewrite IH.
Qed.

Lemma split_on_assignment k v :
  occurrences "=" k = 0 → occurrences "=" v = 0 →
  split_on "=" (assignment (k, v)) = [k; v].
Proof.
  unfold assignment. cbn [fst snd]. intros Hk Hv.
  induction k as [| c k IH].
  - change (split_on "=" (String "=" v) = [EmptyString; v]).
    cbn. by rewrite split_on_whole.
  - change (split_on "=" (String c (k +:+ "=" +:+ v)) = [String c k; v]).
    cbn in Hk |- *. destruct (Ascii.eqb c "="); [done |]. by rewrite IH.
Qed.

Lemma dict_of_items_pairs pairs : ∀ index entries,
  dict_of_items index (map (λ pair, [pair.1; pair.2]) pairs) entries
    = Ok (assign_all pairs entries).
Proof.
  induction pairs as [| [k v] pairs IH]; intros index entries; [done |].
  cbn. apply IH.
Qed.

(** An element that is no pair makes [dict] raise, whatever else the
    iterable holds. *)
Lemma dict_of_items_malformed elements : ∀ index entries,
  Exists (λ element, length element ≠ 2) elements →
  ∃ msg, dict_of_items index elements entries = value_error msg.
Proof.
  induction elements as [| element rest IH]; intros index entries Hbad.
  - by apply Exists_nil in Hbad.
  - cbn. destruct element as [| k [| v [| extra more]]]; try by eexists.
    apply Exists_cons in Hbad as [Hbad | Hbad]; [done |]. by apply IH.
Qed.

Lemma str_dict_get_set k k' v entries :
  str_dict_get k (str_dict_set k' v entries)
    = if String.eqb k' k then Some v else str_dict_get k entries.
Proof.
  induction entries as [| [k0 v0] rest IH]; cbn.
  - done.
  - destruct (String.eqb k0 k') eqn:E0; cbn.
    + apply String.eqb_eq in E0 as ->. by destruct (String.eqb k' k).
    + rewrite IH. destruct (String.eqb k0 k) eqn:E1; [| done].
      apply String.eqb_eq in E1 as ->. apply String.eqb_neq in E0.
      destruct (String.eqb_spec k' k); congruence.
Qed.

Lemma str_dict_get_app k front back :
  str_dict_get k (front ++ back)
    = match str_dict_get k front with
      | Some v => Some v
      | None => str_dict_get k back
      end.
Proof.
  induction front as [| [k0 v0] front IH]; cbn; [done |].
  by destruct (String.eqb k0 k).
Qed.

(** The value of a key after a run of assignments is that of its last
    assignment. *)
Lemma str_dict_get_assign_all k pairs : ∀ entries,
  str_dict_get k (assign_all pairs entries)
    = match str_dict_get k (reverse pairs) with
      | Some v => Some v
      | None => str_dict_get k entries
      end.
Proof.
  induction pairs as [| [k0 v0] pairs IH]; intros entries; [done |].
  unfold assign_all in *. cbn [foldl fst snd]. rewrite IH, reverse_cons, str_dict_get_app.
  destruct (str_dict_get k (reverse pairs)); [done |].
  rewrite str_dict_get_set. cbn. by destruct (String.eqb k0 k).
Qed.

Lemma str_dict_set_keys k v entries :
  (str_dict_set k v entries).*1
    = if bool_decide (k ∈ entries.*1) then entries.*1 else entries.*1 ++ [k].
Proof.
  induction entries as [| [k0 v0] rest IH]; cbn; [done |].
  destruct (String.eqb k0 k) eqn:E0.
  - apply String.eqb_eq in E0 as ->. rewrite bool_decide_eq_true_2; [done | left].
  - apply String.eqb_neq in E0. cbn. rewrite IH.
    destruct (decide (k ∈ rest.*1)) as [Hin | Hout].
    + rewrite !bool_decide_eq_true_2; [done | by right | done].
    + rewrite !bool_decide_eq_false_2; [done | | done].
      intros [-> | ?]%elem_of_cons; done.
Qed.

Lemma str_dict_set_fresh k v entries :
  k ∉ entries.*1 → str_dict_set k v entries = entries ++ [(k, v)].
Proof.
  induction entries as [| [k0 v0] rest IH]; cbn; [done |].
  intros Hout. apply not_elem_of_cons in Hout as [Hne Hout].
  destruct (String.eqb k0 k) eqn:E0.
  - apply String.eqb_eq in E0. congruence.
  - by rewrite IH.
Qed.

Lemma assign_all_keys pairs : ∀ entries,
  NoDup entries.*1 → NoDup (assign_all pairs entries).*1.
Proof.
  induction pairs as [| [k v] pairs IH]; intros entries Hnodup; [done |].
  unfold assign_all in *. cbn [foldl fst snd]. apply IH.
  rewrite str_dict_set_keys. case_bool_decide; [done |].
  apply NoDup_app. split; [done |]. split; [| apply NoDup_singleton].
  intros k' Hin ->%list_elem_of_singleton. done.
Qed.

Lemma assign_all_fresh pairs : ∀ entries,
  NoDup (entries.*1 ++ pairs.*1) → assign_all pairs entries = entries ++ pairs.
Proof.
  induction pairs as [| [k v] pairs IH]; intros entries Hnodup.
  - by rewrite app_nil_r.
  - unfold assign_all in *. cbn [foldl fst snd].
    cbn in Hnodup. apply NoDup_app in Hnodup as (Hentries & Hdisjoint & Hpairs).
    rewrite str_dict_set_fresh.
    + rewrite IH; [by rewrite <- app_assoc |].
      rewrite fmap_app. cbn. rewrite <- app_assoc. cbn.
      apply NoDup_app. split; [done |]. split; [| done].
      intros k' Hin. by apply Hdisjoint.
    + intros Hin. apply (Hdisjoint k Hin). left.
Qed.

Section config_lines.
Context `{PyBuiltins} `{PyText}.

Ltac unfold_line :=
  unfold chat_config_line, PerplexityChat.config_line, OpenAIChat.config_line,
    GroqChat.config_line, AnthropicChat.config_line, GeminiChat.config_line;
  unfold_py.

Lemma truthy_str (text : string) : text ≠ EmptyString → truthy (VStr text) = true.
Proof. by destruct text. Qed.

(** A [config] line with nothing after the command changes nothing. *)
Lemma chat_config_line_bare p user_input s :
  slice_from 7 user_input = EmptyString → p ≠ gemini →
  chat_config_line p user_input s = (s, Ok tt).
Proof. intros Hrest Hp. destruct p; unfold_line; by rewrite ?Hrest. Qed.

(** A line whose words do not make a dict changes nothing. *)
Lemma chat_config_line_unparsed p user_input e s :
  parse_config (slice_from 7 user_input) = Raise e →
  chat_config_line p user_input s = (s, Ok tt).
Proof.
  intros Hparse. destruct p; unfold_line; rewrite Hparse;
    by destruct (truthy (VStr (slice_from 7 user_input))).
Qed.

(** A line whose words make the dict [config_dict] runs the [config]
    command of the class on it and swallows what the command raises. *)
Lemma chat_config_line_parsed p user_input config_dict s :
  parse_config (slice_from 7 user_input) = Ok config_dict →
  slice_from 7 user_input ≠ EmptyString ∨ p = gemini →
  "self" ∉ config_dict.*1 ∨ chat_update_config p = None →
  chat_config_line p user_input s = ((chat_config p config_dict s).1, Ok tt).
Proof.
  intros Hparse Hrest Hself.
  assert (p ≠ gemini → truthy (VStr (slice_from 7 user_input)) = true) as Htruthy.
  { intros Hp. destruct Hrest; [by apply truthy_str | done]. }
  clear Hrest Hself. rename Htruthy into Hrest.
  destruct p; unfold_line; rewrite Hparse, ?Hrest by done; cbn [negb chat_config].
  all: match goal with
       | |- context [match ?run with _ => _ end] => by destruct run as [s1 [[] | e]]
       end.
Qed.

(** The keyword [self] makes the call of [update_config] itself raise. *)
Lemma chat_config_line_self p update user_input config_dict s :
  chat_update_config p = Some update →
  parse_config (slice_from 7 user_input) = Ok config_dict →
  "self" ∈ config_dict.*1 →
  chat_config_line p user_input s = (s, Ok tt).
Proof.
  intros Hp Hparse Hself.
  destruct p; cbn in Hp; simplify_eq; unfold_line; rewrite Hparse;
    unfold Groq.config_command, Anthropic.config_command, Gemini.config_command;
    rewrite call_update_config_taken by done;
    by destruct (truthy (VStr (slice_from 7 user_input))).
Qed.

End config_lines.

(** ** What the chat loops keep *)

Section loops.
Context `{PyBuiltins} `{PyText}.

Lemma kept_refl p s : kept p s s.
Proof. by repeat split. Qed.

Lemma kept_trans p s1 s2 s3 : kept p s1 s2 → kept p s2 s3 → kept p s1 s3.
Proof.
  intros (Hkey1 & Hkeys1 & Hmodel1) (Hkey2 & Hkeys2 & Hmodel2).
  split; [congruence |]. split; [intros k; by rewrite Hkeys2 |]. auto.
Qed.

Lemma kept_history p s h :
  kept p s (Session (api_key s) h (current_config s)).
Proof. by repeat split. Qed.

(** The [config] command of PerplexityChat and OpenAIChat on one pair. *)
Lemma config_command_pair p k v s s1 r :
  chat_update_config p = None →
  chat_config p [(k, v)] s = (s1, r) →
  conversation_history s1 = conversation_history s ∧ kept p s s1.
Proof.
  intros Hp. destruct p; cbn in Hp; simplify_eq.
  all: unfold chat_config, Perplexity.config_command, OpenAI.config_command;
    cbn [py_for]; unfold_py;
    cbn -[Perplexity.convert_value OpenAI.convert_value config_has];
    intros Hs; repeat step Hs; simplify_eq.
  all: split; [reflexivity |]; split; [reflexivity |]; split; [| done].
  all: intros k'; cbn [current_config]; first [ reflexivity | by apply config_has_insert ].
Qed.

(** The [config] command of every class keeps the history and what [kept]
    names, whether it returns or raises. *)
Lemma chat_config_kept p config_dict : ∀ s s' r,
  chat_config p config_dict s = (s', r) →
  conversation_history s' = conversation_history s ∧ kept p s s'.
Proof.
  destruct (chat_update_config p) as [update |] eqn:Hp.
  - intros s s' r Hrun.
    destruct (decide ("self" ∈ config_dict.*1)) as [Htaken | Hfree].
    { rewrite (chat_config_keyword_taken p "self") in Hrun;
        [| apply keyword_taken_self; by rewrite Hp | done].
      simplify_eq. split; [done | apply kept_refl]. }
    rewrite (chat_config_free _ _ _ Hp Hfree) in Hrun. rename Hrun into Hupdate.
    destruct (update_config_frame _ _ _ _ _ _ Hp Hupdate) as (Hkey & Hhist & Hkeys).
    split; [done |]. split; [done |]. split; [done |]. intros _.
    by eapply update_config_model_listed.
  - induction config_dict as [| [k v] rest IH]; intros s s' r Hrun.
    + destruct p; cbn in Hp; simplify_eq; cbn in Hrun; unfold_py; simplify_eq;
        (split; [done | apply kept_refl]).
    + rewrite chat_config_cons in Hrun
        by (apply Forall_forall; intros key _; destruct p; by cbn in Hp).
      destruct (chat_config p [(k, v)] s) as [s1 [[] | e]] eqn:Hpair.
      * destruct (config_command_pair _ _ _ _ _ _ Hp Hpair) as [Hhist1 Hkept1].
        destruct (IH _ _ _ Hrun) as [Hhist2 Hkept2].
        split; [congruence | by eapply kept_trans].
      * simplify_eq. by eapply config_command_pair.
Qed.

(** A [config] line never raises and keeps what [kept] names. *)
Lemma chat_config_line_kept p user_input s s' r :
  chat_config_line p user_input s = (s', r) →
  r = Ok tt ∧ conversation_history s' = conversation_history s ∧ kept p s s'.
Proof.
  intros Hline.
  assert (∀ s1, kept p s s1 → conversation_history s1 = conversation_history s →
                (s1, Ok tt) = (s', r) →
                r = Ok tt ∧ conversation_history s' = conversation_history s ∧ kept p s s')
    as Hdone by (intros; by simplify_eq).
  destruct (decide (slice_from 7 user_input = EmptyString ∧ p ≠ gemini)) as [[Hrest Hp] | Hrest].
  { rewrite chat_config_line_bare in Hline by done.
    eapply Hdone; [apply kept_refl | done | done]. }
  assert (slice_from 7 user_input ≠ EmptyString ∨ p = gemini) as Hrun.
  { destruct (decide (p = gemini)); [by right | left]. intros Hempty. by apply Hrest. }
  destruct (parse_config (slice_from 7 user_input)) as [config_dict | e] eqn:Hparse.
  - destruct (decide ("self" ∈ config_dict.*1)) as [Hself | Hself].
    + destruct (chat_update_config p) as [update |] eqn:Hp.
      * rewrite (chat_config_line_self _ _ _ _ _ Hp Hparse Hself) in Hline.
        eapply Hdone; [apply kept_refl | done | done].
      * rewrite (chat_config_line_parsed _ _ _ _ Hparse Hrun) in Hline by by right.
        destruct (chat_config p config_dict s) as [s1 r1] eqn:Hconfig.
        destruct (chat_config_kept _ _ _ _ _ Hconfig). by eapply Hdone.
    + rewrite (chat_config_line_parsed _ _ _ _ Hparse Hrun) in Hline by by left.
      destruct (chat_config p config_dict s) as [s1 r1] eqn:Hconfig.
      destruct (chat_config_kept _ _ _ _ _ Hconfig). by eapply Hdone.
  - rewrite (chat_config_line_unparsed _ _ _ _ Hparse) in Hline.
    eapply Hdone; [apply kept_refl | done | done].
Qed.

(** A call of [send_message] keeps what [kept] names, provided the config
    has a model (GeminiChat assigns to it). *)
Lemma chat_send_kept p w c s s' r :
  config_has (current_config s) "model" = true →
  chat_send p w c s = (s', r) → kept p s s'.
Proof.
  intros Hmodel Hsend. apply chat_send_frame in Hsend as [Hkey Hcfg].
  split; [done |]. rewrite Hcfg.
  destruct p; try by split.
  destruct (Gemini.image_given (image_path c)); [| by split].
  split; [intros k; by apply config_has_insert |]. intros _ _.
  exists (VStr Gemini.GEMINI_FLASH_8B). by rewrite lookup_insert_eq.
Qed.

Ltac pass_done :=
  simplify_eq; (split; [by eexists |]);
  first
    [ apply kept_refl
    | apply kept_history
    | match goal with
      | E : PerplexityChat.config_line _ _ = _ |- _ =>
          by apply (chat_config_line_kept perplexity) in E as (_ & _ & E)
      | E : OpenAIChat.config_line _ _ = _ |- _ =>
          by apply (chat_config_line_kept openai) in E as (_ & _ & E)
      | E : GroqChat.config_line _ _ = _ |- _ =>
          by apply (chat_config_line_kept groq) in E as (_ & _ & E)
      | E : AnthropicChat.config_line _ _ = _ |- _ =>
          by apply (chat_config_line_kept anthropic) in E as (_ & _ & E)
      | E : GeminiChat.config_line _ _ = _ |- _ =>
          by apply (chat_config_line_kept gemini) in E as (_ & _ & E)
      | Hmodel : config_has _ "model" = true,
        E : Perplexity.send_message (w_post ?w) ?m _ = _ |- _ =>
          by apply (chat_send_kept perplexity w {| message := m; image_path := None |}) in E
      | Hmodel : config_has _ "model" = true,
        E : OpenAI.send_message (w_create ?w) ?m _ = _ |- _ =>
          by apply (chat_send_kept openai w {| message := m; image_path := None |}) in E
      | Hmodel : config_has _ "model" = true,
        E : Groq.send_message (w_create ?w) ?m _ = _ |- _ =>
          by apply (chat_send_kept groq w {| message := m; image_path := None |}) in E
      | Hmodel : config_has _ "model" = true,
        E : Anthropic.send_message (w_post ?w) ?m _ = _ |- _ =>
          by apply (chat_send_kept anthropic w {| message := m; image_path := None |}) in E
      | Hmodel : config_has _ "model" = true,
        E : Gemini.send_message (w_process_image ?w) _ ?m ?i _ = _ |- _ =>
          by apply (chat_send_kept gemini w {| message := m; image_path := i |}) in E
      end ].

(** One pass of a chat loop never raises and keeps what [kept] names. *)
Lemma chat_pass_kept p t s s' r :
  config_has (current_config s) "model" = true →
  chat_pass p t s = (s', r) →
  (∃ next, r = Ok next) ∧ kept p s s'.
Proof.
  intros Hmodel. destruct p; cbn [chat_pass].
  - unfold PerplexityChat.main_pass, reset_history. unfold_py.
    cbn -[Perplexity.send_message PerplexityChat.config_line truthy String.prefix String.eqb
          py_contains].
    intros Hs. repeat step Hs. all: pass_done.
  - unfold OpenAIChat.run_chat_pass, reset_history. unfold_py.
    cbn -[OpenAI.send_message OpenAIChat.config_line truthy String.prefix String.eqb
          py_contains py_getitem].
    intros Hs. repeat step Hs. all: pass_done.
  - unfold GroqChat.run_chat_pass, GroqChat.clear_history, reset_history. unfold_py.
    cbn -[Groq.send_message GroqChat.config_line truthy String.prefix String.eqb
          py_contains].
    intros Hs. repeat step Hs. all: pass_done.
  - unfold AnthropicChat.run_chat_pass, AnthropicChat.clear_history, reset_history. unfold_py.
    cbn -[Anthropic.send_message AnthropicChat.config_line truthy String.prefix String.eqb
          py_contains].
    intros Hs. repeat step Hs. all: pass_done.
  - unfold GeminiChat.run_chat_pass, GeminiChat.clear_history, reset_history. unfold_py.
    cbn -[Gemini.send_message GeminiChat.config_line truthy String.prefix String.eqb
          py_contains].
    intros Hs. repeat step Hs. all: pass_done.
Qed.

(** So does the whole loop. *)
Lemma chat_loop_kept p passes : ∀ s,
  config_has (current_config s) "model" = true →
  kept p s (chat_loop p passes s).
Proof.
  induction passes as [| t rest IH]; intros s Hmodel; [apply kept_refl |].
  cbn [chat_loop]. destruct (chat_pass p t s) as [s1 r] eqn:Hpass.
  destruct (chat_pass_kept _ _ _ _ _ Hmodel Hpass) as [[next ->] Hkept].
  destruct next; [| done].
  eapply kept_trans; [exact Hkept |]. apply IH.
  destruct Hkept as (_ & Hkeys & _). by rewrite Hkeys.
Qed.

End loops.

(** ** The [config] lines of the loops *)

(** X4: the words of a [config] line are read as assignments: when every
    word is [key=value] with no further [=], the dict has each key once,
    holding the value of its last assignment, and when no key is repeated
    it is the assignments in the order typed. *)
Theorem config_line_reads_assignments `{PyText} (config_str : string)
  (pairs : list (string * string)) :
  str_split config_str = map assignment pairs →
  Forall (λ pair, occurrences "=" pair.1 = 0 ∧ occurrences "=" pair.2 = 0) pairs →
  ∃ config_dict,
    parse_config config_str = Ok config_dict
    ∧ NoDup config_dict.*1
    ∧ (∀ k, str_dict_get k config_dict = str_dict_get k (reverse pairs))
    ∧ (NoDup pairs.*1 → config_dict = pairs).
Proof.
  intros Hwords Hpairs. exists (assign_all pairs []).
  unfold parse_config. rewrite Hwords, map_map.
  rewrite (map_ext_Forall _ (λ pair, [pair.1; pair.2])).
  - rewrite dict_of_items_pairs. split; [done |]. split; [| split].
    + apply assign_all_keys. constructor.
    + intros k. rewrite str_dict_get_assign_all. by destruct (str_dict_get k (reverse pairs)).
    + intros Hnodup. by rewrite assign_all_fresh.
  - eapply Forall_impl; [exact Hpairs |]. intros [k v] [Hk Hv]. by apply split_on_assignment.
Qed.

(** [temperature=0.1 top_p=0.5 temperature=0.9]: the later temperature
    stays, in the place of the first. *)
Lemma config_line_reads_assignments_witness :
  ∃ config_dict,
    @parse_config Console.python_text "temperature=0.1 top_p=0.5 temperature=0.9"
      = Ok config_dict
    ∧ NoDup config_dict.*1
    ∧ (∀ k, str_dict_get k config_dict
            = str_dict_get k
                (reverse [("temperature", "0.1"); ("top_p", "0.5"); ("temperature", "0.9")]))
    ∧ (NoDup [("temperature", "0.1"); ("top_p", "0.5"); ("temperature", "0.9")].*1 →
       config_dict = [("temperature", "0.1"); ("top_p", "0.5"); ("temperature", "0.9")]).
Proof.
  apply (@config_line_reads_assignments Console.python_text
           "temperature=0.1 top_p=0.5 temperature=0.9"
           [("temperature", "0.1"); ("top_p", "0.5"); ("temperature", "0.9")]).
  - vm_compute. reflexivity.
  - repeat constructor.
Defined.

(** X5: a [config] line with a word that has no [=], or more than one, is
    rejected as a whole in all five loops: the words before and after it
    are not applied, the instance stays as it was and the loop goes on. *)
Theorem config_line_with_malformed_word_changes_nothing `{PyBuiltins} `{PyText}
  (p : provider) (user_input word : string) (s : session) :
  word ∈ str_split (slice_from 7 user_input) →
  occurrences "=" word ≠ 1 →
  chat_config_line p user_input s = (s, Ok tt).
Proof.
  intros Hword Hcount.
  destruct (dict_of_items_malformed
              (map (split_on "=") (str_split (slice_from 7 user_input))) 0 []) as [msg Hraise].
  - apply Exists_exists. exists (split_on "=" word). split.
    + by apply list_elem_of_fmap_2.
    + rewrite split_on_length. lia.
  - by eapply chat_config_line_unparsed.
Qed.

(** AnthropicChat, [config temperature=0.5 max_tokens]: the temperature is
    not applied either. *)
Lemma config_line_with_malformed_word_changes_nothing_witness :
  @chat_config_line Interp.python Console.python_text anthropic
    "config temperature=0.5 max_tokens" (Examples.fresh anthropic)
    = (Examples.fresh anthropic, Ok tt).
Proof.
  apply (@config_line_with_malformed_word_changes_nothing Interp.python Console.python_text
           anthropic _ "max_tokens").
  - vm_compute. apply list_elem_of_further, list_elem_of_here.
  - vm_compute. discriminate.
Defined.

(** X6: a [config] line whose words make a dict runs the [config] command
    of the class on that dict; whatever the command raises is swallowed,
    with the keys applied before it left in place. In GroqChat,
    AnthropicChat and GeminiChat a word that assigns to [self] makes the
    call of [update_config] itself fail, and nothing is applied. *)
Theorem config_line_runs_config_command `{PyBuiltins} `{PyText} (p : provider)
  (user_input : string) (config_dict : list (string * string)) (s : session) :
  parse_config (slice_from 7 user_input) = Ok config_dict →
  slice_from 7 user_input ≠ EmptyString →
  ("self" ∉ config_dict.*1 ∨ chat_update_config p = None →
     chat_config_line p user_input s = ((chat_config p config_dict s).1, Ok tt))
  ∧ ("self" ∈ config_dict.*1 → chat_update_config p ≠ None →
       chat_config_line p user_input s = (s, Ok tt)).
Proof.
  intros Hparse Hrest. split.
  - intros Hself. apply chat_config_line_parsed; auto.
  - intros Hself Hp. destruct (chat_update_config p) as [update |] eqn:Hupdate; [| done].
    by eapply chat_config_line_self.
Qed.

(** GroqChat, [config temperature=0.5 model=gpt-4o]: the temperature is
    applied before the model is rejected. *)
Lemma config_line_runs_config_command_witness :
  @chat_config_line Interp.python Console.python_text groq
    "config temperature=0.5 model=gpt-4o" (Examples.fresh groq)
  = ((@chat_config Interp.python groq [("temperature", "0.5"); ("model", "gpt-4o")]
        (Examples.fresh groq)).1, Ok tt).
Proof.
  apply (proj1 (@config_line_runs_config_command Interp.python Console.python_text groq
                  "config temperature=0.5 model=gpt-4o"
                  [("temperature", "0.5"); ("model", "gpt-4o")] (Examples.fresh groq)
                  ltac:(vm_compute; reflexivity) ltac:(discriminate))).
  left. vm_compute. intros Hin. repeat (apply elem_of_cons in Hin as [Hin | Hin]; [discriminate |]).
  by apply elem_of_nil in Hin.
Defined.

(** ** The loops *)

Lemma chat_init_fresh p w env s :
  chat_init p w env = Ok s →
  conversation_history s = [] ∧ current_config s = default_config p.
Proof.
  destruct p; cbn [chat_init default_config];
    unfold Perplexity.init, OpenAI.init, Groq.init, Anthropic.init, Gemini.init, value_error,
      mbind, result_bind, mret, result_ret;
    intros Hs; repeat case_match; by simplify_eq.
Qed.

Lemma default_model_listed `{PyBuiltins} p :
  chat_update_config p ≠ None → model_listed p (default_config p).
Proof.
  destruct p; cbn; try done; intros _; eexists; (split; [reflexivity |]); vm_compute;
    reflexivity.
Qed.

(** X7: whatever is typed into the loop of a chat and whatever the network
    answers, the instance keeps its shape: the loop never ends by an
    exception of a pass, and after any number of passes the instance has
    the key it was constructed with, the config has exactly the keys that
    the constructor gave it and, in GroqChat, AnthropicChat and GeminiChat,
    the model is one of the list of the class. *)
Theorem chat_loop_keeps_instance_shape `{PyBuiltins} `{PyText} (p : provider) (w : world)
  (env : gmap string string) (s : session) (passes : list pass) :
  chat_init p w env = Ok s →
  let s' := chat_loop p passes s in
  api_key s' = api_key s
  ∧ dom (current_config s') = dom (default_config p)
  ∧ (chat_update_config p ≠ None → model_listed p (current_config s'))
  ∧ ∀ t, ∃ next, (chat_pass p t s').2 = Ok next.
Proof.
  intros Hinit s'. apply chat_init_fresh in Hinit as [_ Hcfg].
  assert (config_has (default_config p) "model" = true) as Hmodel
    by (destruct p; vm_compute; reflexivity).
  destruct (chat_loop_kept p passes s) as (Hkey & Hkeys & Hlisted); [by rewrite Hcfg |].
  fold s' in Hkey, Hkeys, Hlisted. rewrite Hcfg in Hkeys, Hlisted.
  split; [done |]. split; [| split].
  - apply set_eq. intros k. rewrite !elem_of_dom.
    specialize (Hkeys k). unfold config_has in Hkeys.
    by rewrite <- (bool_decide_spec (is_Some (current_config s' !! k))), Hkeys,
      bool_decide_spec.
  - intros Hp. apply Hlisted; [done |]. by apply default_model_listed.
  - intros t. destruct (chat_pass p t s') as [s1 r] eqn:Hpass.
    eapply chat_pass_kept; [| exact Hpass]. by rewrite Hkeys.
Qed.

(** GeminiChat: a model is chosen, a picture is sent, a temperature is
    refused, a message is sent and the history is cleared. *)
Lemma chat_loop_keeps_instance_shape_witness :
  let say line :=
    {| typed := line; answers := Examples.answering gemini;
       path_exists := λ _, true; typed_question := "what is this?" |} in
  let passes :=
    [say "config model=gemini-1.5-flash"; say "imagem cat.png";
     say "config temperature=9"; say "hello"; say "limpar"] in
  let s := Session "sk-test" [] (default_config gemini) in
  let s' := @chat_loop Interp.python Console.python_text gemini passes s in
  api_key s' = api_key s
  ∧ dom (current_config s') = dom (default_config gemini)
  ∧ (@chat_update_config Interp.python gemini ≠ None →
     model_listed gemini (current_config s'))
  ∧ ∀ t, ∃ next, (@chat_pass Interp.python Console.python_text gemini t s').2 = Ok next.
Proof.
  intros say passes s s'.
  apply (@chat_loop_keeps_instance_shape Interp.python Console.python_text gemini
           Examples.offline {["GEMINI_API_KEY" := "sk-test"]} s passes).
  vm_compute. reflexivity.
Defined.

(** ** The one request of a call *)

Section requests.
Context `{PyBuiltins}.

Ltac same_answer Hanswer :=
  match goal with
  | |- context [w_post ?w ?url ?headers ?body] =>
      let Heq := fresh "Heq" in
      assert (w_post w url headers body = w_post _ url headers body) as Heq
        by (specialize (Hanswer _ eq_refl); by simplify_eq);
      rewrite Heq
  | |- context [w_create ?w ?params] =>
      let Heq := fresh "Heq" in
      assert (w_create w params = w_create _ params) as Heq
        by (specialize (Hanswer _ eq_refl); by simplify_eq);
      rewrite Heq
  end.

(** X11: a call of [send_message] makes one request, the one of
    [wire_request]: the full history with the new message of the user, built
    by the builder of the class, with the key of the instance. What the
    call returns and what it leaves behind depend on the network through
    the answer to that request alone, and not at all when the request
    cannot be built. *)
Theorem send_message_makes_one_request (p : provider) (w w' : world) (c : call)
  (s : session) :
  w_process_image w' = w_process_image w →
  (∀ r, wire_request p w c s = Ok r → answer w' r = answer w r) →
  chat_send p w' c s = chat_send p w c s.
Proof.
  intros Himage Hanswer. destruct p; cbn [chat_send wire_request] in *.
  - unfold Perplexity.send_message. unfold_py.
    cbn -[Perplexity.create_request_body raise_for_status py_getitem py_get py_getitem0].
    destruct (Perplexity.create_request_body _ _) as [body | e]; [| done].
    cbn in Hanswer. by same_answer Hanswer.
  - unfold OpenAI.send_message. unfold_py.
    cbn -[OpenAI.create_chat_params drain_stream first_message_content truthy].
    destruct (OpenAI.create_chat_params _ _) as [params | e]; [| done].
    cbn in Hanswer. by same_answer Hanswer.
  - unfold Groq.send_message. unfold_py.
    cbn -[Groq.create_chat_params drain_stream first_message_content truthy
          Groq.api_error_message].
    destruct (Groq.create_chat_params _ _) as [params | e]; [| done].
    cbn in Hanswer. by same_answer Hanswer.
  - unfold Anthropic.send_message. unfold_py.
    cbn -[Anthropic.create_chat_params raise_for_status py_getitem py_get py_getitem0
          Anthropic.api_error_handler].
    destruct (Anthropic.create_chat_params _ _) as [params | e]; [| done].
    cbn in Hanswer. by same_answer Hanswer.
  - unfold Gemini.send_message. unfold_py. rewrite Himage.
    cbn -[Gemini.create_request_data raise_for_status py_getitem py_get py_getitem0 py_contains
          truthy Gemini.request_error_message system_message_for Gemini.image_given
          String.append String.concat Gemini.image_dict] in *.
    destruct (Gemini.image_given (image_path c)).
    + destruct (w_process_image w _) as [data | e]; [| done].
      cbn -[Gemini.create_request_data raise_for_status py_getitem py_get py_getitem0
            py_contains truthy Gemini.request_error_message String.append String.concat
            Gemini.image_dict] in *.
      destruct (config_lookup _ "model") as [model | e]; [| done].
      cbn -[Gemini.create_request_data raise_for_status py_getitem py_get py_getitem0
            py_contains truthy Gemini.request_error_message String.append String.concat
            Gemini.image_dict] in *.
      destruct (Gemini.create_request_data _ _ _) as [data' | e]; [| done].
      cbn -[raise_for_status py_getitem py_get py_getitem0
            py_contains truthy Gemini.request_error_message String.append String.concat
            Gemini.image_dict] in *.
      by same_answer Hanswer.
    + destruct (config_lookup _ "language") as [language | e]; [| done].
      cbn -[Gemini.create_request_data raise_for_status py_getitem py_get py_getitem0
            py_contains truthy Gemini.request_error_message String.append String.concat
            system_message_for] in *.
      destruct (system_message_for _ _) as [system | e]; [| done].
      cbn -[Gemini.create_request_data raise_for_status py_getitem py_get py_getitem0
            py_contains truthy Gemini.request_error_message String.append String.concat] in *.
      destruct (config_lookup _ "model") as [model | e]; [| done].
      cbn -[Gemini.create_request_data raise_for_status py_getitem py_get py_getitem0
            py_contains truthy Gemini.request_error_message String.append String.concat] in *.
      destruct (Gemini.create_request_data _ _ _) as [data' | e]; [| done].
      cbn -[raise_for_status py_getitem py_get py_getitem0
            py_contains truthy Gemini.request_error_message String.append String.concat] in *.
      by same_answer Hanswer.
Qed.

(** GeminiChat builds its request from the call and the config: with
    another history the same things happen, on top of that history. *)
Lemma gemini_send_on_history w c key cfg h1 h2 s1 r1 s2 r2 :
  chat_send gemini w c (Session key h1 cfg) = (s1, r1) →
  chat_send gemini w c (Session key h2 cfg) = (s2, r2) →
  said r1 = said r2
  ∧ current_config s1 = current_config s2
  ∧ ∃ added, conversation_history s1 = h1 ++ added
             ∧ conversation_history s2 = h2 ++ added.
Proof.
  unfold chat_send, Gemini.send_message. unfold_py.
  cbn -[Gemini.create_request_data raise_for_status py_getitem py_get py_getitem0 py_contains
        truthy Gemini.request_error_message system_message_for Gemini.image_given
        String.append String.concat].
  intros H1 H2. cbn [api_key conversation_history current_config] in H1, H2.
  repeat (step H1; cbn [api_key conversation_history current_config] in * ).
  all: repeat match goal with
         | E : ?x = _ |- _ =>
             tryif constr_eq E H2 then fail else
             match type of H2 with
             | context [x] =>
                 rewrite E in H2; cbn beta iota zeta in H2;
                 cbn [api_key conversation_history current_config] in H2
             end
         end.
  all: simplify_eq; cbn.
  all: split; [reflexivity |]; split; [reflexivity |].
  all: first [ by exists []; rewrite !app_nil_r
             | by eexists [_]
             | by eexists [_; _]; rewrite <- !app_assoc ].
Qed.

End requests.

(** ** The history after a run with failures *)

Section mixed_runs.
Context `{PyBuiltins}.

Lemma exchange_length p w c s s' r :
  exchange p w c s s' r →
  length (conversation_history s) ≤ length (conversation_history s')
  ∧ length (conversation_history s') ≤ length (conversation_history s) + 2
  ∧ (p ≠ gemini → returned r = true →
     length (conversation_history s') = length (conversation_history s) + entries_added r).
Proof.
  unfold entries_added.
  destruct 1 as [entries content entry Hhist _ Herr _ _ | msg Hhist _ | msg -> _ Hhist
                | e _ _ Hhist | e entry _ _ Hhist _];
    rewrite Hhist, ?length_app; cbn; try rewrite Herr; cbn; repeat split; try lia; done.
Qed.

(** X15: over any run of calls, failed ones included, the history only
    grows, by at most two entries a call; in the four classes other than
    GeminiChat, when every call returned, it grows by exactly two entries
    for each answered call and one for each call that returned an error,
    so the user entry of a failed call stays and goes out again with every
    later request. *)
Theorem chat_run_history_length (p : provider) (calls : list (world * call)) :
  ∀ s s' results,
  chat_run p calls s = (s', results) →
  length results = length calls
  ∧ length (conversation_history s) ≤ length (conversation_history s')
  ∧ length (conversation_history s') ≤ length (conversation_history s) + 2 * length calls
  ∧ (p ≠ gemini → forallb returned results = true →
     length (conversation_history s')
       = length (conversation_history s) + sum_list (map entries_added results)).
Proof.
  induction calls as [| [w c] calls IH]; intros s s' results Hrun.
  - cbn in Hrun. simplify_eq. cbn. repeat split; intros; lia.
  - cbn [chat_run] in Hrun.
    destruct (chat_send p w c s) as [s1 r] eqn:Hsend.
    destruct (chat_run p calls s1) as [s2 rs] eqn:Hrest.
    simplify_eq. apply chat_send_exchange, exchange_length in Hsend as (Hlow & Hhigh & Hexact).
    destruct (IH _ _ _ Hrest) as (Hlen & Hlow' & Hhigh' & Hexact').
    cbn [length map sum_list forallb]. repeat split; try lia.
    intros Hp [Hr Hrs]%andb_prop. rewrite Hexact', Hexact by done.
    unfold id. lia.
Qed.

End mixed_runs.

(** ** What the requests take from the config *)

Section wire.
Context `{PyBuiltins}.

(** The temperature of a request is the entry of the config. *)
Lemma wire_temperature_is_config p w c s r :
  wire_request p w c s = Ok r →
  ∃ t, current_config s !! "temperature" = Some t ∧ wire_temperature p r = Ok t.
Proof.
  unfold wire_request, wire_temperature.
  destruct p.
  - unfold Perplexity.create_request_body, config_lookup, mbind, result_bind, mret, result_ret,
      key_error.
    intros Hr. repeat step Hr. all: simplify_eq; eexists; split; reflexivity.
  - unfold OpenAI.create_chat_params, config_lookup, fmap, result_fmap, mbind, result_bind,
      mret, result_ret, key_error.
    intros Hr. repeat step Hr. all: simplify_eq; eexists; split; reflexivity.
  - unfold Groq.create_chat_params, config_lookup, fmap, result_fmap, mbind, result_bind,
      mret, result_ret, key_error.
    intros Hr. repeat step Hr. all: simplify_eq; eexists; split; reflexivity.
  - unfold Anthropic.create_chat_params, config_lookup, mbind, result_bind, mret, result_ret,
      key_error.
    intros Hr. repeat step Hr. all: simplify_eq; eexists; split; reflexivity.
  - unfold Gemini.create_request_data, mbind, result_bind, mret, result_ret.
    intros Hr. repeat step Hr. all: simplify_eq.
    all: repeat match goal with
           | E : config_lookup _ _ = Ok _ |- _ =>
               unfold config_lookup, key_error in E; repeat step E; simplify_eq
           end.
    all: rewrite ?lookup_insert_ne in * by done.
    all: eexists; split; [first [eassumption | reflexivity] | reflexivity].
Qed.

(** AnthropicChat reads four keys of the config: two configs that agree
    on them give the same call. *)
Lemma anthropic_send_reads w c key h cfg1 cfg2 s1 r1 s2 r2 :
  (∀ k, k ∈ ["model"; "temperature"; "max_tokens"; "system"] → cfg1 !! k = cfg2 !! k) →
  chat_send anthropic w c (Session key h cfg1) = (s1, r1) →
  chat_send anthropic w c (Session key h cfg2) = (s2, r2) →
  r1 = r2
  ∧ conversation_history s1 = conversation_history s2
  ∧ current_config s1 = cfg1 ∧ current_config s2 = cfg2.
Proof.
  intros Hsame.
  assert (∀ messages, Anthropic.create_chat_params cfg1 messages
                      = Anthropic.create_chat_params cfg2 messages) as Hparams.
  { intros messages. unfold Anthropic.create_chat_params, config_lookup.
    rewrite !Hsame; [done | | | |]; set_solver. }
  assert (config_lookup cfg1 "model" = config_lookup cfg2 "model") as Hmodel.
  { unfold config_lookup. rewrite Hsame; [done | set_solver]. }
  unfold chat_send, Anthropic.send_message, Anthropic.api_error_handler. unfold_py.
  cbn -[Anthropic.create_chat_params raise_for_status py_getitem py_get py_getitem0 Z.eqb
        String.append String.concat config_lookup].
  rewrite Hparams.
  intros H1 H2.
  repeat (step H1; cbn [api_key conversation_history current_config] in *;
          rewrite ?Hmodel in * ).
  all: repeat match goal with
         | E : ?x = _ |- _ =>
             tryif constr_eq E H2 then fail else
             match type of H2 with
             | context [x] =>
                 rewrite E in H2; cbn beta iota zeta in H2;
                 cbn [api_key conversation_history current_config] in H2
             end
         end.
  all: simplify_eq; cbn; done.
Qed.

End wire.

(** ** Streamed and plain answers *)

Section sdk_answers.
Context `{PyBuiltins}.

(** A call of OpenAIChat or GroqChat whose request is answered and read
    without an exception appends the content and returns it. *)
Lemma sdk_send_answered p build w c s params flag stream content :
  p = openai ∨ p = groq →
  build_messages_request p = Some build →
  build (current_config s) (conversation_history s ++ [mk_user_message (message c)])
    = Ok params →
  w_create w params = Ok stream →
  current_config s !! "stream" = Some flag →
  (if truthy flag then VStr <$> drain_stream stream else first_message_content stream)
    = Ok content →
  let history :=
    conversation_history s ++ [mk_user_message (message c); mk_assistant_message content] in
  chat_send p w c s
    = (Session (api_key s) history (current_config s), Ok (sdk_answer p content history)).
Proof.
  intros Hp Hbuild Hparams Hcreate Hflag Hread history. subst history.
  apply config_lookup_Some in Hflag.
  destruct Hp as [-> | ->]; cbn in Hbuild; simplify_eq;
    unfold chat_send, OpenAI.send_message, Groq.send_message; unfold_py;
    cbn -[OpenAI.create_chat_params Groq.create_chat_params drain_stream
          first_message_content truthy config_lookup];
    rewrite Hparams, Hcreate;
    cbn -[drain_stream first_message_content truthy config_lookup];
    rewrite Hflag; destruct (truthy flag);
    cbn -[drain_stream first_message_content config_lookup] in *.
  all: try (destruct (drain_stream stream) as [text | e]; [| done]; cbn in Hread).
  all: try rewrite Hread.
  all: simplify_eq; cbn; rewrite <- ?app_assoc; done.
Qed.

End sdk_answers.

(** ** Calls and their requests *)

(** PerplexityChat: a network that answers the request of the call and is
    down for every other one. *)
Lemma send_message_makes_one_request_witness :
  let w := Examples.answering perplexity in
  let expected :=
    VDict [("model", VStr "llama-3.1-sonar-small-128k-online");
           ("messages",
             VList [mk_system_message "Você é um assistente prestativo. Responda sempre em português do Brasil de forma clara e natural.";
                    mk_user_message "hello"]);
           ("temperature", VFloat 0.2); ("top_p", VFloat 0.9); ("top_k", VInt 0);
           ("presence_penalty", VInt 0); ("frequency_penalty", VInt 1);
           ("return_citations", VBool true); ("return_related_questions", VBool false)] in
  let w' := {|
    w_post := λ url headers body,
      if String.eqb (@py_repr Interp.python body) (@py_repr Interp.python expected)
      then w_post w url headers body
      else w_post Examples.offline url headers body;
    w_create := w_create Examples.offline;
    w_new_client := w_new_client w;
    w_process_image := w_process_image w |} in
  @chat_send Interp.python perplexity w' Examples.hello (Examples.fresh perplexity)
  = @chat_send Interp.python perplexity w Examples.hello (Examples.fresh perplexity).
Proof.
  intros w expected w'.
  apply (@send_message_makes_one_request Interp.python perplexity w w'); [reflexivity |].
  intros r Hr. vm_compute in Hr. injection Hr as <-. vm_compute. reflexivity.
Defined.

(** X12: GeminiChat has no memory: a call reads the message, the image and
    the config, never the history. On two instances that differ in their
    history alone, the same call says the same (the same answer or the same
    error), leaves the same config and appends the same entries. *)
Theorem gemini_call_ignores_history `{PyBuiltins} (w : world) (c : call) (key : string)
  (cfg : gmap string PyVal) (h1 h2 : list PyVal) :
  let sent1 := chat_send gemini w c (Session key h1 cfg) in
  let sent2 := chat_send gemini w c (Session key h2 cfg) in
  said sent1.2 = said sent2.2
  ∧ current_config sent1.1 = current_config sent2.1
  ∧ ∃ added, conversation_history sent1.1 = h1 ++ added
             ∧ conversation_history sent2.1 = h2 ++ added.
Proof.
  intros sent1 sent2.
  eapply gemini_send_on_history; apply surjective_pairing.
Qed.

(** X13: AnthropicChat reads four keys of its config, [model],
    [temperature], [max_tokens] and [system]: two instances whose configs
    agree on them return the same to the same call. The key [language],
    which the help of the loop describes as the language of the answers,
    has no effect on a call. *)
Theorem anthropic_call_reads_four_keys `{PyBuiltins} (w : world) (c : call) (key : string)
  (h : list PyVal) (cfg1 cfg2 : gmap string PyVal) :
  (∀ k, k ∈ ["model"; "temperature"; "max_tokens"; "system"] → cfg1 !! k = cfg2 !! k) →
  let sent1 := chat_send anthropic w c (Session key h cfg1) in
  let sent2 := chat_send anthropic w c (Session key h cfg2) in
  sent1.2 = sent2.2
  ∧ conversation_history sent1.1 = conversation_history sent2.1.
Proof.
  intros Hsame sent1 sent2.
  destruct (anthropic_send_reads w c key h cfg1 cfg2 sent1.1 sent1.2 sent2.1 sent2.2 Hsame
              (surjective_pairing _) (surjective_pairing _)) as (Hr & Hhist & _).
  by split.
Qed.

(** The language is switched to English. *)
Lemma anthropic_call_reads_four_keys_witness :
  let cfg1 := default_config anthropic in
  let cfg2 := <["language" := VStr "en"]> (default_config anthropic) in
  let sent1 := @chat_send Interp.python anthropic (Examples.answering anthropic)
                 Examples.hello (Session "sk-test" [] cfg1) in
  let sent2 := @chat_send Interp.python anthropic (Examples.answering anthropic)
                 Examples.hello (Session "sk-test" [] cfg2) in
  sent1.2 = sent2.2 ∧ conversation_history sent1.1 = conversation_history sent2.1.
Proof.
  intros cfg1 cfg2.
  apply (@anthropic_call_reads_four_keys Interp.python (Examples.answering anthropic)
           Examples.hello "sk-test" [] cfg1 cfg2).
  intros k Hk. subst cfg2. rewrite lookup_insert_ne; [done |].
  intros <-. repeat (apply elem_of_cons in Hk as [Hk | Hk]; [discriminate |]).
  by apply elem_of_nil in Hk.
Defined.

(** X14: in OpenAIChat and GroqChat a streamed answer and a plain one are
    the same exchange: when the deltas of the stream, all readable, spell
    the content of the plain completion, the two calls return the same
    dict and leave the same history. *)
Theorem streamed_and_plain_answers_agree `{PyBuiltins} (p : provider)
  (build : gmap string PyVal → list PyVal → result PyVal) (w1 w2 : world) (c : call)
  (s1 s2 : session) (params1 params2 flag1 flag2 : PyVal) (items : list stream_item)
  (choices : list PyVal) :
  p = openai ∨ p = groq →
  build_messages_request p = Some build →
  conversation_history s1 = conversation_history s2 →
  build (current_config s1) (conversation_history s1 ++ [mk_user_message (message c)])
    = Ok params1 →
  build (current_config s2) (conversation_history s2 ++ [mk_user_message (message c)])
    = Ok params2 →
  current_config s1 !! "stream" = Some flag1 → truthy flag1 = true →
  current_config s2 !! "stream" = Some flag2 → truthy flag2 = false →
  w_create w1 params1 = Ok (SdkStream items) →
  Forall readable items →
  w_create w2 params2
    = Ok (SdkCompletion {| completion_choices := VStr (delta_text items) :: choices |}) →
  (chat_send p w1 c s1).2 = (chat_send p w2 c s2).2
  ∧ conversation_history (chat_send p w1 c s1).1
      = conversation_history (chat_send p w2 c s2).1.
Proof.
  intros Hp Hbuild Hhist Hparams1 Hparams2 Hflag1 Htruthy1 Hflag2 Htruthy2 Hstream Hitems
    Hplain.
  rewrite (sdk_send_answered p build w1 c s1 params1 flag1 _ (VStr (delta_text items))
             Hp Hbuild Hparams1 Hstream Hflag1).
  - rewrite (sdk_send_answered p build w2 c s2 params2 flag2 _ (VStr (delta_text items))
               Hp Hbuild Hparams2 Hplain Hflag2).
    + cbn [fst snd conversation_history]. by rewrite Hhist.
    + by rewrite Htruthy2.
  - rewrite Htruthy1. unfold drain_stream.
    rewrite (consume_stream_readable _ _ Hitems).
    by change (EmptyString +:+ delta_text items) with (delta_text items).
Qed.

(** GroqChat with the stream flag on and off, and a network that sends
    the same text in two deltas and in one completion. *)
Lemma streamed_and_plain_answers_agree_witness :
  let s1 := Examples.fresh groq in
  let s2 := Session "sk-test" [] (<["stream" := VBool false]> (default_config groq)) in
  let w1 := Examples.answering groq in
  let w2 := {|
    w_post := w_post w1;
    w_create := λ _, Ok (SdkCompletion {| completion_choices := [VStr "Hi there"] |});
    w_new_client := w_new_client w1;
    w_process_image := w_process_image w1 |} in
  (@chat_send Interp.python groq w1 Examples.hello s1).2
    = (@chat_send Interp.python groq w2 Examples.hello s2).2
  ∧ conversation_history (@chat_send Interp.python groq w1 Examples.hello s1).1
      = conversation_history (@chat_send Interp.python groq w2 Examples.hello s2).1.
Proof.
  intros s1 s2 w1 w2.
  refine (@streamed_and_plain_answers_agree Interp.python groq Groq.create_chat_params
            w1 w2 Examples.hello s1 s2 _ _ (VBool true) (VBool false) Examples.cut_stream []
            (or_intror eq_refl) eq_refl eq_refl _ _ _ eq_refl _ eq_refl eq_refl _ _).
  - vm_compute. reflexivity.
  - vm_compute. reflexivity.
  - vm_compute. reflexivity.
  - vm_compute. reflexivity.
  - repeat constructor; discriminate.
  - vm_compute. reflexivity.
Defined.

(** AnthropicChat: a call while the network is down, then one that is
    answered. *)
Lemma chat_run_history_length_witness :
  let run := @chat_run Interp.python anthropic
               [(Examples.offline, Examples.hello);
                (Examples.answering anthropic, Examples.hello)]
               (Examples.fresh anthropic) in
  length (conversation_history run.1)
    = length (conversation_history (Examples.fresh anthropic))
      + sum_list (map entries_added run.2).
Proof.
  intros run.
  apply (proj2 (proj2 (proj2 (@chat_run_history_length Interp.python anthropic
           [(Examples.offline, Examples.hello);
            (Examples.answering anthropic, Examples.hello)]
           (Examples.fresh anthropic) run.1 run.2 (surjective_pairing _))))).
  - discriminate.
  - vm_compute. reflexivity.
Defined.

(** X16: the temperature of a request is the entry of the config as it
    is stored. After [config temperature=v] was accepted, the requests of
    PerplexityChat and OpenAIChat carry the number [float(v)], and those of
    GroqChat, AnthropicChat and GeminiChat carry the text [v] itself, as a
    string. *)
Theorem config_temperature_on_the_wire `{PyBuiltins} (p : provider) (v : string)
  (s s1 : session) (w : world) (c : call) (r : request) :
  config_has (current_config s) "temperature" = true →
  chat_config p [("temperature", v)] s = (s1, Ok tt) →
  wire_request p w c s1 = Ok r →
  ∃ t, wire_temperature p r = Ok t
       ∧ match chat_update_config p with
         | None => ∃ f, py_float (VStr v) = Ok f ∧ t = VFloat f
         | Some _ => t = VStr v
         end.
Proof.
  intros Hkey Hconfig Hrequest.
  destruct (wire_temperature_is_config _ _ _ _ _ Hrequest) as (t & Hstored & Hwire).
  exists t. split; [done |].
  destruct p; cbn [chat_update_config].
  - destruct (config_command_stores_converted perplexity _ _ _ _ (or_introl eq_refl)
                Hkey Hconfig) as (converted & Hconverted & Hnew).
    unfold Perplexity.convert_value in Hconverted.
    rewrite bool_decide_eq_true_2 in Hconverted by left.
    destruct (py_float (VStr v)) as [f | e]; cbn in Hconverted; [| done].
    simplify_eq. exists f. split; [done |]. congruence.
  - destruct (config_command_stores_converted openai _ _ _ _ (or_intror eq_refl)
                Hkey Hconfig) as (converted & Hconverted & Hnew).
    unfold OpenAI.convert_value in Hconverted.
    rewrite bool_decide_eq_true_2 in Hconverted by left.
    destruct (py_float (VStr v)) as [f | e]; cbn in Hconverted; [| done].
    simplify_eq. exists f. split; [done |]. congruence.
  - pose proof (update_config_stores_raw_text groq _ _ _ _ (or_introl eq_refl)
                  Hkey Hconfig). congruence.
  - pose proof (update_config_stores_raw_text anthropic _ _ _ _
                  (or_intror (or_introl eq_refl)) Hkey Hconfig). congruence.
  - pose proof (update_config_stores_raw_text gemini _ _ _ _
                  (or_intror (or_intror eq_refl)) Hkey Hconfig). congruence.
Qed.

(** GeminiChat after [config temperature=0.5]. *)
Lemma config_temperature_on_the_wire_witness :
  let s1 := Session "sk-test" [] (<["temperature" := VStr "0.5"]> (default_config gemini)) in
  ∃ r t,
    @wire_request Interp.python gemini (Examples.answering gemini) Examples.hello s1 = Ok r
    ∧ wire_temperature gemini r = Ok t
    ∧ t = VStr "0.5".
Proof.
  intros s1.
  destruct (@wire_request Interp.python gemini (Examples.answering gemini) Examples.hello s1)
    as [r | e] eqn:Hrequest; [| vm_compute in Hrequest; discriminate Hrequest].
  destruct (@config_temperature_on_the_wire Interp.python gemini "0.5"
              (Examples.fresh gemini) s1 (Examples.answering gemini) Examples.hello r
              ltac:(vm_compute; reflexivity) ltac:(vm_compute; reflexivity) Hrequest)
    as (t & Hwire & Ht).
  exists r, t. split; [reflexivity |]. split; [exact Hwire | exact Ht].
Defined.

(** ** The settings dialogue *)

Section keeping.
Context (I : session → Prop).

Lemma keeps_ret {A} (a : A) : keeps I (mret a).
Proof. intros s s' r Hrun. unfold_py. by simplify_eq. Qed.

Lemma keeps_lift {A} (x : result A) : keeps I (lift x).
Proof. intros s s' r Hrun. unfold_py. by simplify_eq. Qed.

Lemma keeps_config_get k : keeps I (config_get k).
Proof. intros s s' r Hrun. unfold_py. by simplify_eq. Qed.

Lemma keeps_bind {A B} (m : Py A) (k : A → Py B) :
  keeps I m → (∀ a, keeps I (k a)) → keeps I (m ≫= k).
Proof.
  intros Hm Hk s s' r Hrun Hs. unfold mbind, Py_bind in Hrun.
  destruct (m s) as [s1 [a | e]] eqn:Hfirst.
  - eapply Hk; [exact Hrun |]. by eapply Hm.
  - simplify_eq. by eapply Hm.
Qed.

(** What follows a conversion runs only on a value it gave. *)
Lemma keeps_bind_lift {A B} (x : result A) (k : A → Py B) :
  (∀ a, x = Ok a → keeps I (k a)) → keeps I (lift x ≫= k).
Proof.
  intros Hk s s' r Hrun Hs. unfold mbind, Py_bind, lift in Hrun.
  destruct x as [a | e]; [by eapply Hk | by simplify_eq].
Qed.

Lemma keeps_try_except {A} (body : Py A) (handler : exn → Py A) :
  keeps I body → (∀ e, keeps I (handler e)) →
  keeps I (try_except body [(any_Exception, handler)]).
Proof.
  intros Hbody Hhandler s s' r Hrun Hs. unfold try_except in Hrun.
  destruct (body s) as [s1 [a | e]] eqn:Hfirst.
  - simplify_eq. by eapply Hbody.
  - cbn in Hrun. eapply Hhandler; [exact Hrun |]. by eapply Hbody.
Qed.

End keeping.

Section settings.
Context `{PyBuiltins} `{PyText}.

Lemma settled_refl p s : settled p s s.
Proof. by repeat split. Qed.

(** An assignment to a key that the config has, of a listed model if the
    key is the model. *)
Lemma keeps_settled_config_set p s0 k v :
  config_has (current_config s0) k = true →
  (k = "model" → in_models v (available_models p) = true) →
  keeps (settled p s0) (config_set k v).
Proof.
  intros Hk Hv s s' r Hrun (Hkey & Hhist & Hkeys & Hlisted). unfold_py. simplify_eq.
  split; [done |]. split; [done |]. cbn [current_config]. split.
  - intros k'. rewrite <- Hkeys. apply config_has_insert. by rewrite Hkeys.
  - intros Hmodel. apply model_listed_insert; auto.
Qed.

Lemma list_getitem_elem {A} (items : list A) i x : list_getitem items i = Ok x → x ∈ items.
Proof.
  unfold list_getitem, index_error. intros Hx.
  destruct (_ <? 0)%Z; [done |].
  destruct (items !! _) as [y |] eqn:Hy; simplify_eq.
  by eapply list_elem_of_lookup_2.
Qed.

Lemma in_models_elem model models : model ∈ models → in_models (VStr model) models = true.
Proof. intros Hin. by apply bool_decide_eq_true. Qed.

Lemma config_has_default p cfg k :
  has_default_keys p cfg → is_Some (default_config p !! k) → config_has cfg k = true.
Proof. intros Hkeys Hk. apply bool_decide_eq_true. by apply Hkeys. Qed.

Ltac default_has Hkeys :=
  eapply config_has_default; [exact Hkeys | eexists; vm_compute; reflexivity].

Ltac keep_settled Hkeys :=
  repeat first
    [ apply keeps_ret
    | apply keeps_lift
    | apply keeps_config_get
    | apply keeps_settled_config_set;
      [ default_has Hkeys
      | first [ discriminate
              | intros _; apply in_models_elem; eapply list_getitem_elem; eassumption ] ]
    | apply keeps_bind_lift; intros ? ?
    | apply keeps_bind; [| intros ?]
    | apply keeps_try_except; [| intros ?]
    | match goal with |- keeps _ (if ?b then _ else _) => destruct b end
    | match goal with |- keeps _ (fmap _ _) => unfold fmap, Py_fmap end ].

Lemma perplexity_configure_settings_settled a s0 :
  has_default_keys perplexity (current_config s0) →
  keeps (settled perplexity s0) (PerplexityChat.configure_settings a).
Proof.
  intros Hkeys. unfold PerplexityChat.configure_settings, PerplexityChat.show_current_config.
  keep_settled Hkeys.
Qed.

Lemma openai_configure_settings_settled a s0 :
  has_default_keys openai (current_config s0) →
  keeps (settled openai s0) (OpenAIChat.configure_settings a).
Proof.
  intros Hkeys. unfold OpenAIChat.configure_settings, OpenAIChat.show_current_config.
  keep_settled Hkeys.
Qed.

End settings.

Section dialogue.
Context `{PyBuiltins} `{PyText}.

Lemma try_except_unit_returns (body : Py unit) s :
  (try_except body [(any_Exception, λ _, mret tt)] s).2 = Ok tt.
Proof. unfold try_except. unfold_py. by destruct (body s) as [s1 [[] | e]]. Qed.

Lemma Py_bind_returns {A B} (m : Py A) (k : A → Py B) s s1 a :
  m s = (s1, Ok a) → (m ≫= k) s = k a s1.
Proof. intros Hm. unfold mbind, Py_bind. by rewrite Hm. Qed.

Lemma openai_configure_settings_returns a s :
  is_Some (current_config s !! "language") →
  (OpenAIChat.configure_settings a s).2 = Ok tt.
Proof.
  intros [language Hlanguage]. unfold OpenAIChat.configure_settings.
  erewrite Py_bind_returns; [apply try_except_unit_returns |].
  unfold_py. unfold config_lookup. by rewrite Hlanguage.
Qed.

End dialogue.

(** X8: the settings dialogue of PerplexityChat and OpenAIChat changes
    values only, on an instance that has the keys of the constructor: the
    key, the history and the set of keys of the config stay, and a model
    that was one of the list still is, whatever is typed and whether the
    dialogue returns or stops at an answer that is no number. The dialogue
    of OpenAIChat always returns. *)
Theorem configure_settings_keeps_instance_shape `{PyBuiltins} `{PyText} :
  (∀ a s,
     has_default_keys perplexity (current_config s) →
     settled perplexity s (PerplexityChat.configure_settings a s).1)
  ∧ (∀ a s,
       has_default_keys openai (current_config s) →
       settled openai s (OpenAIChat.configure_settings a s).1
       ∧ (OpenAIChat.configure_settings a s).2 = Ok tt).
Proof.
  split.
  - intros a s Hkeys.
    eapply perplexity_configure_settings_settled;
      [exact Hkeys | apply surjective_pairing | apply settled_refl].
  - intros a s Hkeys. split.
    + eapply openai_configure_settings_settled;
        [exact Hkeys | apply surjective_pairing | apply settled_refl].
    + apply openai_configure_settings_returns. apply Hkeys. eexists. vm_compute. reflexivity.
Qed.

(** PerplexityChat: the second model is chosen, then the temperature typed
    is no number. *)
Lemma configure_settings_keeps_instance_shape_witness :
  let a := {| PerplexityChat.lang_choice := "2"; PerplexityChat.model_choice := "2";
              PerplexityChat.temp := "warm"; PerplexityChat.top_p := EmptyString;
              PerplexityChat.max_tokens := EmptyString;
              PerplexityChat.recency := EmptyString;
              PerplexityChat.citations := EmptyString |} in
  settled perplexity (Examples.fresh perplexity)
    (@PerplexityChat.configure_settings Interp.python Console.python_text a
       (Examples.fresh perplexity)).1.
Proof.
  intros a.
  apply (proj1 (@configure_settings_keeps_instance_shape Interp.python Console.python_text)).
  apply default_config_has_default_keys.
Defined.

(** X9: as its first line says, the settings dialogue keeps every value at
    whose prompt the user just presses Enter: with an empty answer to every
    prompt it returns and the instance is what it was. *)
Theorem configure_settings_enter_keeps_values `{PyBuiltins} `{PyText} (s : session) :
  str_isdigit EmptyString = false →
  str_lower EmptyString = EmptyString →
  (has_default_keys perplexity (current_config s) →
     PerplexityChat.configure_settings
       {| PerplexityChat.lang_choice := EmptyString;
          PerplexityChat.model_choice := EmptyString;
          PerplexityChat.temp := EmptyString; PerplexityChat.top_p := EmptyString;
          PerplexityChat.max_tokens := EmptyString; PerplexityChat.recency := EmptyString;
          PerplexityChat.citations := EmptyString |} s = (s, Ok tt))
  ∧ (has_default_keys openai (current_config s) →
       OpenAIChat.configure_settings
         {| OpenAIChat.lang_choice := EmptyString; OpenAIChat.model_choice := EmptyString;
            OpenAIChat.temp := EmptyString; OpenAIChat.top_p := EmptyString;
            OpenAIChat.max_tokens := EmptyString; OpenAIChat.stream := EmptyString |} s
         = (s, Ok tt)).
Proof.
  intros Hdigit Hlower. split; intros Hkeys.
  - default_key Hkeys "language" language Hlanguage.
    default_key Hkeys "model" model Hmodel.
    default_key Hkeys "temperature" temperature Htemperature.
    default_key Hkeys "top_p" top_p Htop_p.
    default_key Hkeys "max_tokens" limit Hlimit.
    default_key Hkeys "search_recency_filter" recency Hrecency.
    default_key Hkeys "return_citations" citations Hcitations.
    unfold PerplexityChat.configure_settings, PerplexityChat.show_current_config. unfold_py.
    cbn [PerplexityChat.lang_choice PerplexityChat.model_choice PerplexityChat.temp
         PerplexityChat.top_p PerplexityChat.max_tokens PerplexityChat.recency
         PerplexityChat.citations].
    rewrite Hdigit, Hlower, (bool_decide_eq_false_2 (EmptyString ∈ ["true"; "false"]))
      by (intros Hin; repeat (apply elem_of_cons in Hin as [Hin | Hin]; [discriminate |]);
          by apply elem_of_nil in Hin).
    cbn. unfold config_lookup.
    by rewrite Hlanguage, Hmodel, Htemperature, Htop_p, Hlimit, Hrecency, Hcitations.
  - default_key Hkeys "language" language Hlanguage.
    default_key Hkeys "model" model Hmodel.
    default_key Hkeys "temperature" temperature Htemperature.
    default_key Hkeys "top_p" top_p Htop_p.
    default_key Hkeys "max_tokens" limit Hlimit.
    default_key Hkeys "stream" stream Hstream.
    unfold OpenAIChat.configure_settings, OpenAIChat.show_current_config. unfold_py.
    cbn [OpenAIChat.lang_choice OpenAIChat.model_choice OpenAIChat.temp
         OpenAIChat.top_p OpenAIChat.max_tokens OpenAIChat.stream].
    rewrite Hdigit, Hlower, (bool_decide_eq_false_2 (EmptyString ∈ ["true"; "false"]))
      by (intros Hin; repeat (apply elem_of_cons in Hin as [Hin | Hin]; [discriminate |]);
          by apply elem_of_nil in Hin).
    cbn. unfold config_lookup.
    rewrite Hlanguage. cbn.
    by rewrite Hlanguage, Hmodel, Htemperature, Htop_p, Hlimit, Hstream.
Qed.

(** OpenAIChat with its first config. *)
Lemma configure_settings_enter_keeps_values_witness :
  @OpenAIChat.configure_settings Interp.python Console.python_text
    {| OpenAIChat.lang_choice := EmptyString; OpenAIChat.model_choice := EmptyString;
       OpenAIChat.temp := EmptyString; OpenAIChat.top_p := EmptyString;
       OpenAIChat.max_tokens := EmptyString; OpenAIChat.stream := EmptyString |}
    (Examples.fresh openai)
  = (Examples.fresh openai, Ok tt).
Proof.
  apply (proj2 (@configure_settings_enter_keeps_values Interp.python Console.python_text
                  (Examples.fresh openai) eq_refl eq_refl)).
  apply default_config_has_default_keys.
Defined.

Lemma Py_bind_returned {A B} (m : Py A) (k : A → Py B) s s' b :
  (m ≫= k) s = (s', Ok b) → ∃ s1 a, m s = (s1, Ok a) ∧ k a s1 = (s', Ok b).
Proof.
  unfold mbind, Py_bind. destruct (m s) as [s1 [a | e]]; [by eexists _, _ | done].
Qed.

Lemma recency_outside_menu choice :
  choice ∉ ["1"; "2"; "3"; "4"] →
  default VNone (PerplexityChat.recency_options !! choice) = VNone.
Proof.
  intros Hout. unfold PerplexityChat.recency_options. cbn [list_to_map foldr uncurry].
  rewrite !lookup_insert_ne by (intros <-; apply Hout; set_solver).
  destruct (decide (choice = "5")) as [-> | Hfive].
  - by rewrite lookup_insert_eq.
  - by rewrite lookup_insert_ne, lookup_empty.
Qed.

(** X10: in the settings dialogue of PerplexityChat the answer to the
    recency prompt is looked up in the menu of five numbers: every answer
    that is not empty and not one of 1 to 4, such as the word [week] that
    the menu shows, clears the filter. *)
Theorem configure_settings_recency_outside_menu `{PyBuiltins} `{PyText}
  (a : PerplexityChat.typed_settings) (s s' : session) :
  PerplexityChat.configure_settings a s = (s', Ok tt) →
  PerplexityChat.recency a ≠ EmptyString →
  PerplexityChat.recency a ∉ ["1"; "2"; "3"; "4"] →
  current_config s' !! "search_recency_filter" = Some VNone.
Proof.
  intros Hrun Hanswer Hmenu. unfold PerplexityChat.configure_settings in Hrun.
  do 12 (apply Py_bind_returned in Hrun as (? & ? & _ & Hrun)).
  apply Py_bind_returned in Hrun as (s1 & ? & Hset & Hrun).
  rewrite truthy_str, recency_outside_menu in Hset by done.
  unfold config_set in Hset. simplify_eq.
  assert (keeps (λ s, current_config s !! "search_recency_filter" = Some VNone)
            (config_get "return_citations" ;;
             (if bool_decide (str_lower (PerplexityChat.citations a) ∈ ["true"; "false"])
              then config_set "return_citations"
                     (VBool (String.eqb (str_lower (PerplexityChat.citations a)) "true"))
              else mret tt) ;;
             PerplexityChat.show_current_config)) as Hkeeps.
  { unfold PerplexityChat.show_current_config.
    repeat first
      [ apply keeps_ret | apply keeps_config_get | apply keeps_bind; [| intros ?]
      | match goal with |- keeps _ (if ?b then _ else _) => destruct b end ].
    intros s2 s3 r Hset Hs2. unfold config_set in Hset. simplify_eq.
    cbn [current_config]. by rewrite lookup_insert_ne. }
  eapply Hkeeps; [exact Hrun |]. cbn [current_config]. apply lookup_insert_eq.
Qed.

(** The first config, all prompts passed with Enter but the recency,
    where [week] is typed. *)
Lemma configure_settings_recency_outside_menu_witness :
  let a := {| PerplexityChat.lang_choice := EmptyString;
              PerplexityChat.model_choice := EmptyString;
              PerplexityChat.temp := EmptyString; PerplexityChat.top_p := EmptyString;
              PerplexityChat.max_tokens := EmptyString;
              PerplexityChat.recency := "week";
              PerplexityChat.citations := EmptyString |} in
  let s := Session "sk-test" []
             (<["search_recency_filter" := VStr "day"]> (default_config perplexity)) in
  current_config (@PerplexityChat.configure_settings Interp.python Console.python_text a s).1
    !! "search_recency_filter" = Some VNone.
Proof.
  intros a s.
  apply (@configure_settings_recency_outside_menu Interp.python Console.python_text a s).
  - vm_compute. reflexivity.
  - discriminate.
  - intros Hin. repeat (apply elem_of_cons in Hin as [Hin | Hin]; [discriminate |]).
    by apply elem_of_nil in Hin.
Defined.

(** ** The history across the passes of a loop *)

Section loop_histories.
Context `{PyBuiltins} `{PyText}.




End loop_histories.

(** ** Saving the conversation *)

Section saving.
Context `{PyBuiltins} `{PyText}.

Lemma message_entry_user text : message_entry (mk_user_message text).
Proof. by eexists _, _. Qed.

Lemma message_entry_assistant content : message_entry (mk_assistant_message content).
Proof. by eexists _, _. Qed.

Ltac entries_done :=
  simplify_eq; cbn [conversation_history];
  first
    [ exists []; split; [by rewrite app_nil_r | constructor]
    | eexists [_]; split; [reflexivity |];
      repeat constructor; auto using message_entry_user, message_entry_assistant
    | eexists [_; _]; split; [by rewrite <- app_assoc |];
      repeat constructor; auto using message_entry_user, message_entry_assistant ].

(** The four classes that build the entry of the answer themselves append
    entries of a role and a content only. *)
Lemma chat_send_entries p w c s s' r :
  p ≠ perplexity →
  chat_send p w c s = (s', r) →
  ∃ added, conversation_history s' = conversation_history s ++ added
           ∧ Forall message_entry added.
Proof.
  intros Hp. destruct p; [done | | | |].
  - unfold chat_send, OpenAI.send_message. unfold_py.
    cbn -[OpenAI.create_chat_params drain_stream first_message_content truthy].
    intros Hs. repeat step Hs. all: entries_done.
  - unfold chat_send, Groq.send_message, Groq.api_error_message. unfold_py.
    cbn -[Groq.create_chat_params drain_stream first_message_content truthy str_contains
          String.append String.concat].
    intros Hs. repeat step Hs. all: entries_done.
  - unfold chat_send, Anthropic.send_message, Anthropic.api_error_handler. unfold_py.
    cbn -[Anthropic.create_chat_params raise_for_status py_getitem py_get py_getitem0 Z.eqb
          String.append String.concat].
    intros Hs. repeat step Hs. all: entries_done.
  - unfold chat_send, Gemini.send_message. unfold_py.
    cbn -[Gemini.create_request_data raise_for_status py_getitem py_get py_getitem0 py_contains
          truthy Gemini.request_error_message system_message_for Gemini.image_given
          String.append String.concat].
    intros Hs. repeat step Hs. all: entries_done.
Qed.

Ltac pass_entries :=
  simplify_eq;
  first
    [ assumption
    | by cbn
    | match goal with
      | E : OpenAIChat.config_line _ _ = _ |- _ =>
          apply (chat_config_line_kept openai) in E as (_ & E & _); by rewrite E
      | E : GroqChat.config_line _ _ = _ |- _ =>
          apply (chat_config_line_kept groq) in E as (_ & E & _); by rewrite E
      | E : AnthropicChat.config_line _ _ = _ |- _ =>
          apply (chat_config_line_kept anthropic) in E as (_ & E & _); by rewrite E
      | E : GeminiChat.config_line _ _ = _ |- _ =>
          apply (chat_config_line_kept gemini) in E as (_ & E & _); by rewrite E
      end
    | match goal with
      | E : OpenAI.send_message (w_create ?w) ?m _ = _ |- _ =>
          apply (chat_send_entries openai w {| message := m; image_path := None |}) in E
            as (added & -> & Hadded); [by apply Forall_app | done]
      | E : Groq.send_message (w_create ?w) ?m _ = _ |- _ =>
          apply (chat_send_entries groq w {| message := m; image_path := None |}) in E
            as (added & -> & Hadded); [by apply Forall_app | done]
      | E : Anthropic.send_message (w_post ?w) ?m _ = _ |- _ =>
          apply (chat_send_entries anthropic w {| message := m; image_path := None |}) in E
            as (added & -> & Hadded); [by apply Forall_app | done]
      | E : Gemini.send_message (w_process_image ?w) _ ?m ?i _ = _ |- _ =>
          apply (chat_send_entries gemini w {| message := m; image_path := i |}) in E
            as (added & -> & Hadded); [by apply Forall_app | done]
      end ].

Lemma chat_pass_entries p t s s' r :
  p ≠ perplexity →
  chat_pass p t s = (s', r) →
  Forall message_entry (conversation_history s) →
  Forall message_entry (conversation_history s').
Proof.
  intros Hp. destruct p; [done | | | |]; cbn [chat_pass].
  - unfold OpenAIChat.run_chat_pass, reset_history. unfold_py.
    cbn -[OpenAI.send_message OpenAIChat.config_line truthy String.prefix String.eqb
          py_contains py_getitem].
    intros Hs Hentries. repeat step Hs. all: pass_entries.
  - unfold GroqChat.run_chat_pass, GroqChat.clear_history, reset_history. unfold_py.
    cbn -[Groq.send_message GroqChat.config_line truthy String.prefix String.eqb
          py_contains].
    intros Hs Hentries. repeat step Hs. all: pass_entries.
  - unfold AnthropicChat.run_chat_pass, AnthropicChat.clear_history, reset_history. unfold_py.
    cbn -[Anthropic.send_message AnthropicChat.config_line truthy String.prefix String.eqb
          py_contains].
    intros Hs Hentries. repeat step Hs. all: pass_entries.
  - unfold GeminiChat.run_chat_pass, GeminiChat.clear_history, reset_history. unfold_py.
    cbn -[Gemini.send_message GeminiChat.config_line truthy String.prefix String.eqb
          py_contains].
    intros Hs Hentries. repeat step Hs. all: pass_entries.
Qed.

Lemma chat_loop_entries p passes : ∀ s,
  p ≠ perplexity →
  Forall message_entry (conversation_history s) →
  Forall message_entry (conversation_history (chat_loop p passes s)).
Proof.
  induction passes as [| t rest IH]; intros s Hp Hentries; [done |].
  cbn [chat_loop]. destruct (chat_pass p t s) as [s1 r] eqn:Hpass.
  pose proof (chat_pass_entries _ _ _ _ _ Hp Hpass Hentries) as Hentries1.
  destruct r as [[] | e]; auto.
Qed.

(** A text is written as a whole, or the encoder raises and nothing of it
    is. *)
Lemma file_write_ok text written :
  file_write text = (written, Ok tt) → written = text ∧ utf8_error text = None.
Proof. unfold file_write. destruct (utf8_error text); by intros; simplify_eq. Qed.

Lemma file_write_raises text written e :
  file_write text = (written, Raise e) → utf8_error text = Some e.
Proof. unfold file_write. destruct (utf8_error text); by intros; simplify_eq. Qed.

Lemma and_then_ok first next written :
  and_then first next = (written, Ok tt) →
  ∃ written1 written2,
    first = (written1, Ok tt) ∧ next = (written2, Ok tt) ∧ written = written1 +:+ written2.
Proof.
  unfold and_then. destruct first as [written1 [[] | e]], next as [written2 [[] | e']];
    intros; simplify_eq. by eexists _, _.
Qed.

Lemma and_then_raises first next written e :
  and_then first next = (written, Raise e) →
  (∃ written1, first = (written1, Raise e))
  ∨ ∃ written2, next = (written2, Raise e).
Proof.
  unfold and_then. destruct first as [written1 [[] | e1]], next as [written2 [[] | e2]];
    intros; simplify_eq; eauto.
Qed.

Lemma and_then_done first : and_then first (EmptyString, Ok tt) = first.
Proof. destruct first as [written [[] | e]]; cbn; by rewrite ?string_app_nil_r. Qed.

Lemma write_lines_ok texts written :
  write_lines texts = (written, Ok tt) → written = String.concat EmptyString texts.
Proof.
  revert written. induction texts as [| text rest IH]; intros written; cbn [write_lines].
  - by intros; simplify_eq.
  - intros (written1 & written2 & [-> _]%file_write_ok & ->%IH & ->)%and_then_ok.
    destruct rest; [by rewrite string_app_nil_r | done].
Qed.

Lemma write_lines_raises texts written e :
  write_lines texts = (written, Raise e) →
  ∃ text, text ∈ texts ∧ utf8_error text = Some e.
Proof.
  revert written. induction texts as [| text rest IH]; intros written; cbn [write_lines];
    [done |].
  intros [[written1 Hfirst%file_write_raises] | [written2 (text' & Hin & Htext)%IH]]%and_then_raises.
  - exists text. split; [by left | done].
  - exists text'. split; [by right | done].
Qed.

(** An entry of a role and a content is one write, of its section, in the
    four classes that write no citations. *)
Lemma write_message_entry p role content :
  p ≠ perplexity →
  write_message p (VDict [("role", role); ("content", content)])
    = file_write (section_text role content).
Proof.
  intros Hp. unfold write_message. cbn [py_getitem dict_get String.eqb Ascii.eqb Bool.eqb].
  destruct p; [done | | | |]; apply and_then_done.
Qed.

Lemma write_messages_ok p history : ∀ written,
  p ≠ perplexity → Forall message_entry history →
  write_messages p history = (written, Ok tt) →
  ∃ sections, written = String.concat EmptyString sections
              ∧ Forall2 has_section history sections.
Proof.
  induction history as [| msg rest IH]; intros written Hp Hentries; cbn [write_messages].
  - intros; simplify_eq. by exists [].
  - apply Forall_cons in Hentries as [(role & content & ->) Hrest].
    rewrite write_message_entry by done.
    destruct (file_write (section_text (VStr role) content)) as [section [[] | e]] eqn:Hwrite;
      [| done].
    apply file_write_ok in Hwrite as [-> _].
    destruct (write_messages p rest) as [more [[] | e]] eqn:Hmore; [| done].
    intros; simplify_eq. destruct (IH _ Hp Hrest eq_refl) as (sections & -> & Hsections).
    exists (section_text (VStr role) content :: sections). split.
    + destruct sections; [by rewrite string_app_nil_r | done].
    + constructor; [by eexists _, _ | done].
Qed.

Lemma write_messages_raises p history : ∀ written e,
  p ≠ perplexity → Forall message_entry history →
  write_messages p history = (written, Raise e) →
  ∃ msg section, msg ∈ history ∧ has_section msg section ∧ utf8_error section = Some e.
Proof.
  induction history as [| msg rest IH]; intros written e Hp Hentries; cbn [write_messages];
    [done |].
  apply Forall_cons in Hentries as [(role & content & ->) Hrest].
  rewrite write_message_entry by done.
  destruct (file_write (section_text (VStr role) content)) as [section [[] | e']] eqn:Hwrite.
  - destruct (write_messages p rest) as [more r] eqn:Hmore. intros; simplify_eq.
    destruct (IH _ _ Hp Hrest eq_refl) as (msg & section' & Hin & Hsection & Herror).
    exists msg, section'. split; [by right | done].
  - intros; simplify_eq. apply file_write_raises in Hwrite.
    eexists _, _. split; [by left |]. split; [by eexists _, _ | done].
Qed.

(** The entries after one that cannot be written never reach the file. *)
Lemma write_messages_cut p before bad after e :
  Forall (λ msg, (write_message p msg).2 = Ok tt) before →
  (write_message p bad).2 = Raise e →
  write_messages p (before ++ bad :: after)
    = ((write_messages p before).1 +:+ (write_message p bad).1, Raise e).
Proof.
  intros Hbefore Hbad. induction Hbefore as [| msg rest Hmsg Hrest IH].
  - cbn. destruct (write_message p bad) as [written r]. cbn in Hbad. subst r.
    reflexivity.
  - cbn [app write_messages]. rewrite IH.
    destruct (write_message p msg) as [written r]. cbn in Hmsg. subst r.
    destruct (write_messages p rest) as [more r]. cbn. by rewrite string_app_assoc.
Qed.

End saving.


(** ** The saved file *)

(** X18: a conversation that OpenAIChat, GroqChat, AnthropicChat or
    GeminiChat has built is made of entries of a role and a content only,
    after any passes of the loop of a new instance. As long as the
    operating system lets every write through, saving it can therefore
    fail in three ways only: the folder cannot be made, the file cannot be
    opened, or the encoder of the file meets a lone surrogate, in the
    title, in the line of a config entry or in the section of a history
    entry. When [save_conversation] reports success, the file holds the
    title, the config and the section of every entry of the history, in
    their order. PerplexityChat, which stores the message of the provider
    as it came, is left out. *)
Theorem built_conversation_saves_in_full `{PyBuiltins} `{PyText} (p : provider) (w : world)
  (env : gmap string string) (s : session) (passes : list pass) (d : desk) :
  p ≠ perplexity →
  chat_init p w env = Ok s →
  let s' := chat_loop p passes s in
  Forall message_entry (conversation_history s')
  ∧ (∀ e, (save_conversation p d s').2 = Raise e →
       make_folder d = Raise e
       ∨ open_file d (file_name p d) = Raise e
       ∨ ∃ text,
           utf8_error text = Some e
           ∧ (text = title_line p d
              ∨ (∃ key value,
                   (key, value) ∈ config_items p (current_config s')
                   ∧ text = config_entry_line key value)
              ∨ ∃ msg, msg ∈ conversation_history s' ∧ has_section msg text))
  ∧ ((save_conversation p d s').2 = Ok tt →
       ∃ sections,
         (save_conversation p d s').1
           = Some (file_name p d,
                   title_line p d
                     +:+ "## Configurações" +:+ LF
                     +:+ String.concat EmptyString
                           (map (λ '(key, value), config_entry_line key value)
                              (config_items p (current_config s')))
                     +:+ LF
                     +:+ "## Conversa" +:+ LF +:+ LF
                     +:+ String.concat EmptyString sections)
         ∧ Forall2 has_section (conversation_history s') sections).
Proof.
  intros Hp Hinit s'. apply chat_init_fresh in Hinit as [Hempty _].
  assert (Forall message_entry (conversation_history s')) as Hentries.
  { apply chat_loop_entries; [done |]. rewrite Hempty. constructor. }
  split; [done |]. unfold save_conversation.
  destruct (make_folder d) as [[] | e1] eqn:Hfolder;
    [| split; [intros e He; cbn in He; simplify_eq; by left | done]].
  destruct (open_file d (file_name p d)) as [[] | e2] eqn:Hopen;
    [| split; [intros e He; cbn in He; simplify_eq; right; by left | done]].
  destruct (write_conversation p d s') as [written r] eqn:Hwrite. cbn [fst snd].
  unfold write_conversation in Hwrite. split.
  - intros e ->. right. right.
    apply and_then_raises in Hwrite as [[? Htitle%file_write_raises] | [? Hwrite]].
    { exists (title_line p d). split; [done | by left]. }
    apply and_then_raises in Hwrite as [[? Hfixed%file_write_raises] | [? Hwrite]].
    { vm_compute in Hfixed. discriminate Hfixed. }
    apply and_then_raises in Hwrite as [[? Hlines%write_lines_raises] | [? Hwrite]].
    { destruct Hlines as (text & Hin & Herror).
      apply list_elem_of_fmap in Hin as ([key value] & -> & Hin).
      exists (config_entry_line key value). split; [done |]. right. left. by exists key, value. }
    apply and_then_raises in Hwrite as [[? Hfixed%file_write_raises] | [? Hwrite]].
    { vm_compute in Hfixed. discriminate Hfixed. }
    apply and_then_raises in Hwrite as [[? Hfixed%file_write_raises] | [? Hwrite]].
    { vm_compute in Hfixed. discriminate Hfixed. }
    apply write_messages_raises in Hwrite as (msg & section & Hin & Hsection & Herror);
      [| done | done].
    exists section. split; [done |]. right. right. by exists msg.
  - intros ->.
    apply and_then_ok in Hwrite as (? & ? & [-> _]%file_write_ok & Hwrite & ->).
    apply and_then_ok in Hwrite as (? & ? & [-> _]%file_write_ok & Hwrite & ->).
    apply and_then_ok in Hwrite as (? & ? & ->%write_lines_ok & Hwrite & ->).
    apply and_then_ok in Hwrite as (? & ? & [-> _]%file_write_ok & Hwrite & ->).
    apply and_then_ok in Hwrite as (? & ? & [-> _]%file_write_ok & Hwrite & ->).
    apply write_messages_ok in Hwrite as (sections & -> & Hsections); [| done | done].
    exists sections. split; [| done]. by rewrite !string_app_assoc.
Qed.

(** GroqChat: a call while the network is down, then one that is
    answered. *)
Lemma built_conversation_saves_in_full_witness :
  let say line :=
    {| typed := line; answers := Examples.answering groq;
       path_exists := λ _, false; typed_question := EmptyString |} in
  let passes :=
    [{| typed := "hello"; answers := Examples.offline;
        path_exists := λ _, false; typed_question := EmptyString |};
     say "hello again"] in
  let d := {| make_folder := Ok tt; stamp := "20240101_120000";
              open_file := λ _, Ok tt; date := "01/01/2024 12:00:00" |} in
  let s := Session "sk-test" [] (default_config groq) in
  let s' := @chat_loop Interp.python Console.python_text groq passes s in
  Forall message_entry (conversation_history s')
  ∧ ∃ sections,
      (@save_conversation Interp.python groq d s').1
        = Some (file_name groq d,
                title_line groq d
                  +:+ "## Configurações" +:+ LF
                  +:+ String.concat EmptyString
                        (map (λ '(key, value), @config_entry_line Interp.python key value)
                           (config_items groq (current_config s')))
                  +:+ LF
                  +:+ "## Conversa" +:+ LF +:+ LF
                  +:+ String.concat EmptyString sections)
      ∧ Forall2 (@has_section Interp.python) (conversation_history s') sections.
Proof.
  intros say passes d s s'.
  destruct (@built_conversation_saves_in_full Interp.python Console.python_text groq
              (Examples.answering groq) {["GROQ_API_KEY" := "sk-test"]} s passes d
              ltac:(discriminate) ltac:(vm_compute; reflexivity))
    as (Hentries & _ & Hsaved).
  split; [exact Hentries |]. apply Hsaved. vm_compute. reflexivity.
Defined.

(** A line typed that holds a byte which [input] could not decode: the
    entry of the user is in the history, but the file ends before its
    section, and the method reports the error of the encoder. *)
Lemma lone_surrogate_is_not_saved :
  let undecoded := String (Ascii.ascii_of_nat 237)
                     (String (Ascii.ascii_of_nat 178) (String (Ascii.ascii_of_nat 128)
                        EmptyString)) in
  let passes :=
    [{| typed := "hello " +:+ undecoded; answers := Examples.offline;
        path_exists := λ _, false; typed_question := EmptyString |}] in
  let d := {| make_folder := Ok tt; stamp := "20240101_120000";
              open_file := λ _, Ok tt; date := "01/01/2024 12:00:00" |} in
  let s' := @chat_loop Interp.python Console.python_text groq passes
              (Session "sk-test" [] (default_config groq)) in
  conversation_history s' = [mk_user_message ("hello " +:+ undecoded)]
  ∧ (@save_conversation Interp.python groq d s').2
      = value_error
          "'utf-8' codec can't encode character '\udc80' in position 20: surrogates not allowed"
  ∧ ∃ written,
      (@save_conversation Interp.python groq d s').1 = Some (file_name groq d, written)
      ∧ String.index 0 "hello" written = None.
Proof.
  intros undecoded passes d s'. split; [vm_compute; reflexivity |].
  split; [vm_compute; reflexivity |]. eexists. split; vm_compute; reflexivity.
Qed.

(** X19: [save_conversation] stops at the first entry that it cannot
    write (one without a role or a content, with citations that cannot be
    iterated, or with a text that the encoder of the file refuses): the
    file keeps what was written up to there, and no later entry reaches
    it, so the saved file is the same whatever follows that entry in the
    history. *)
Theorem save_conversation_stops_at_unwritable_entry `{PyBuiltins} (p : provider) (d : desk)
  (key : string) (cfg : gmap string PyVal) (before after : list PyVal) (bad : PyVal)
  (e : exn) :
  Forall (λ msg, (write_message p msg).2 = Ok tt) before →
  (write_message p bad).2 = Raise e →
  write_messages p (before ++ bad :: after)
    = ((write_messages p before).1 +:+ (write_message p bad).1, Raise e)
  ∧ save_conversation p d (Session key (before ++ bad :: after) cfg)
    = save_conversation p d (Session key (before ++ [bad]) cfg).
Proof.
  intros Hbefore Hbad. split; [by apply write_messages_cut |].
  unfold save_conversation, write_conversation. cbn [conversation_history current_config].
  by rewrite !(write_messages_cut _ _ _ _ _ Hbefore Hbad).
Qed.

(** PerplexityChat: the second entry came from the provider without a
    role. *)
Lemma save_conversation_stops_at_unwritable_entry_witness :
  let d := {| make_folder := Ok tt; stamp := "20240101_120000";
              open_file := λ _, Ok tt; date := "01/01/2024 12:00:00" |} in
  let bad := VDict [("content", VStr "Oi")] in
  @save_conversation Interp.python perplexity d
    (Session "sk-test" ([mk_user_message "hello"] ++ bad :: [mk_user_message "and then?"])
       (default_config perplexity))
  = @save_conversation Interp.python perplexity d
      (Session "sk-test" ([mk_user_message "hello"] ++ [bad]) (default_config perplexity)).
Proof.
  intros d bad.
  apply (proj2 (@save_conversation_stops_at_unwritable_entry Interp.python perplexity d
                  "sk-test" (default_config perplexity) [mk_user_message "hello"]
                  [mk_user_message "and then?"] bad
                  (Exn KeyError (Key (VStr "role")) None)
                  ltac:(repeat constructor) ltac:(vm_compute; reflexivity))).
Defined.

(** ** Clearing the history *)

(** The message array of a request that was built: the messages given,
    after the system message in the three classes that send one there. *)
Lemma wire_messages_built `{PyBuiltins} p w c s r :
  p ≠ gemini →
  wire_request p w c s = Ok r →
  ∃ system,
    wire_messages r
      = Ok (VList (system ++ conversation_history s ++ [mk_user_message (message c)]))
    ∧ (system = [] ∨ ∃ text, system = [mk_system_message text]).
Proof.
  intros Hp. unfold wire_request, wire_messages. destruct p; [| | | | done].
  - unfold Perplexity.create_request_body, config_lookup, mbind, result_bind, mret, result_ret,
      key_error.
    intros Hr. repeat step Hr. all: simplify_eq; eexists [_]; split; [reflexivity | eauto].
  - unfold OpenAI.create_chat_params, config_lookup, fmap, result_fmap, mbind, result_bind,
      mret, result_ret, key_error.
    intros Hr. repeat step Hr. all: simplify_eq; eexists [_]; split; [reflexivity | eauto].
  - unfold Groq.create_chat_params, config_lookup, fmap, result_fmap, mbind, result_bind,
      mret, result_ret, key_error.
    intros Hr. repeat step Hr. all: simplify_eq; eexists [_]; split; [reflexivity | eauto].
  - unfold Anthropic.create_chat_params, config_lookup, mbind, result_bind, mret, result_ret,
      key_error.
    intros Hr. repeat step Hr. all: simplify_eq; exists []; split; [reflexivity | eauto].
Qed.

(** X20: clearing forgets: after [clear_conversation] or [clear_history]
    has returned, the history is empty while the key and the config are
    what they were, and the next request of PerplexityChat, OpenAIChat,
    GroqChat and AnthropicChat carries the new message of the user alone,
    after the system message where the class sends one, and no entry from
    before. *)
Theorem cleared_history_is_not_sent `{PyBuiltins} (p : provider) (s s1 : session)
  (w : world) (c : call) (r : request) :
  chat_clear p s = (s1, Ok tt) →
  s1 = Session (api_key s) [] (current_config s)
  ∧ (p ≠ gemini →
     wire_request p w c s1 = Ok r →
     ∃ system,
       wire_messages r = Ok (VList (system ++ [mk_user_message (message c)]))
       ∧ (system = [] ∨ ∃ text, system = [mk_system_message text])).
Proof.
  intros Hclear.
  assert (s1 = Session (api_key s) [] (current_config s)) as ->.
  { destruct p; cbn in Hclear;
      unfold PerplexityChat.clear_conversation, OpenAIChat.clear_conversation,
        GroqChat.clear_history, AnthropicChat.clear_history, GeminiChat.clear_history,
        reset_history in Hclear;
      unfold_py; cbn in Hclear; repeat step Hclear; by simplify_eq. }
  split; [done |]. intros Hp Hrequest.
  destruct (wire_messages_built _ _ _ _ _ Hp Hrequest) as (system & Hmessages & Hsystem).
  exists system. by split.
Qed.

(** GroqChat after an answered call. *)
Lemma cleared_history_is_not_sent_witness :
  let s := (@chat_send Interp.python groq (Examples.answering groq) Examples.hello
              (Examples.fresh groq)).1 in
  ∃ r system,
    @wire_request Interp.python groq (Examples.answering groq) Examples.hello
      (chat_clear groq s).1 = Ok r
    ∧ wire_messages r = Ok (VList (system ++ [mk_user_message "hello"]))
    ∧ (system = [] ∨ ∃ text, system = [mk_system_message text]).
Proof.
  intros s.
  destruct (@wire_request Interp.python groq (Examples.answering groq) Examples.hello
              (chat_clear groq s).1) as [r | e] eqn:Hrequest;
    [| vm_compute in Hrequest; discriminate Hrequest].
  destruct (proj2 (@cleared_history_is_not_sent Interp.python groq s (chat_clear groq s).1
                     (Examples.answering groq) Examples.hello r eq_refl)
              ltac:(discriminate) Hrequest) as (system & Hmessages & Hsystem).
  exists r, system. split; [reflexivity |]. split; [exact Hmessages | exact Hsystem].
Defined.
